(** * debate_watcher: the turn-taking orchestration engine

    A shallow embedding of [debate_watcher.py]: the session store (the
    [./debate] directory), the agent gateway ([call_claude], [call_codex]),
    the prompt builder, the turn executor, the orchestration loop and
    [main], and of the accessors of the dashboard ([app.py]) that read the
    same directory, followed by the properties of the specification that
    are settled on it and by further properties of the engine.

    Modelling conventions.
    - A Python [str] is a [string]; text is taken to be ASCII, so that
      [str.upper] acts on the letters a-z and [str.strip] on the ASCII
      white space (Python's [str.isspace] below code point 128).
    - A Python [int] is a [Z].
    - A directory is a [gmap string string] from file name to content; the
      session directory may be absent, hence an [option].
    - Side effects are threaded through a state-and-exception monad [M]:
      a raised exception keeps the changes that were made before it.
    - External processes, temporary-file names and the wall clock are
      outside the program; they are given by an [environment].  A process
      acts on the files outside the session directory only, and nothing
      interrupts the program from outside.
    - The [while] loop is a fixpoint on a number of iterations that is
      shown to be enough ([run_debate_loop_within_fuel]). *)

From Stdlib Require Import ZArith Ascii String List DecimalString Lia.
From stdpp Require Import base option gmap strings.
Import ListNotations.
Local Open Scope string_scope.
Local Open Scope Z_scope.

(** ** Python string operations *)

Definition LF : string := String (ascii_of_nat 10) EmptyString.
Definition DQ : string := String (ascii_of_nat 34) EmptyString.

(** [c.upper()] for an ASCII character. *)
Definition upper_ascii (c : ascii) : ascii :=
  let n := nat_of_ascii c in
  if ((97 <=? n)%nat && (n <=? 122)%nat)%bool then ascii_of_nat (n - 32) else c.

(** [s.upper()] *)
Fixpoint upper (s : string) : string :=
  match s with
  | EmptyString => EmptyString
  | String c s' => String (upper_ascii c) (upper s')
  end.

(** [c.isspace()] for an ASCII character: tab, line feed, vertical tab,
    form feed, carriage return, the four separators 28-31 and the space. *)
Definition isspace (c : ascii) : bool :=
  let n := nat_of_ascii c in
  (((9 <=? n)%nat && (n <=? 13)%nat) || ((28 <=? n)%nat && (n <=? 32)%nat))%bool.

Fixpoint lstrip (s : string) : string :=
  match s with
  | EmptyString => EmptyString
  | String c s' => if isspace c then lstrip s' else s
  end.

Fixpoint rstrip (s : string) : string :=
  match s with
  | EmptyString => EmptyString
  | String c s' =>
      match rstrip s' with
      | EmptyString => if isspace c then EmptyString else String c EmptyString
      | r => String c r
      end
  end.

(** [s.strip()] *)
Definition strip (s : string) : string := rstrip (lstrip s).

(** [s.startswith(p)] *)
Fixpoint startswith (p s : string) : bool :=
  match p with
  | EmptyString => true
  | String a p' =>
      match s with
      | EmptyString => false
      | String b s' => (Ascii.eqb a b && startswith p' s')%bool
      end
  end.

(** [needle in s] *)
Fixpoint contains (needle s : string) : bool :=
  match s with
  | EmptyString => startswith needle EmptyString
  | String _ s' => (startswith needle s || contains needle s')%bool
  end.

(** [s.count(needle)] for a non-empty needle: occurrences are counted from
    the left and do not overlap; [skip] characters are still covered by the
    occurrence found last. *)
Fixpoint count_from (needle s : string) (skip : nat) : nat :=
  match s with
  | EmptyString => 0%nat
  | String _ s' =>
      match skip with
      | S k => count_from needle s' k
      | O =>
          if startswith needle s
          then S (count_from needle s' (String.length needle - 1))
          else count_from needle s' 0
      end
  end.

Definition count (needle s : string) : nat := count_from needle s 0.

(** [str(n)] for an integer. *)
Definition str (n : Z) : string := NilZero.string_of_int (Z.to_int n).

(** [s[:n]] *)
Definition take_str (n : nat) (s : string) : string := String.substring 0 n s.

(** [c * n] for a one-character string [c]. *)
Fixpoint repeat_str (c : string) (n : nat) : string :=
  match n with
  | O => EmptyString
  | S k => c ++ repeat_str c k
  end.

(** Truthiness of a string: the empty string is false. *)
Definition truthy (s : string) : bool :=
  match s with EmptyString => false | _ => true end.

(** ** Configuration and prompt templates *)

Definition POLL_INTERVAL : Z := 2.

(** The wall-clock budget handed to [communicate] by both gateways. *)
Definition AGENT_TIMEOUT : Z := 600.

Definition PROPOSER_SYSTEM : string :=
"You are the PROPOSER in a structured debate. Your job is to propose solutions and refine them based on critique.

## Proposal Format

# Proposal (Round {round})

## Summary
[One paragraph overview]

## Detailed Approach
[Specific steps, architecture, implementation details]

## Addressing Previous Critique
[How you addressed each point raised - skip if Round 1]

## Trade-offs Acknowledged
[Known limitations and why they're acceptable]

## Guidelines

- Be specific and actionable
- Address ALL previous critiques explicitly
- Justify trade-offs
- Keep it focused - solve the goal, don't over-engineer
- Output ONLY the proposal, no preamble

## IMPORTANT: Follow Workflow Instructions

If the GOAL contains specific workflow instructions (e.g., " ++ DQ ++ "list 10 ideas first" ++ DQ ++ ", " ++ DQ ++ "brainstorm before narrowing" ++ DQ ++ "), you MUST follow them. Read the goal carefully for any process requirements.".

Definition CRITIC_SYSTEM : string :=
"You are the CRITIC in a structured debate. Your job is to rigorously evaluate proposals and push for better solutions — but also recognize when a proposal is good enough.

## Critique Format

# Critique (Round {round})

## Verdict
[NEEDS_REVISION | MINOR_ISSUES | CONSENSUS REACHED]

## What Works Well
[Genuine positives]

## Blocking Issues
[Problems that MUST be fixed - empty if none]

## Suggestions
[Improvements, prioritized]

## Consensus Criteria

Declare " ++ DQ ++ "CONSENSUS REACHED" ++ DQ ++ " as your verdict when:
- The proposal achieves the stated goal
- No blocking issues remain
- Trade-offs are reasonable
- Further iteration has diminishing returns

## IMPORTANT: When Declaring CONSENSUS REACHED

When you declare " ++ DQ ++ "CONSENSUS REACHED" ++ DQ ++ ", you MUST include a comprehensive summary section at the end:

### Debate Summary

#### Ideas Considered
[List ALL ideas that were proposed and debated, with one-line descriptions]

#### Debate Progression
[Brief timeline: what was proposed, what was critiqued, how ideas were narrowed down, key turning points]

#### Final Selected Idea
[Name of the selected idea]

#### Key Agreements Made
[Bullet list of all major agreements reached during the debate, including: scope, timeline, pricing, GTM strategy, validation criteria, trade-offs accepted, etc.]

#### Final Idea Details
[Comprehensive description of the final agreed idea with all specifications consolidated in one place]

## Guidelines

- Be constructive, not obstructive
- Be specific with critiques
- Suggest alternatives, don't just criticize
- Don't demand perfection when good enough suffices
- Output ONLY the critique, no preamble

## IMPORTANT: Follow Workflow Instructions

If the GOAL contains specific workflow instructions (e.g., " ++ DQ ++ "pick a few ideas to focus on" ++ DQ ++ ", " ++ DQ ++ "debate each idea" ++ DQ ++ "), you MUST follow them. Read the goal carefully for any process requirements.".

(** [template.format(round=r)]: every replacement field [{round}] of the
    template is replaced by [r]; [skip] characters of the field found last
    are still to be dropped.  The two templates have no other braces. *)
Fixpoint format_from (template r : string) (skip : nat) : string :=
  match template with
  | EmptyString => EmptyString
  | String c t' =>
      match skip with
      | S k => format_from t' r k
      | O =>
          if startswith "{round}" template
          then r ++ format_from t' r 6
          else String c (format_from t' r 0)
      end
  end.

Definition format_round (template : string) (round : Z) : string :=
  format_from template (str round) 0.

(** ** The state tag *)

Inductive State := PROPOSER_TURN | CRITIC_TURN | CONSENSUS.

(** [state.value] *)
Definition State_value (s : State) : string :=
  match s with
  | PROPOSER_TURN => "PROPOSER_TURN"
  | CRITIC_TURN => "CRITIC_TURN"
  | CONSENSUS => "CONSENSUS"
  end.

(** [State(v)]: the member with that value, if there is one. *)
Definition State_of_value (v : string) : option State :=
  if String.eqb v "PROPOSER_TURN" then Some PROPOSER_TURN
  else if String.eqb v "CRITIC_TURN" then Some CRITIC_TURN
  else if String.eqb v "CONSENSUS" then Some CONSENSUS
  else None.

(** ** The world the program runs in *)

Inductive signal := SIGTERM | SIGINT.

(** What the program does that an observer outside can see, in order. *)
Inductive event :=
| Stdout (line : string)                   (* print(line) *)
| Spawn (pid : nat) (argv : list string)   (* Popen(argv, start_new_session=True) *)
| Killpg (pgid : nat) (sig : signal)       (* os.killpg(pgid, sig) *)
| Sleep (seconds : Z).                     (* time.sleep(seconds) *)

(** The module-level globals set by [main]. *)
Record globals := mkGlobals {
  PROPOSER : string;
  CRITIC : string;
  MAX_ROUNDS : Z
}.

Definition default_globals : globals :=
  {| PROPOSER := "claude"; CRITIC := "codex"; MAX_ROUNDS := 10 |}.

Record world := mkWorld {
  debate : option (gmap string string);  (* DEBATE_DIR: None when it does not exist *)
  files : gmap string string;            (* every other file, by path *)
  events : list event;                   (* newest first *)
  current_process : option nat;          (* _current_process *)
  config : globals
}.

Definition with_debate (d : option (gmap string string)) (w : world) : world :=
  mkWorld d (files w) (events w) (current_process w) (config w).
Definition with_files (f : gmap string string) (w : world) : world :=
  mkWorld (debate w) f (events w) (current_process w) (config w).
Definition with_event (e : event) (w : world) : world :=
  mkWorld (debate w) (files w) (e :: events w) (current_process w) (config w).
Definition with_current_process (p : option nat) (w : world) : world :=
  mkWorld (debate w) (files w) (events w) p (config w).
Definition with_config (g : globals) (w : world) : world :=
  mkWorld (debate w) (files w) (events w) (current_process w) g.

(** What one run of an external program does: how long it runs, its exit
    status, what it writes on its two channels, and what it does to the
    files outside the session directory (a program told to write its answer
    to a file does so here). *)
Record execution := mkExecution {
  seconds : Z;
  returncode : Z;
  stdout : string;
  stderr : string;
  writes : gmap string string -> gmap string string
}.

Inductive behaviour :=
| NoSuchProgram                (* the executable cannot be started *)
| Runs (x : execution).

Record datetime := mkDatetime {
  year : nat; month : nat; day : nat; hour : nat; minute : nat
}.

(** Everything the program does not decide itself.  The index is the
    number of events so far, which serves as a logical time and as the
    process id of a process started then. *)
Record environment := mkEnvironment {
  program : nat -> list string -> behaviour;
  tmpname : nat -> string;
  now : nat -> datetime
}.

(** The handle returned by [Popen]. *)
Record process := mkProcess {
  pid : nat;
  args : list string;
  run : execution
}.

(** ** Exceptions and the monad *)

Inductive exn :=
| FileNotFoundError (path : string)
| ValueError (msg : string)
| TimeoutExpired (argv : list string) (timeout : Z)
| RuntimeError (msg : string)
| KeyboardInterrupt.

Inductive result (A : Type) :=
| Return (a : A)
| Raise (e : exn)
| OutOfFuel.
Arguments Return {A} a.
Arguments Raise {A} e.
Arguments OutOfFuel {A}.

Definition M (A : Type) : Type := world -> world * result A.

Definition ret {A} (a : A) : M A := fun w => (w, Return a).
Definition raise {A} (e : exn) : M A := fun w => (w, Raise e).

Definition bind {A B} (m : M A) (k : A -> M B) : M B :=
  fun w =>
    match m w with
    | (w', Return a) => k a w'
    | (w', Raise e) => (w', Raise e)
    | (w', OutOfFuel) => (w', OutOfFuel)
    end.

Declare Scope monad_scope.
Delimit Scope monad_scope with monad.
Notation "x <- m ;; k" := (bind m (fun x => k))
  (at level 100, m at next level, right associativity) : monad_scope.
Notation "m ;; k" := (bind m (fun _ => k))
  (at level 100, right associativity) : monad_scope.
Local Open Scope monad_scope.

Definition get : M world := fun w => (w, Return w).
Definition modify (f : world -> world) : M unit := fun w => (f w, Return tt).

(** [try: body  finally: final]: [final] runs whether [body] returns or
    raises; an exception of [body] is raised again after it unless [final]
    raises itself. *)
Definition try_finally {A} (body : M A) (final : M unit) : M A :=
  fun w =>
    match body w with
    | (w', OutOfFuel) => (w', OutOfFuel)
    | (w', r) =>
        match final w' with
        | (w'', Return _) => (w'', r)
        | (w'', Raise e) => (w'', Raise e)
        | (w'', OutOfFuel) => (w'', OutOfFuel)
        end
    end.

(** [try: body  except <handles>: handler]: [handles] selects the
    exceptions caught, [handler] receives the one caught. *)
Definition try_except {A} (body : M A) (handles : exn -> bool)
    (handler : exn -> M A) : M A :=
  fun w =>
    match body w with
    | (w', Raise e) => if handles e then handler e w' else (w', Raise e)
    | other => other
    end.

Definition is_TimeoutExpired (e : exn) : bool :=
  match e with TimeoutExpired _ _ => true | _ => false end.
Definition is_KeyboardInterrupt (e : exn) : bool :=
  match e with KeyboardInterrupt => true | _ => false end.

(** [print(line)] *)
Definition print (line : string) : M unit := modify (with_event (Stdout line)).

(** [time.sleep(seconds)] *)
Definition sleep (secs : Z) : M unit := modify (with_event (Sleep secs)).

(** ** Session store *)

(** [str(DEBATE_DIR / name)] *)
Definition debate_path (name : string) : string := "debate/" ++ name.

Definition read_file (name : string) : M string :=
  fun w =>
    match debate w with
    | Some d =>
        match d !! name with
        | Some content => (w, Return content)
        | None => (w, Raise (FileNotFoundError (debate_path name)))
        end
    | None => (w, Raise (FileNotFoundError (debate_path name)))
    end.

Definition write_file (name content : string) : M unit :=
  fun w =>
    match debate w with
    | Some d => (with_debate (Some (<[name := content]> d)) w, Return tt)
    | None => (w, Raise (FileNotFoundError (debate_path name)))
    end.

(** Opening for append creates the file when it is not there. *)
Definition append_file (name content : string) : M unit :=
  fun w =>
    match debate w with
    | Some d =>
        (with_debate (Some (<[name := default "" (d !! name) ++ content]> d)) w,
         Return tt)
    | None => (w, Raise (FileNotFoundError (debate_path name)))
    end.

Definition get_state : M State :=
  text <- read_file "state.md" ;;
  match State_of_value (strip text) with
  | Some s => ret s
  | None => raise (ValueError ("'" ++ strip text ++ "' is not a valid State"))
  end.

Definition set_state (state : State) : M unit :=
  write_file "state.md" (State_value state).

Definition PROPOSER_HEADER : string := "## [PROPOSER]".

Definition get_round : M Z :=
  history <- read_file "history.md" ;;
  ret (Z.of_nat (count PROPOSER_HEADER history) + 1).

(** ** Files outside the session directory *)

Definition path_exists (path : string) : M bool :=
  fun w => (w, Return (bool_decide (is_Some (files w !! path)))).

Definition path_read_text (path : string) : M string :=
  fun w =>
    match files w !! path with
    | Some content => (w, Return content)
    | None => (w, Raise (FileNotFoundError path))
    end.

(** [Path(path).unlink(missing_ok=True)] *)
Definition path_unlink (path : string) : M unit :=
  modify (fun w => with_files (delete path (files w)) w).

Definition set_current_process (p : option nat) : M unit :=
  modify (with_current_process p).

(** [os.killpg(os.getpgid(pid), sig)]: a process started in a session of
    its own leads its process group, whose id is the process id.  The
    process has not been waited for when this is called, so the group is
    there and the call does not fail. *)
Definition killpg_of (p : process) (sig : signal) : M unit :=
  modify (with_event (Killpg (pid p) sig)).

(** [proc.communicate(timeout=t)]: by the time the call is over the process
    has done to the files what it does; the call returns the two channels
    when the process is done within [t], and raises otherwise. *)
Definition communicate (p : process) (t : Z) : M (string * string) :=
  modify (fun w => with_files (writes (run p) (files w)) w) ;;
  if seconds (run p) <=? t
  then ret (stdout (run p), stderr (run p))
  else raise (TimeoutExpired (args p) t).

(** Strftime with ["%Y-%m-%d %H:%M"]. *)
Definition digits (n : nat) : string := NilZero.string_of_uint (Nat.to_uint n).
Definition pad (width : nat) (s : string) : string :=
  repeat_str "0" (width - String.length s) ++ s.
Definition strftime (d : datetime) : string :=
  pad 4 (digits (year d)) ++ "-" ++ pad 2 (digits (month d)) ++ "-"
    ++ pad 2 (digits (day d)) ++ " " ++ pad 2 (digits (hour d)) ++ ":"
    ++ pad 2 (digits (minute d)).

Section Engine.

Variable env : environment.

(** [subprocess.Popen(argv, ..., start_new_session=True)] *)
Definition Popen (argv : list string) : M process :=
  fun w =>
    let p := length (events w) in
    match program env p argv with
    | NoSuchProgram => (w, Raise (FileNotFoundError (hd "" argv)))
    | Runs x => (with_event (Spawn p argv) w, Return (mkProcess p argv x))
    end.

(** [tempfile.NamedTemporaryFile(mode='w', suffix='.txt', delete=False)],
    closed at once: an empty file that stays. *)
Definition NamedTemporaryFile : M string :=
  fun w =>
    let name := tmpname env (length (events w)) in
    (with_files (<[name := ""]> (files w)) w, Return name).

(** [datetime.now().strftime("%Y-%m-%d %H:%M")] *)
Definition timestamp_now : M string :=
  fun w => (w, Return (strftime (now env (length (events w))))).

(** ** Agent gateway *)

Definition call_claude (prompt : string) : M string :=
  print "    Running: claude -p '...' --dangerously-skip-permissions" ;;
  proc <- Popen ["claude"; "-p"; prompt; "--dangerously-skip-permissions"] ;;
  set_current_process (Some (pid proc)) ;;
  out_err <- try_finally
    (try_except (communicate proc AGENT_TIMEOUT) is_TimeoutExpired
       (fun e => killpg_of proc SIGTERM ;; raise e))
    (set_current_process None) ;;
  if negb (returncode (run proc) =? 0)
  then raise (RuntimeError ("Claude CLI failed: " ++ snd out_err))
  else ret (strip (fst out_err)).

Definition call_codex (prompt : string) : M string :=
  print "    Running: codex exec --dangerously-bypass-approvals-and-sandbox '...'" ;;
  output_file <- NamedTemporaryFile ;;
  output <- try_finally
    (proc <- Popen ["codex"; "exec"; "--dangerously-bypass-approvals-and-sandbox";
                    "-o"; output_file; prompt] ;;
     set_current_process (Some (pid proc)) ;;
     out_err <- try_finally
       (try_except (communicate proc AGENT_TIMEOUT) is_TimeoutExpired
          (fun e => killpg_of proc SIGTERM ;; raise e))
       (set_current_process None) ;;
     there <- path_exists output_file ;;
     if there : bool then path_read_text output_file else ret (fst out_err))
    (path_unlink output_file) ;;
  ret (strip output).

Definition call_agent (agent prompt : string) : M string :=
  if String.eqb agent "claude" then call_claude prompt
  else if String.eqb agent "codex" then call_codex prompt
  else raise (ValueError ("Unknown agent: " ++ agent)).

(** ** Prompt builder *)

Definition build_proposer_prompt (round_num : Z) : M string :=
  goal <- read_file "goal.md" ;;
  history <- read_file "history.md" ;;
  critique <- read_file "critic.md" ;;
  let system := format_round PROPOSER_SYSTEM round_num in
  ret (system ++ "

---

## GOAL

" ++ goal ++ "

## DEBATE HISTORY

" ++ history ++ "

## LATEST CRITIQUE

" ++ critique ++ "

---

Write your proposal for Round " ++ str round_num ++ ".").

Definition build_critic_prompt (round_num : Z) : M string :=
  goal <- read_file "goal.md" ;;
  history <- read_file "history.md" ;;
  proposal <- read_file "proposer.md" ;;
  let system := format_round CRITIC_SYSTEM round_num in
  ret (system ++ "

---

## GOAL

" ++ goal ++ "

## DEBATE HISTORY

" ++ history ++ "

## LATEST PROPOSAL

" ++ proposal ++ "

---

Evaluate this proposal for Round " ++ str round_num ++ ".").

(** ** Session creation *)

Definition mkdir_exist_ok : M unit :=
  modify (fun w => with_debate (Some (default ∅ (debate w))) w).

Definition rmtree : M unit := modify (with_debate None).

Definition debate_dir_exists : M bool :=
  fun w => (w, Return (bool_decide (is_Some (debate w)))).

Fixpoint create_files (l : list (string * string)) : M unit :=
  match l with
  | [] => ret tt
  | (filename, content) :: rest =>
      write_file filename content ;;
      print ("  Created " ++ debate_path filename) ;;
      create_files rest
  end.

Definition setup_debate_dir (goal : option string) : M unit :=
  mkdir_exist_ok ;;
  create_files
    [ ("goal.md", match goal with
                  | Some g => if truthy g then g
                              else "# Goal" ++ LF ++ LF ++ "[Define your goal here]"
                  | None => "# Goal" ++ LF ++ LF ++ "[Define your goal here]"
                  end);
      ("state.md", State_value PROPOSER_TURN);
      ("proposer.md", "# Proposal" ++ LF ++ LF ++ "(Awaiting first proposal)");
      ("critic.md", "# Critique" ++ LF ++ LF ++ "(No critique yet - this is Round 1)");
      ("history.md", "# Debate History" ++ LF ++ LF ++ "---" ++ LF) ].

(** ** Turn executor *)

Definition banner : string := repeat_str "=" 60.

(** What both turns show of a response: its first 800 characters. *)
Definition truncated (response : string) : string :=
  LF ++ take_str 800 response
     ++ (if (800 <? String.length response)%nat then "..." else "").

(** The Turn Record appended to [history.md]. *)
Definition turn_record (role : string) (round_num : Z) (timestamp response : string)
    : string :=
  LF ++ "## [" ++ role ++ "] Round " ++ str round_num ++ " (" ++ timestamp ++ ")"
     ++ LF ++ LF ++ response ++ LF ++ LF ++ "---" ++ LF.

Definition CONSENSUS_MARKER : string := "CONSENSUS REACHED".

Definition run_proposer_turn : M unit :=
  round_num <- get_round ;;
  g <- get ;;
  print (LF ++ banner) ;;
  print ("  PROPOSER (" ++ upper (PROPOSER (config g)) ++ ") - Round " ++ str round_num) ;;
  print banner ;;
  prompt <- build_proposer_prompt round_num ;;
  response <- call_agent (PROPOSER (config g)) prompt ;;
  write_file "proposer.md" response ;;
  timestamp <- timestamp_now ;;
  append_file "history.md" (turn_record "PROPOSER" round_num timestamp response) ;;
  print (truncated response) ;;
  set_state CRITIC_TURN ;;
  print (LF ++ "  → Next: CRITIC").

Definition run_critic_turn : M unit :=
  r <- get_round ;;
  let round_num := r - 1 in
  g <- get ;;
  print (LF ++ banner) ;;
  print ("  CRITIC (" ++ upper (CRITIC (config g)) ++ ") - Round " ++ str round_num) ;;
  print banner ;;
  prompt <- build_critic_prompt round_num ;;
  response <- call_agent (CRITIC (config g)) prompt ;;
  write_file "critic.md" response ;;
  timestamp <- timestamp_now ;;
  append_file "history.md" (turn_record "CRITIC" round_num timestamp response) ;;
  print (truncated response) ;;
  if contains CONSENSUS_MARKER (upper response)
  then
    set_state CONSENSUS ;;
    write_file "consensus.md"
      ("# Consensus Reached - Round " ++ str round_num ++ LF ++ LF ++ response) ;;
    print (LF ++ "  → CONSENSUS REACHED!")
  else
    set_state PROPOSER_TURN ;;
    print (LF ++ "  → Next: PROPOSER").

(** ** Orchestration loop *)

(** One [fuel] is spent per iteration of the [while] loop; [rounds] is the
    loop's counter of completed proposer turns. *)
Fixpoint debate_loop (fuel : nat) (rounds : Z) : M unit :=
  g <- get ;;
  if rounds <? MAX_ROUNDS (config g)
  then
    match fuel with
    | O => fun w => (w, OutOfFuel)
    | S fuel' =>
        state <- get_state ;;
        match state with
        | CONSENSUS =>
            print (LF ++ banner) ;;
            print "  DEBATE COMPLETE - CONSENSUS REACHED" ;;
            print banner ;;
            print "  Result: debate/consensus.md" ;;
            print "  History: debate/history.md"
        | PROPOSER_TURN =>
            run_proposer_turn ;;
            sleep POLL_INTERVAL ;;
            debate_loop fuel' (rounds + 1)
        | CRITIC_TURN =>
            run_critic_turn ;;
            sleep POLL_INTERVAL ;;
            debate_loop fuel' rounds
        end
    end
  else
    print (LF ++ banner) ;;
    print ("  MAX ROUNDS (" ++ str (MAX_ROUNDS (config g)) ++ ") REACHED") ;;
    print banner ;;
    print "  Resume with: python debate_watcher.py --resume --max-rounds 20".

(** A critic turn is never followed by another one, so the loop body runs
    at most twice per round of the budget. *)
Definition loop_fuel (max_rounds : Z) : nat := Z.to_nat (2 * max_rounds).

Definition run_debate_loop : M unit :=
  g <- get ;;
  print (LF ++ banner) ;;
  print "  DEBATE WATCHER STARTED" ;;
  print banner ;;
  print ("  Proposer: " ++ PROPOSER (config g)) ;;
  print ("  Critic:   " ++ CRITIC (config g)) ;;
  print ("  Max rounds: " ++ str (MAX_ROUNDS (config g))) ;;
  print banner ;;
  debate_loop (loop_fuel (MAX_ROUNDS (config g))) 0.

(** ** Entry point *)

(** The parsed command line. *)
Record arguments := mkArguments {
  arg_goal : option string;
  arg_goal_file : option string;
  arg_resume : bool;
  arg_proposer : string;
  arg_critic : string;
  arg_max_rounds : Z;
  arg_swap : bool
}.

Definition option_truthy (o : option string) : bool :=
  match o with Some s => truthy s | None => false end.

(** [main] after [parse_args].  The interrupt handler that [main] installs
    only runs on a signal from outside, which this model does not have;
    the [except KeyboardInterrupt] clause is kept. *)
Definition main (a : arguments) : M Z :=
  modify (fun w =>
    with_config
      (if arg_swap a
       then mkGlobals "codex" "claude" (arg_max_rounds a)
       else mkGlobals (arg_proposer a) (arg_critic a) (arg_max_rounds a)) w) ;;
  goal <-
    (if option_truthy (arg_goal a)
     then ret (Some ("# Goal" ++ LF ++ LF ++ default "" (arg_goal a)))
     else if option_truthy (arg_goal_file a)
     then text <- path_read_text (default "" (arg_goal_file a)) ;; ret (Some text)
     else ret None) ;;
  there <- debate_dir_exists ;;
  proceed <-
    (if arg_resume a
     then
       if negb there
       then print "Error: No debate to resume. Start with --goal" ;; ret false
       else print "Resuming from debate" ;; ret true
     else
       (if there : bool then rmtree else ret tt) ;;
       if negb (option_truthy goal)
       then print "Error: Provide --goal or --goal-file" ;; ret false
       else setup_debate_dir goal ;; ret true) ;;
  if proceed : bool
  then
    try_except run_debate_loop is_KeyboardInterrupt
      (fun _ => print (LF ++ LF ++ "  Paused. Resume with: python debate_watcher.py --resume")) ;;
    ret 0
  else ret 1.

End Engine.

(** * Notions used to state the properties *)

(** [String.append] is kept folded by [simpl]; this unfolds it on a
    string whose head is known. *)
Ltac norm_append :=
  repeat match goal with
  | |- context [String.append EmptyString ?s] =>
      change (String.append EmptyString s) with s
  | |- context [String.append (String ?c ?a) ?b] =>
      change (String.append (String c a) b) with (String c (String.append a b))
  end.

(** Reduces the projections of a world that is given by its updates. *)
Ltac run_store :=
  cbn [debate with_event with_debate with_files with_current_process with_config
       config events files current_process fst snd].

Ltac run_store_in H :=
  cbn [debate with_event with_debate with_files with_current_process with_config
       config events files current_process fst snd] in H.

(** The consensus marker occurs in [text] in some letter case: a part of
    the text reads as the marker once letter case is ignored. *)
Definition has_marker_any_case (text : string) : Prop :=
  exists before m after,
    text = before ++ m ++ after /\ upper m = CONSENSUS_MARKER.

(** The content of a file of the session directory, if both are there. *)
Definition file_of (w : world) (name : string) : option string :=
  match debate w with
  | Some d => d !! name
  | None => None
  end.

(** The processes started so far, newest first: process id and program. *)
Definition started (w : world) : list (nat * string) :=
  omap (fun e => match e with
                 | Spawn p argv => Some (p, hd "" argv)
                 | _ => None
                 end) (events w).

(** The command line names a goal file that is used (no goal text is
    given) and that cannot be read. *)
Definition goal_file_unreadable (a : arguments) (w : world) : bool :=
  negb (option_truthy (arg_goal a)) && option_truthy (arg_goal_file a)
    && bool_decide (files w !! default "" (arg_goal_file a) = None).

(** ** The prompt, in the words of the specification

    The prompt concatenates five parts: (a) the instruction block of the
    role, (b) the session goal, (c) the transcript so far, (d) the latest
    output of the other role, (e) the directive that names the round.
    Parts (b), (c) and (d) stand under a heading each, and a rule sets off
    the block before them and the directive after them. *)
Definition rule : string := LF ++ LF ++ "---" ++ LF ++ LF.

Definition under (heading text : string) : string :=
  heading ++ LF ++ LF ++ text.

Definition prompt_of (instructions goal transcript latest_heading latest directive
    : string) : string :=
  instructions ++ rule
    ++ under "## GOAL" goal ++ LF ++ LF
    ++ under "## DEBATE HISTORY" transcript ++ LF ++ LF
    ++ under latest_heading latest ++ rule
    ++ directive.

Definition proposer_prompt (round_num : Z) (goal history critique : string) : string :=
  prompt_of (format_round PROPOSER_SYSTEM round_num) goal history
    "## LATEST CRITIQUE" critique
    ("Write your proposal for Round " ++ str round_num ++ ".").

Definition critic_prompt (round_num : Z) (goal history proposal : string) : string :=
  prompt_of (format_round CRITIC_SYSTEM round_num) goal history
    "## LATEST PROPOSAL" proposal
    ("Evaluate this proposal for Round " ++ str round_num ++ ".").

(** ** The session directory after a completed turn *)

(** The number a proposer turn gives itself, from the transcript. *)
Definition proposer_round (history : string) : Z :=
  Z.of_nat (count PROPOSER_HEADER history) + 1.

(** The number a critic turn gives itself, from the transcript. *)
Definition critic_round (history : string) : Z :=
  Z.of_nat (count PROPOSER_HEADER history) + 1 - 1.

Definition after_proposer_turn (d : gmap string string)
    (history timestamp response : string) : gmap string string :=
  <["state.md" := State_value CRITIC_TURN]>
    (<["history.md" :=
         history ++ turn_record "PROPOSER" (proposer_round history) timestamp response]>
       (<["proposer.md" := response]> d)).

Definition critic_recorded (d : gmap string string)
    (history timestamp response : string) : gmap string string :=
  <["history.md" :=
      history ++ turn_record "CRITIC" (critic_round history) timestamp response]>
    (<["critic.md" := response]> d).

Definition after_critic_turn (d : gmap string string)
    (history timestamp response : string) : gmap string string :=
  if contains CONSENSUS_MARKER (upper response)
  then
    <["consensus.md" :=
        "# Consensus Reached - Round " ++ str (critic_round history)
          ++ LF ++ LF ++ response]>
      (<["state.md" := State_value CONSENSUS]>
         (critic_recorded d history timestamp response))
  else
    <["state.md" := State_value PROPOSER_TURN]>
      (critic_recorded d history timestamp response).

(** The session directory [setup_debate_dir] leaves, given the goal text. *)
Definition fresh_session (goal : string) : gmap string string :=
  <["history.md" := "# Debate History" ++ LF ++ LF ++ "---" ++ LF]>
    (<["critic.md" := "# Critique" ++ LF ++ LF ++ "(No critique yet - this is Round 1)"]>
       (<["proposer.md" := "# Proposal" ++ LF ++ LF ++ "(Awaiting first proposal)"]>
          (<["state.md" := State_value PROPOSER_TURN]>
             (<["goal.md" := goal]> ∅)))).

(** What the loop prints when the round budget is used up, newest first. *)
Definition budget_report (max_rounds : Z) : list event :=
  [ Stdout "  Resume with: python debate_watcher.py --resume --max-rounds 20";
    Stdout banner;
    Stdout ("  MAX ROUNDS (" ++ str max_rounds ++ ") REACHED");
    Stdout (LF ++ banner) ].

(** ** How a turn can end *)

(** The files a proposer turn reads are there. *)
Definition proposer_ready (w : world) (d : gmap string string)
    (goal history critique : string) : Prop :=
  debate w = Some d /\ d !! "goal.md" = Some goal /\
  d !! "history.md" = Some history /\ d !! "critic.md" = Some critique.

(** The files a critic turn reads are there. *)
Definition critic_ready (w : world) (d : gmap string string)
    (goal history proposal : string) : Prop :=
  debate w = Some d /\ d !! "goal.md" = Some goal /\
  d !! "history.md" = Some history /\ d !! "proposer.md" = Some proposal.

(** A turn of [role] run in [w] ended in [w'] with result [r]: a file was
    missing, or the agent invocation raised, or the agent answered and the
    answer was recorded. *)
Inductive proposer_turn_outcome (env : environment) (w w' : world)
    : result unit -> Prop :=
| proposer_unready path :
    (forall d g h c, ~ proposer_ready w d g h c) ->
    debate w' = debate w -> config w' = config w ->
    proposer_turn_outcome env w w' (Raise (FileNotFoundError path))
| proposer_agent_failed d g h c w1 e :
    proposer_ready w d g h c ->
    call_agent env (PROPOSER (config w))
      (proposer_prompt (proposer_round h) g h c) w1 = (w', Raise e) ->
    debate w' = debate w -> config w' = config w ->
    proposer_turn_outcome env w w' (Raise e)
| proposer_answered d g h c w1 w2 response :
    proposer_ready w d g h c ->
    call_agent env (PROPOSER (config w))
      (proposer_prompt (proposer_round h) g h c) w1 = (w2, Return response) ->
    debate w' =
      Some (after_proposer_turn d h (strftime (now env (length (events w2)))) response) ->
    config w' = config w ->
    proposer_turn_outcome env w w' (Return tt).

Inductive critic_turn_outcome (env : environment) (w w' : world)
    : result unit -> Prop :=
| critic_unready path :
    (forall d g h p, ~ critic_ready w d g h p) ->
    debate w' = debate w -> config w' = config w ->
    critic_turn_outcome env w w' (Raise (FileNotFoundError path))
| critic_agent_failed d g h p w1 e :
    critic_ready w d g h p ->
    call_agent env (CRITIC (config w))
      (critic_prompt (critic_round h) g h p) w1 = (w', Raise e) ->
    debate w' = debate w -> config w' = config w ->
    critic_turn_outcome env w w' (Raise e)
| critic_answered d g h p w1 w2 response :
    critic_ready w d g h p ->
    call_agent env (CRITIC (config w))
      (critic_prompt (critic_round h) g h p) w1 = (w2, Return response) ->
    debate w' =
      Some (after_critic_turn d h (strftime (now env (length (events w2)))) response) ->
    config w' = config w ->
    critic_turn_outcome env w w' (Return tt).

(** Every invocation of [agent] returns an answer, and the answer has [P]. *)
Definition always_answers (env : environment) (agent : string)
    (P : string -> Prop) : Prop :=
  forall prompt w, exists w' response,
    call_agent env agent prompt w = (w', Return response) /\ P response.

(** The iterations the loop can still make when [remaining] proposer
    turns are left in the budget and the state is [st]: a critic turn is
    never followed by another one. *)
Definition fuel_needed (remaining : Z) (st : State) : nat :=
  if remaining <=? 0 then 0%nat
  else match st with
       | PROPOSER_TURN => Z.to_nat (2 * remaining - 1)
       | CRITIC_TURN => Z.to_nat (2 * remaining)
       | CONSENSUS => 1%nat
       end.

(** ** The transcript as a list of Turn Records *)

Inductive role := Proposer | Critic.

Definition role_name (r : role) : string :=
  match r with Proposer => "PROPOSER" | Critic => "CRITIC" end.

Record turn := mkTurn {
  turn_role : role;
  turn_round : Z;
  turn_time : string;
  turn_content : string
}.

(** The text of a Turn Record in [history.md]. *)
Definition render (t : turn) : string :=
  turn_record (role_name (turn_role t)) (turn_round t) (turn_time t) (turn_content t).

Fixpoint render_all (l : list turn) : string :=
  match l with
  | [] => EmptyString
  | t :: l' => render t ++ render_all l'
  end.

(** What [setup_debate_dir] puts in [history.md]. *)
Definition TRANSCRIPT_OPENING : string :=
  "# Debate History" ++ LF ++ LF ++ "---" ++ LF.


(** [c] does not occur in [s]. *)
Fixpoint free_of (c : ascii) (s : string) : bool :=
  match s with
  | EmptyString => true
  | String x s' => negb (Ascii.eqb x c) && free_of c s'
  end.

(** A timestamp and an answer as a turn records them; [sound]: the
    timestamp has no [#] and the answer does not contain the heading that
    [get_round] counts. *)
Definition entry : Type := string * string.

Definition sound (e : entry) : Prop :=
  free_of "#" e.1 = true /\ contains PROPOSER_HEADER e.2 = false.

(** The records of the completed rounds [rounds] (proposal and critique
    each), numbered from [j], followed by the proposal that still waits for
    its critique, if any. *)
Fixpoint records_from (j : Z) (rounds : list (entry * entry))
    (pending : option entry) : list turn :=
  match rounds with
  | [] =>
      match pending with
      | Some p => [mkTurn Proposer j p.1 p.2]
      | None => []
      end
  | (p, c) :: rest =>
      mkTurn Proposer j p.1 p.2 :: mkTurn Critic j c.1 c.2
        :: records_from (j + 1) rest pending
  end.

(** The session directory is as the engine leaves it: the transcript is
    the opening followed by the records of some rounds, all of them sound,
    and the state is CRITIC_TURN exactly when a proposal waits. *)
Definition session_ok (d : gmap string string) : Prop :=
  exists rounds pending st,
    d !! "history.md"
      = Some (TRANSCRIPT_OPENING ++ render_all (records_from 1 rounds pending)) /\
    d !! "state.md" = Some (State_value st) /\
    (st = CRITIC_TURN <-> is_Some pending) /\
    Forall (fun r => sound r.1 /\ sound r.2) rounds /\
    (forall p, pending = Some p -> sound p).

Definition world_ok (w : world) : Prop :=
  forall d, debate w = Some d -> session_ok d.

(** No answer of an agent contains the heading of a proposer record. *)
Definition answers_free_of_header (env : environment) : Prop :=
  forall agent prompt w w' response,
    call_agent env agent prompt w = (w', Return response) ->
    contains PROPOSER_HEADER response = false.

(** The worlds a session goes through: there is no session directory at
    first, and then [main] is run any number of times, with any command
    line (new debate or resumption). *)
Inductive session_history (env : environment) : world -> Prop :=
| no_session w : debate w = None -> session_history env w
| after_run a w : session_history env w -> session_history env (main env a w).1.

(** ** Sample environments and command lines, for the concrete runs *)

(** A program that prints [out] and exits with status 0 after 5 seconds. *)
Definition says (out : string) : execution :=
  mkExecution 5 0 out "" (fun f => f).

(** A program that writes [out] to the file named after [-o] in a codex
    command line, prints nothing, and exits with status 0. *)
Definition answers_in_file (out : string) (argv : list string) : execution :=
  mkExecution 5 0 "" "" (fun f => <[nth 4 argv "" := out]> f).

(** A program that is still running after 700 seconds. *)
Definition hangs : execution :=
  mkExecution 700 0 "" "" (fun f => f).

(** A program that exits with status 1 and a diagnostic, having produced
    nothing. *)
Definition crashes (diagnostic : string) : execution :=
  mkExecution 1 1 "" diagnostic (fun f => f).

Definition sample_tmpname (t : nat) : string := "/tmp/tmp" ++ digits t ++ ".txt".

Definition sample_now (t : nat) : datetime := mkDatetime 2026 1 2 3 4.

(** [claude] behaves as [c], every other program as [x]. *)
Definition sample_env (c x : list string -> behaviour) : environment :=
  mkEnvironment
    (fun _ argv => if String.eqb (hd "" argv) "claude" then c argv else x argv)
    sample_tmpname sample_now.

(** Nothing on disk, nothing done yet. *)
Definition empty_world : world := mkWorld None ∅ [] None default_globals.

(** Command lines: a new debate on [goal], and the resumption of one. *)
Definition start (goal : string) (max_rounds : Z) : arguments :=
  mkArguments (Some goal) None false "claude" "codex" max_rounds false.

Definition resume (max_rounds : Z) : arguments :=
  mkArguments None None true "claude" "codex" max_rounds false.

(** The world after [--goal "pick a color" --max-rounds 1] run from
    nothing: one proposer turn has been recorded and a critic turn is due. *)
Definition after_first_proposal (env : environment) : world :=
  (main env (start "pick a color" 1) empty_world).1.

(** claude proposes; codex agrees, in lower case. *)
Definition env_agreeing : environment :=
  sample_env (fun _ => Runs (says "# Proposal: blue"))
             (fun argv => Runs (answers_in_file "Verdict: consensus reached." argv)).

(** claude proposes; codex asks for a revision. *)
Definition env_disagreeing : environment :=
  sample_env (fun _ => Runs (says "# Proposal: blue"))
             (fun argv => Runs (answers_in_file "Verdict: NEEDS_REVISION" argv)).

(** claude proposes; codex exits with status 1 and a diagnostic, having
    written nothing. *)
Definition env_codex_crashing : environment :=
  sample_env (fun _ => Runs (says "# Proposal: blue"))
             (fun _ => Runs (crashes "error: model unavailable")).


(** claude never comes back; codex would agree. *)
Definition env_claude_hanging : environment :=
  sample_env (fun _ => Runs hangs)
             (fun argv => Runs (answers_in_file "Verdict: consensus reached." argv)).


(** The world after [--goal "pick a color" --max-rounds 0] run from
    nothing: the session has been created and no turn has run. *)
Definition before_first_turn (env : environment) : world :=
  (main env (start "pick a color" 0) empty_world).1.

(** ** Output of the loop *)

(** What the loop prints when it starts, newest first. *)
Definition start_report (g : globals) : list event :=
  [ Stdout banner;
    Stdout ("  Max rounds: " ++ str (MAX_ROUNDS g));
    Stdout ("  Critic:   " ++ CRITIC g);
    Stdout ("  Proposer: " ++ PROPOSER g);
    Stdout banner;
    Stdout "  DEBATE WATCHER STARTED";
    Stdout (LF ++ banner) ].

(** What the loop prints when it finds the debate concluded, newest first. *)
Definition completion_report : list event :=
  [ Stdout "  History: debate/history.md";
    Stdout "  Result: debate/consensus.md";
    Stdout banner;
    Stdout "  DEBATE COMPLETE - CONSENSUS REACHED";
    Stdout (LF ++ banner) ].

(** The world [w] once [trace] (newest first) has been added to what
    happened; nothing else differs. *)
Definition and_then (trace : list event) (w : world) : world :=
  mkWorld (debate w) (files w) (trace ++ events w) (current_process w) (config w).

(** The session directory of [w'] is that of [w] with, at most, the files
    a turn writes changed, and a transcript that continues the one of [w]. *)
Definition session_extended (w w' : world) : Prop :=
  config w' = config w /\
  (debate w' = None <-> debate w = None) /\
  (forall name,
     name <> "proposer.md" -> name <> "critic.md" -> name <> "history.md" ->
     name <> "state.md" -> name <> "consensus.md" ->
     file_of w' name = file_of w name) /\
  match file_of w "history.md" with
  | Some history => exists added, file_of w' "history.md" = Some (history ++ added)
  | None => file_of w' "history.md" = None
  end.

(** The world after [--goal "pick a color" --max-rounds 2] run from nothing
    with an agreeing critic: consensus has been recorded. *)
Definition concluded (env : environment) : world :=
  (main env (start "pick a color" 2) empty_world).1.

(** A session whose [state.md] has been edited into something that names
    no state. *)
Definition with_state_file (text : string) (w : world) : world :=
  with_debate (Some (<["state.md" := text]> (default ∅ (debate w)))) w.

(** ** A session by its rounds *)

(** The session directory of [w] has the files a turn reads; its
    transcript holds the records of the completed rounds [rounds] and of
    the proposal [pending] that waits for its critique, all sound; and its
    state is [st]. *)
Definition session_at (w : world) (rounds : list (entry * entry))
    (pending : option entry) (st : State) : Prop :=
  exists d,
    debate w = Some d /\
    d !! "history.md"
      = Some (TRANSCRIPT_OPENING ++ render_all (records_from 1 rounds pending)) /\
    d !! "state.md" = Some (State_value st) /\
    is_Some (d !! "goal.md") /\ is_Some (d !! "proposer.md") /\
    is_Some (d !! "critic.md") /\
    Forall (fun r => sound r.1 /\ sound r.2) rounds /\
    (forall p, pending = Some p -> sound p).

(** The state a session is in when the loop is left between turns. *)
Definition turn_due (pending : option entry) : State :=
  match pending with Some _ => CRITIC_TURN | None => PROPOSER_TURN end.

(** An answer that does not contain the heading that [get_round] counts. *)
Definition clean (response : string) : Prop :=
  contains PROPOSER_HEADER response = false.

(** ** The command line *)

(** The globals [main] sets: [--swap] decides the roles when it is given. *)
Definition globals_of (a : arguments) : globals :=
  if arg_swap a
  then mkGlobals "codex" "claude" (arg_max_rounds a)
  else mkGlobals (arg_proposer a) (arg_critic a) (arg_max_rounds a).

(** The goal [main] takes from the command line: the text of [--goal]
    under a heading, else the content of the [--goal-file]; none when
    neither is given, or given empty; reading the file can fail. *)
Definition goal_given (a : arguments) (w : world) : result (option string) :=
  if option_truthy (arg_goal a)
  then Return (Some ("# Goal" ++ LF ++ LF ++ default "" (arg_goal a)))
  else if option_truthy (arg_goal_file a)
  then match files w !! default "" (arg_goal_file a) with
       | Some text => Return (Some text)
       | None => Raise (FileNotFoundError (default "" (arg_goal_file a)))
       end
  else Return None.

(** The last part of [main]: the loop, an interrupt caught, exit status 0. *)
Definition loop_in_main (env : environment) : M Z :=
  try_except (run_debate_loop env) is_KeyboardInterrupt
    (fun _ => print (LF ++ LF ++ "  Paused. Resume with: python debate_watcher.py --resume")) ;;
  ret 0.

(** * The dashboard ([app.py])

    The dashboard reads the session directory the engine writes.  Its
    accessors differ from the engine's: a file that is not there reads as
    the empty string, and the state is a string, not a [State]. *)

Module App.

(** [read_file]: the content of a file of the session directory, or the
    empty string when the file is not there. *)
Definition read_file (name : string) : M string :=
  fun w =>
    match debate w with
    | Some d =>
        match d !! name with
        | Some content => (w, Return content)
        | None => (w, Return "")
        end
    | None => (w, Return "")
    end.

Definition get_state : M string :=
  text <- read_file "state.md" ;;
  let state := strip text in
  ret (if truthy state then state else "NOT_STARTED").

(** The round [main] shows: [history.count("## [PROPOSER]")]. *)
Definition current_round : M Z :=
  history <- read_file "history.md" ;;
  ret (Z.of_nat (count "## [PROPOSER]" history)).

End App.

(** ** White space *)

(** Every character of [s] is white space for [str.strip]. *)
Fixpoint blank (s : string) : bool :=
  match s with
  | EmptyString => true
  | String c s' => isspace c && blank s'
  end.


(** ** A turn, step by step *)

(** The world in which a turn calls its agent: the turn has been
    announced, nothing else has happened. *)
Definition proposer_announced (w : world) (history : string) : world :=
  and_then
    [ Stdout banner;
      Stdout ("  PROPOSER (" ++ upper (PROPOSER (config w)) ++ ") - Round "
                ++ str (proposer_round history));
      Stdout (LF ++ banner) ] w.

Definition critic_announced (w : world) (history : string) : world :=
  and_then
    [ Stdout banner;
      Stdout ("  CRITIC (" ++ upper (CRITIC (config w)) ++ ") - Round "
                ++ str (critic_round history));
      Stdout (LF ++ banner) ] w.

(** The world a turn leaves when its agent has returned [response] in
    [w2]: the answer is recorded in the session directory [d] at the time
    of [w2], and shown. *)
Definition proposer_done (env : environment) (w2 : world) (d : gmap string string)
    (history response : string) : world :=
  mkWorld
    (Some (after_proposer_turn d history (strftime (now env (length (events w2))))
             response))
    (files w2)
    (Stdout (LF ++ "  → Next: CRITIC") :: Stdout (truncated response) :: events w2)
    (current_process w2) (config w2).

Definition critic_done (env : environment) (w2 : world) (d : gmap string string)
    (history response : string) : world :=
  mkWorld
    (Some (after_critic_turn d history (strftime (now env (length (events w2))))
             response))
    (files w2)
    (Stdout (if contains CONSENSUS_MARKER (upper response)
             then LF ++ "  → CONSENSUS REACHED!" else LF ++ "  → Next: PROPOSER")
       :: Stdout (truncated response) :: events w2)
    (current_process w2) (config w2).

(** What the process that a call of [agent] starts in [w] gives as its
    answer, before the gateway strips it: the standard output of claude;
    for codex the content of the file named after [-o], or the standard
    output when that file is gone. *)
Definition process_output (env : environment) (agent prompt : string) (w : world)
    : option string :=
  let t := S (length (events w)) in
  if String.eqb agent "claude"
  then match program env t ["claude"; "-p"; prompt; "--dangerously-skip-permissions"] with
       | Runs x => Some (stdout x)
       | NoSuchProgram => None
       end
  else if String.eqb agent "codex"
  then match program env t
               ["codex"; "exec"; "--dangerously-bypass-approvals-and-sandbox";
                "-o"; tmpname env t; prompt] with
       | Runs x =>
           Some (default (stdout x)
                   (writes x (<[tmpname env t := ""]> (files w)) !! tmpname env t))
       | NoSuchProgram => None
       end
  else None.

(** ** The turns a session has seen *)

(** A turn run in [w] completed and left [w']: its agent was called with
    the prompt built from the session directory, right after the turn was
    announced, and [e] is the time at which the answer was recorded,
    together with the answer that the call returned. *)
Definition proposer_turn_completed (env : environment) (w w' : world) (e : entry)
    : Prop :=
  exists d g h c w2,
    proposer_ready w d g h c /\
    call_agent env (PROPOSER (config w)) (proposer_prompt (proposer_round h) g h c)
      (proposer_announced w h) = (w2, Return e.2) /\
    e.1 = strftime (now env (length (events w2))) /\
    run_proposer_turn env w = (w', Return tt).

Definition critic_turn_completed (env : environment) (w w' : world) (e : entry)
    : Prop :=
  exists d g h p w2,
    critic_ready w d g h p /\
    call_agent env (CRITIC (config w)) (critic_prompt (critic_round h) g h p)
      (critic_announced w h) = (w2, Return e.2) /\
    e.1 = strftime (now env (length (events w2))) /\
    run_critic_turn env w = (w', Return tt).

(** The log of a session: [played env w rounds pending] when the session
    directory of [w] was created anew and has since seen exactly these
    turns complete, in this order - for each element of [rounds] a
    proposer turn and the critic turn that answered it, and then, if
    [pending] is there, one more proposer turn.  A turn is run in the
    state that calls for it, as the loop does; what else happens in
    between (output, sleep, a turn that fails, another run of [main] that
    resumes) leaves the session directory alone. *)
Inductive played (env : environment)
    : world -> list (entry * entry) -> option entry -> Prop :=
| played_new w goal :
    debate w = Some (fresh_session goal) -> played env w [] None
| played_proposal w w' rounds e :
    played env w rounds None ->
    (get_state w).2 = Return PROPOSER_TURN ->
    proposer_turn_completed env w w' e ->
    played env w' rounds (Some e)
| played_critique w w' rounds p e :
    played env w rounds (Some p) ->
    (get_state w).2 = Return CRITIC_TURN ->
    critic_turn_completed env w w' e ->
    played env w' (rounds ++ [(p, e)]) None
| played_pause w w' rounds pending :
    played env w rounds pending -> debate w' = debate w ->
    played env w' rounds pending.


(** * Properties *)

(** ** Strings *)

Example upper_mixed : upper "Consensus reached!" = "CONSENSUS REACHED!".
Proof. reflexivity. Qed.

Example strip_both : strip (LF ++ "  x y " ++ LF) = "x y".
Proof. reflexivity. Qed.

Example count_no_overlap : (count "ab" "abcabab", count "aa" "aaaaa") = (3%nat, 2%nat).
Proof. reflexivity. Qed.

Example str_samples : (str 0, str 12, str (-3)) = ("0", "12", "-3").
Proof. reflexivity. Qed.

Example format_round_sample :
  format_round "# Proposal (Round {round})" 12 = "# Proposal (Round 12)".
Proof. reflexivity. Qed.

Example strftime_sample : strftime (mkDatetime 2026 1 2 3 4) = "2026-01-02 03:04".
Proof. reflexivity. Qed.

Example State_round_trip :
  map (fun s => State_of_value (State_value s)) [PROPOSER_TURN; CRITIC_TURN; CONSENSUS]
    = [Some PROPOSER_TURN; Some CRITIC_TURN; Some CONSENSUS].
Proof. reflexivity. Qed.

Lemma append_String (c : ascii) (a b : string) :
  String c a ++ b = String c (a ++ b).
Proof. reflexivity. Qed.

Lemma append_assoc (a b c : string) : (a ++ b) ++ c = a ++ b ++ c.
Proof.
  induction a as [|x a IH]; norm_append; [reflexivity | now rewrite IH].
Qed.

Lemma append_empty_r (a : string) : a ++ "" = a.
Proof. induction a as [|x a IH]; norm_append; [reflexivity | now rewrite IH]. Qed.


Lemma upper_app (a b : string) : upper (a ++ b) = upper a ++ upper b.
Proof.
  induction a as [|c a IH]; norm_append; simpl; norm_append;
    [reflexivity | now rewrite IH].
Qed.

Lemma startswith_app (p t : string) : startswith p (p ++ t) = true.
Proof.
  induction p as [|c p IH]; norm_append; simpl; [reflexivity |].
  now rewrite Ascii.eqb_refl, IH.
Qed.

Lemma startswith_inv (p s : string) :
  startswith p s = true -> exists t, s = p ++ t.
Proof.
  revert s; induction p as [|c p IH]; intros s H; simpl in *.
  - now exists s.
  - destruct s as [|b s]; [discriminate |].
    apply andb_prop in H as [Hc Hp].
    apply Ascii.eqb_eq in Hc as ->.
    destruct (IH _ Hp) as [t ->]. now exists t.
Qed.

Lemma contains_startswith (needle s : string) :
  startswith needle s = true -> contains needle s = true.
Proof. destruct s; simpl; intros H; rewrite H; reflexivity. Qed.

Lemma contains_intro (needle a b : string) :
  contains needle (a ++ needle ++ b) = true.
Proof.
  induction a as [|c a IH]; norm_append; simpl.
  - apply contains_startswith, startswith_app.
  - rewrite IH. apply orb_true_r.
Qed.

Lemma contains_inv (needle s : string) :
  contains needle s = true -> exists a b, s = a ++ needle ++ b.
Proof.
  induction s as [|c s IH]; simpl; intros H.
  - destruct (startswith_inv _ _ H) as [t Ht]. now exists "", t.
  - apply orb_prop in H as [H | H].
    + destruct (startswith_inv _ _ H) as [t Ht]. now exists "", t.
    + destruct (IH H) as (a & b & ->). now exists (String c a), b.
Qed.

Lemma upper_split (s a b : string) :
  upper s = a ++ b -> exists a' b', s = a' ++ b' /\ upper a' = a /\ upper b' = b.
Proof.
  revert s; induction a as [|c a IH]; intros s H; norm_append.
  - now exists "", s.
  - rewrite append_String in H.
    destruct s as [|x s]; [discriminate |]. simpl in H.
    injection H as Hc Hs.
    destruct (IH _ Hs) as (a' & b' & -> & Ha & Hb).
    exists (String x a'), b'. simpl. now rewrite Hc, Ha.
Qed.

Lemma marker_check_spec (text : string) :
  contains CONSENSUS_MARKER (upper text) = true <-> has_marker_any_case text.
Proof.
  split.
  - intros H. apply contains_inv in H as (a & b & H).
    apply upper_split in H as (a' & r & -> & _ & Hr).
    apply upper_split in Hr as (m & b' & -> & Hm & _).
    now exists a', m, b'.
  - intros (a & m & b & -> & Hm).
    rewrite !upper_app, Hm. apply contains_intro.
Qed.

Lemma marker_check_false (text : string) :
  contains CONSENSUS_MARKER (upper text) = false <-> ~ has_marker_any_case text.
Proof.
  rewrite <- marker_check_spec. now destruct (contains _ _).
Qed.

(** ** Running the monad *)

Lemma bind_Return {A B} (m : M A) (k : A -> M B) (w w1 : world) (a : A) :
  m w = (w1, Return a) -> bind m k w = k a w1.
Proof. unfold bind. now intros ->. Qed.

Lemma bind_Raise {A B} (m : M A) (k : A -> M B) (w w1 : world) (e : exn) :
  m w = (w1, Raise e) -> bind m k w = (w1, Raise e).
Proof. unfold bind. now intros ->. Qed.

Lemma get_run (w : world) : get w = (w, Return w).
Proof. reflexivity. Qed.

Lemma modify_run (f : world -> world) (w : world) : modify f w = (f w, Return tt).
Proof. reflexivity. Qed.

Lemma print_run (line : string) (w : world) :
  print line w = (with_event (Stdout line) w, Return tt).
Proof. reflexivity. Qed.

Lemma sleep_run (secs : Z) (w : world) :
  sleep secs w = (with_event (Sleep secs) w, Return tt).
Proof. reflexivity. Qed.

Lemma timestamp_now_run (env : environment) (w : world) :
  timestamp_now env w = (w, Return (strftime (now env (length (events w))))).
Proof. reflexivity. Qed.

Lemma try_except_Return {A} (body : M A) (handles : exn -> bool)
    (handler : exn -> M A) (w w' : world) (a : A) :
  body w = (w', Return a) -> try_except body handles handler w = (w', Return a).
Proof. unfold try_except. now intros ->. Qed.

Lemma read_file_run (name : string) (w : world) (d : gmap string string)
    (content : string) :
  debate w = Some d -> d !! name = Some content ->
  read_file name w = (w, Return content).
Proof. unfold read_file. now intros -> ->. Qed.

Lemma read_file_missing (name : string) (w : world) :
  file_of w name = None ->
  read_file name w = (w, Raise (FileNotFoundError (debate_path name))).
Proof.
  unfold read_file, file_of. destruct (debate w) as [d|]; [| reflexivity].
  now intros ->.
Qed.

Lemma write_file_run (name content : string) (w : world) (d : gmap string string) :
  debate w = Some d ->
  write_file name content w
    = (with_debate (Some (<[name := content]> d)) w, Return tt).
Proof. unfold write_file. now intros ->. Qed.

Lemma append_file_run (name content : string) (w : world)
    (d : gmap string string) (old : string) :
  debate w = Some d -> d !! name = Some old ->
  append_file name content w
    = (with_debate (Some (<[name := old ++ content]> d)) w, Return tt).
Proof. unfold append_file. now intros -> ->. Qed.

Lemma set_state_run (s : State) (w : world) (d : gmap string string) :
  debate w = Some d ->
  set_state s w
    = (with_debate (Some (<["state.md" := State_value s]> d)) w, Return tt).
Proof. apply write_file_run. Qed.

Lemma get_state_run (w : world) (d : gmap string string) (s : State) :
  debate w = Some d -> d !! "state.md" = Some (State_value s) ->
  get_state w = (w, Return s).
Proof.
  intros Hd Hs. unfold get_state.
  rewrite (bind_Return _ _ _ _ _ (read_file_run _ _ _ _ Hd Hs)).
  now destruct s.
Qed.

Lemma get_state_world (w : world) : (get_state w).1 = w.
Proof.
  unfold get_state, bind, read_file.
  destruct (debate w) as [d|]; [| reflexivity].
  destruct (d !! "state.md") as [text|]; [| reflexivity].
  now destruct (State_of_value (strip text)).
Qed.

Lemma get_state_agrees (w : world) (d : gmap string string) (st st' : State) :
  debate w = Some d -> d !! "state.md" = Some (State_value st) ->
  (get_state w).2 = Return st' -> st' = st.
Proof.
  intros Hd Hs. rewrite (get_state_run w d st Hd Hs). cbn. congruence.
Qed.

Lemma get_round_run (w : world) (d : gmap string string) (history : string) :
  debate w = Some d -> d !! "history.md" = Some history ->
  get_round w = (w, Return (proposer_round history)).
Proof.
  intros Hd Hh. unfold get_round.
  rewrite (bind_Return _ _ _ _ _ (read_file_run _ _ _ _ Hd Hh)). reflexivity.
Qed.

Lemma get_round_missing (w : world) :
  file_of w "history.md" = None ->
  get_round w = (w, Raise (FileNotFoundError (debate_path "history.md"))).
Proof.
  intros H. unfold get_round.
  now rewrite (bind_Raise _ _ _ _ _ (read_file_missing _ _ H)).
Qed.

Lemma debate_dir_exists_absent (w : world) :
  debate w = None -> debate_dir_exists w = (w, Return false).
Proof. unfold debate_dir_exists. now intros ->. Qed.

(** ** Agent gateway *)

Lemma call_claude_frame (env : environment) (prompt : string) (w : world) :
  debate (call_claude env prompt w).1 = debate w /\
  config (call_claude env prompt w).1 = config w /\
  (call_claude env prompt w).2 <> OutOfFuel.
Proof.
  unfold call_claude, bind, print, modify, Popen, set_current_process,
    try_finally, try_except, communicate, killpg_of, raise, ret, bind, modify.
  cbn.
  destruct (program env _ _) as [|x]; cbn; [done |].
  destruct (seconds x <=? AGENT_TIMEOUT); cbn; [| done].
  destruct (returncode x =? 0); cbn; done.
Qed.

Lemma call_codex_frame (env : environment) (prompt : string) (w : world) :
  debate (call_codex env prompt w).1 = debate w /\
  config (call_codex env prompt w).1 = config w /\
  (call_codex env prompt w).2 <> OutOfFuel.
Proof.
  unfold call_codex, bind, print, modify, NamedTemporaryFile, Popen,
    set_current_process, try_finally, try_except, communicate, killpg_of,
    path_exists, path_read_text, path_unlink, raise, ret, bind, modify.
  cbn.
  destruct (program env _ _) as [|x]; cbn; [done |].
  destruct (seconds x <=? AGENT_TIMEOUT); cbn; [| done].
  case_bool_decide as Hthere; cbn.
  - destruct Hthere as [content Hc]. rewrite Hc. cbn. done.
  - done.
Qed.

Lemma call_agent_frame (env : environment) (agent prompt : string) (w : world) :
  debate (call_agent env agent prompt w).1 = debate w /\
  config (call_agent env agent prompt w).1 = config w /\
  (call_agent env agent prompt w).2 <> OutOfFuel.
Proof.
  unfold call_agent.
  destruct (String.eqb agent "claude"); [apply call_claude_frame |].
  destruct (String.eqb agent "codex"); [apply call_codex_frame |].
  done.
Qed.

(** What [call_codex] hands to [Popen]. *)
Lemma call_codex_cases (env : environment) (prompt : string) (w : world) :
  let t := S (length (events w)) in
  let tmp := tmpname env t in
  let argv := ["codex"; "exec"; "--dangerously-bypass-approvals-and-sandbox";
               "-o"; tmp; prompt] in
  let before := <[tmp := ""]> (files w) in
  let out := call_codex env prompt w in
  files out.1 !! tmp = None /\
  match program env t argv with
  | NoSuchProgram => out.2 = Raise (FileNotFoundError "codex") /\ events out.1 = Stdout "    Running: codex exec --dangerously-bypass-approvals-and-sandbox '...'" :: events w
  | Runs x =>
      if seconds x <=? 600
      then out.2 = Return (strip (default (stdout x) (writes x before !! tmp)))
      else out.2 = Raise (TimeoutExpired argv 600) /\
           exists line,
             events out.1 = Killpg t SIGTERM :: Spawn t argv :: Stdout line :: events w
  end.
Proof.
  unfold call_codex, bind, print, modify, NamedTemporaryFile, Popen,
    set_current_process, try_finally, try_except, communicate, killpg_of,
    path_exists, path_read_text, path_unlink, raise, ret, bind, modify.
  cbn.
  destruct (program env _ _) as [|x]; cbn.
  { split; [apply lookup_delete_eq | done]. }
  change AGENT_TIMEOUT with 600.
  destruct (seconds x <=? 600); cbn.
  - case_bool_decide as Hthere; cbn.
    + destruct Hthere as [content Hc]. rewrite Hc. cbn.
      split; [apply lookup_delete_eq | done].
    + split; [apply lookup_delete_eq |].
      destruct (writes x _ !! _) eqn:E; [| done].
      exfalso. apply Hthere. eauto.
  - split; [apply lookup_delete_eq |]. split; [done |]. eauto.
Qed.

Lemma call_claude_cases (env : environment) (prompt : string) (w : world) :
  let t := S (length (events w)) in
  let argv := ["claude"; "-p"; prompt; "--dangerously-skip-permissions"] in
  let out := call_claude env prompt w in
  match program env t argv with
  | NoSuchProgram => out.2 = Raise (FileNotFoundError "claude")
  | Runs x =>
      if seconds x <=? 600
      then out.2 = (if returncode x =? 0 then Return (strip (stdout x))
                    else Raise (RuntimeError ("Claude CLI failed: " ++ stderr x)))
      else out.2 = Raise (TimeoutExpired argv 600) /\
           exists line,
             events out.1 = Killpg t SIGTERM :: Spawn t argv :: Stdout line :: events w
  end.
Proof.
  unfold call_claude, bind, print, modify, Popen, set_current_process,
    try_finally, try_except, communicate, killpg_of, raise, ret, bind, modify.
  cbn.
  destruct (program env _ _) as [|x]; cbn; [done |].
  change AGENT_TIMEOUT with 600.
  destruct (seconds x <=? 600); cbn.
  - destruct (returncode x =? 0); cbn; done.
  - eauto.
Qed.

(** C5. When the process an agent invocation starts runs for more than the
    600 seconds [communicate] is given, either gateway sends SIGTERM to the
    process group of that process (the process was started in a session of
    its own, so the group is its own) - the last thing it does - and then
    raises [TimeoutExpired], an exception of its own kind: a failed exit
    status raises [RuntimeError], a missing program [FileNotFoundError]. *)
Theorem timeout_kills_process_group
    (env : environment) (agent prompt : string) (w : world) :
  agent = "claude" \/ agent = "codex" ->
  (forall argv, exists x,
      program env (S (length (events w))) argv = Runs x /\ 600 < seconds x) ->
  exists argv line w',
    call_agent env agent prompt w = (w', Raise (TimeoutExpired argv 600)) /\
    hd "" argv = agent /\
    events w' =
      Killpg (S (length (events w))) SIGTERM
        :: Spawn (S (length (events w))) argv :: Stdout line :: events w /\
    debate w' = debate w.
Proof.
  intros Hagent Hslow.
  destruct Hagent as [-> | ->]; unfold call_agent; cbn [String.eqb Ascii.eqb Bool.eqb].
  - pose proof (call_claude_cases env prompt w) as H. cbn zeta in H.
    destruct (Hslow ["claude"; "-p"; prompt; "--dangerously-skip-permissions"])
      as (x & Hx & Hlate).
    rewrite Hx in H. apply Z.leb_gt in Hlate. rewrite Hlate in H.
    destruct H as (Hr & line & Hev).
    destruct (call_claude_frame env prompt w) as (Hd & _).
    destruct (call_claude env prompt w) as [w' r]; cbn in *. subst r.
    now exists ["claude"; "-p"; prompt; "--dangerously-skip-permissions"], line, w'.
  - pose proof (call_codex_cases env prompt w) as H. cbn zeta in H.
    destruct (Hslow ["codex"; "exec"; "--dangerously-bypass-approvals-and-sandbox";
                     "-o"; tmpname env (S (length (events w))); prompt])
      as (x & Hx & Hlate).
    rewrite Hx in H. apply Z.leb_gt in Hlate. rewrite Hlate in H.
    destruct H as (_ & Hr & line & Hev).
    destruct (call_codex_frame env prompt w) as (Hd & _).
    destruct (call_codex env prompt w) as [w' r]; cbn in *. subst r.
    now eexists _, line, w'.
Qed.

Lemma timeout_kills_process_group_witness :
  exists argv line w',
    call_agent (sample_env (fun _ => Runs hangs) (fun _ => Runs hangs))
      "codex" "Evaluate." empty_world
      = (w', Raise (TimeoutExpired argv 600)) /\
    hd "" argv = "codex" /\
    events w' = [Killpg 1 SIGTERM; Spawn 1 argv; Stdout line] /\
    debate w' = None.
Proof.
  apply (timeout_kills_process_group
           (sample_env (fun _ => Runs hangs) (fun _ => Runs hangs))
           "codex" "Evaluate." empty_world).
  - right; reflexivity.
  - intros argv. exists hangs. split; [| reflexivity].
    cbn. now destruct (String.eqb _ _).
Defined.

(** C8. Whatever the codex process does - it cannot be started, it ends
    in time with any exit status, or it runs into the timeout - the
    temporary file that [call_codex] created and named after [-o] is gone
    when [call_codex] returns or raises. *)
Theorem codex_temp_file_always_deleted
    (env : environment) (prompt : string) (w : world) :
  let t := S (length (events w)) in
  let tmp := tmpname env t in
  let argv := ["codex"; "exec"; "--dangerously-bypass-approvals-and-sandbox";
               "-o"; tmp; prompt] in
  let out := call_codex env prompt w in
  files out.1 !! tmp = None /\
  match program env t argv with
  | NoSuchProgram => out.2 = Raise (FileNotFoundError "codex")
  | Runs x =>
      if seconds x <=? 600
      then exists text, out.2 = Return text
      else out.2 = Raise (TimeoutExpired argv 600)
  end.
Proof.
  cbn zeta.
  destruct (call_codex_cases env prompt w) as [Hgone Hout]. cbn zeta in Hout.
  split; [exact Hgone |].
  destruct (program env _ _) as [|x]; [tauto |].
  destruct (seconds x <=? 600); [eauto | tauto].
Qed.

(** C10. A codex process that ends in time and leaves the temporary file
    as [call_codex] created it (empty) makes [call_codex] return the empty
    string, whatever the process printed; what the process printed is
    returned only when the file is no longer there, and the content of the
    file whenever it is. *)
Theorem codex_untouched_file_gives_empty_answer
    (env : environment) (prompt : string) (w : world) (x : execution) :
  let t := S (length (events w)) in
  let tmp := tmpname env t in
  let argv := ["codex"; "exec"; "--dangerously-bypass-approvals-and-sandbox";
               "-o"; tmp; prompt] in
  let before := <[tmp := ""]> (files w) in
  program env t argv = Runs x ->
  seconds x <= 600 ->
  (writes x before !! tmp = before !! tmp ->
     (call_codex env prompt w).2 = Return "") /\
  (forall content, writes x before !! tmp = Some content ->
     (call_codex env prompt w).2 = Return (strip content)) /\
  (writes x before !! tmp = None ->
     (call_codex env prompt w).2 = Return (strip (stdout x))).
Proof.
  cbn zeta. intros Hx Hintime.
  destruct (call_codex_cases env prompt w) as [_ Hout]. cbn zeta in Hout.
  rewrite Hx in Hout. apply Z.leb_le in Hintime. rewrite Hintime in Hout.
  rewrite Hout. repeat split.
  - intros ->. now rewrite lookup_insert_eq.
  - now intros content ->.
  - now intros ->.
Qed.

Lemma codex_untouched_file_gives_empty_answer_witness :
  (call_codex
     (sample_env (fun _ => Runs (says "claude")) (fun _ => Runs (says "All good.")))
     "Evaluate." empty_world).2 = Return "".
Proof.
  refine (proj1 (codex_untouched_file_gives_empty_answer
            (sample_env (fun _ => Runs (says "claude")) (fun _ => Runs (says "All good.")))
            "Evaluate." empty_world (says "All good.") eq_refl _) eq_refl).
  vm_compute. discriminate.
Defined.

Lemma sample_claude_answers (out : string) (x : list string -> behaviour) :
  always_answers (sample_env (fun _ => Runs (says out)) x) "claude"
    (fun r => r = strip out).
Proof.
  intros prompt w.
  exists (call_claude (sample_env (fun _ => Runs (says out)) x) prompt w).1, (strip out).
  split; reflexivity.
Qed.

Lemma sample_codex_answers (out : string) (c : list string -> behaviour) :
  always_answers (sample_env c (fun argv => Runs (answers_in_file out argv))) "codex"
    (fun r => r = strip out).
Proof.
  intros prompt w.
  pose proof (call_codex_cases
                (sample_env c (fun argv => Runs (answers_in_file out argv))) prompt w)
    as [_ H].
  cbn -[call_codex] in H. rewrite lookup_insert_eq in H. cbn -[call_codex] in H.
  change (call_agent (sample_env c (fun argv => Runs (answers_in_file out argv)))
            "codex" prompt w)
    with (call_codex (sample_env c (fun argv => Runs (answers_in_file out argv)))
            prompt w).
  destruct (call_codex _ prompt w) as [w' r]. cbn in H. subst r. eauto.
Qed.

Lemma always_answers_weaken (env : environment) (agent : string)
    (P Q : string -> Prop) :
  (forall r, P r -> Q r) -> always_answers env agent P -> always_answers env agent Q.
Proof.
  intros HPQ H prompt w. destruct (H prompt w) as (w' & r & Hcall & HP). eauto.
Qed.

(** ** Prompt builder *)

Lemma build_proposer_prompt_run (round_num : Z) (w : world)
    (d : gmap string string) (goal history critique : string) :
  debate w = Some d ->
  d !! "goal.md" = Some goal ->
  d !! "history.md" = Some history ->
  d !! "critic.md" = Some critique ->
  build_proposer_prompt round_num w
    = (w, Return (proposer_prompt round_num goal history critique)).
Proof.
  intros Hd Hg Hh Hc.
  unfold build_proposer_prompt, bind, read_file, ret.
  repeat (rewrite ?Hd, ?Hg, ?Hh, ?Hc; cbv beta iota).
  unfold proposer_prompt, critic_prompt, prompt_of, under, rule. f_equal.
Qed.

Lemma build_critic_prompt_run (round_num : Z) (w : world)
    (d : gmap string string) (goal history proposal : string) :
  debate w = Some d ->
  d !! "goal.md" = Some goal ->
  d !! "history.md" = Some history ->
  d !! "proposer.md" = Some proposal ->
  build_critic_prompt round_num w
    = (w, Return (critic_prompt round_num goal history proposal)).
Proof.
  intros Hd Hg Hh Hc.
  unfold build_critic_prompt, bind, read_file, ret.
  repeat (rewrite ?Hd, ?Hg, ?Hh, ?Hc; cbv beta iota).
  unfold proposer_prompt, critic_prompt, prompt_of, under, rule. f_equal.
Qed.

Lemma build_proposer_prompt_cases (round_num : Z) (w : world) :
  (exists d g h c,
      proposer_ready w d g h c /\
      build_proposer_prompt round_num w = (w, Return (proposer_prompt round_num g h c)))
  \/ ((forall d g h c, ~ proposer_ready w d g h c) /\
      exists path, build_proposer_prompt round_num w = (w, Raise (FileNotFoundError path))).
Proof.
  unfold proposer_ready.
  destruct (debate w) as [d|] eqn:Hd;
    [destruct (d !! "goal.md") as [g|] eqn:Hg;
     [destruct (d !! "history.md") as [h|] eqn:Hh;
      [destruct (d !! "critic.md") as [c|] eqn:Hc |] |] |].
  - left. exists d, g, h, c. repeat split; try assumption.
    eapply build_proposer_prompt_run; eassumption.
  - right. split; [intros ? ? ? ? (? & ? & ? & ?); congruence |].
    eexists. unfold build_proposer_prompt, bind, read_file, ret.
    repeat (rewrite ?Hd, ?Hg, ?Hh, ?Hc; cbv beta iota). reflexivity.
  - right. split; [intros ? ? ? ? (? & ? & ? & ?); congruence |].
    eexists. unfold build_proposer_prompt, bind, read_file, ret.
    repeat (rewrite ?Hd, ?Hg, ?Hh; cbv beta iota). reflexivity.
  - right. split; [intros ? ? ? ? (? & ? & ? & ?); congruence |].
    eexists. unfold build_proposer_prompt, bind, read_file, ret.
    repeat (rewrite ?Hd, ?Hg; cbv beta iota). reflexivity.
  - right. split; [intros ? ? ? ? (? & ? & ? & ?); congruence |].
    eexists. unfold build_proposer_prompt, bind, read_file, ret.
    repeat (rewrite ?Hd; cbv beta iota). reflexivity.
Qed.

Lemma build_critic_prompt_cases (round_num : Z) (w : world) :
  (exists d g h p,
      critic_ready w d g h p /\
      build_critic_prompt round_num w = (w, Return (critic_prompt round_num g h p)))
  \/ ((forall d g h p, ~ critic_ready w d g h p) /\
      exists path, build_critic_prompt round_num w = (w, Raise (FileNotFoundError path))).
Proof.
  unfold critic_ready.
  destruct (debate w) as [d|] eqn:Hd;
    [destruct (d !! "goal.md") as [g|] eqn:Hg;
     [destruct (d !! "history.md") as [h|] eqn:Hh;
      [destruct (d !! "proposer.md") as [c|] eqn:Hc |] |] |].
  - left. exists d, g, h, c. repeat split; try assumption.
    eapply build_critic_prompt_run; eassumption.
  - right. split; [intros ? ? ? ? (? & ? & ? & ?); congruence |].
    eexists. unfold build_critic_prompt, bind, read_file, ret.
    repeat (rewrite ?Hd, ?Hg, ?Hh, ?Hc; cbv beta iota). reflexivity.
  - right. split; [intros ? ? ? ? (? & ? & ? & ?); congruence |].
    eexists. unfold build_critic_prompt, bind, read_file, ret.
    repeat (rewrite ?Hd, ?Hg, ?Hh; cbv beta iota). reflexivity.
  - right. split; [intros ? ? ? ? (? & ? & ? & ?); congruence |].
    eexists. unfold build_critic_prompt, bind, read_file, ret.
    repeat (rewrite ?Hd, ?Hg; cbv beta iota). reflexivity.
  - right. split; [intros ? ? ? ? (? & ? & ? & ?); congruence |].
    eexists. unfold build_critic_prompt, bind, read_file, ret.
    repeat (rewrite ?Hd; cbv beta iota). reflexivity.
Qed.

Lemma instruction_blocks_fixed :
  exists p_before p_after c_before c_after,
    forall r,
      format_round PROPOSER_SYSTEM r = p_before ++ str r ++ p_after /\
      format_round CRITIC_SYSTEM r = c_before ++ str r ++ c_after.
Proof.
  exists (String.substring 0 152 PROPOSER_SYSTEM),
         (String.substring 159 1000 PROPOSER_SYSTEM),
         (String.substring 0 212 CRITIC_SYSTEM),
         (String.substring 219 2000 CRITIC_SYSTEM).
  intros r. unfold format_round. generalize (str r) as n. intros n.
  split; vm_compute; reflexivity.
Qed.

(** C7. With the three files it reads in place, the prompt built for a
    role and a round is [proposer_prompt] or [critic_prompt]: the five
    parts of [prompt_of] in order - the role's instruction block (its
    template with the round number filled in), the goal under its heading,
    the whole transcript under its heading, the latest output of the other
    role under its heading, and the directive that names the round - and
    nothing else; building it changes nothing, and any world with the same
    session directory gives the same prompt. *)
Theorem prompt_is_function_of_store
    (round_num : Z) (w : world) (d : gmap string string)
    (goal history critique proposal : string) :
  debate w = Some d ->
  d !! "goal.md" = Some goal ->
  d !! "history.md" = Some history ->
  d !! "critic.md" = Some critique ->
  d !! "proposer.md" = Some proposal ->
  build_proposer_prompt round_num w
    = (w, Return (proposer_prompt round_num goal history critique)) /\
  build_critic_prompt round_num w
    = (w, Return (critic_prompt round_num goal history proposal)) /\
  (forall w2, debate w2 = debate w ->
     (build_proposer_prompt round_num w2).2 = (build_proposer_prompt round_num w).2 /\
     (build_critic_prompt round_num w2).2 = (build_critic_prompt round_num w).2).
Proof.
  intros Hd Hg Hh Hc Hp.
  split; [exact (build_proposer_prompt_run _ _ _ _ _ _ Hd Hg Hh Hc) |].
  split; [exact (build_critic_prompt_run _ _ _ _ _ _ Hd Hg Hh Hp) |].
  intros w2 Hsame. rewrite Hd in Hsame.
  rewrite (build_proposer_prompt_run round_num w2 _ _ _ _ Hsame Hg Hh Hc).
  rewrite (build_proposer_prompt_run round_num w _ _ _ _ Hd Hg Hh Hc).
  rewrite (build_critic_prompt_run round_num w2 _ _ _ _ Hsame Hg Hh Hp).
  rewrite (build_critic_prompt_run round_num w _ _ _ _ Hd Hg Hh Hp).
  split; reflexivity.
Qed.

Lemma prompt_is_function_of_store_witness :
  build_proposer_prompt 2 (after_first_proposal env_agreeing)
    = (after_first_proposal env_agreeing,
       Return (proposer_prompt 2
                 (default "" (file_of (after_first_proposal env_agreeing) "goal.md"))
                 (default "" (file_of (after_first_proposal env_agreeing) "history.md"))
                 (default "" (file_of (after_first_proposal env_agreeing) "critic.md")))).
Proof.
  refine (proj1 (prompt_is_function_of_store 2 (after_first_proposal env_agreeing)
            (default ∅ (debate (after_first_proposal env_agreeing)))
            (default "" (file_of (after_first_proposal env_agreeing) "goal.md"))
            (default "" (file_of (after_first_proposal env_agreeing) "history.md"))
            (default "" (file_of (after_first_proposal env_agreeing) "critic.md"))
            (default "" (file_of (after_first_proposal env_agreeing) "proposer.md"))
            _ _ _ _ _)); vm_compute; reflexivity.
Defined.

(** ** Turn executor *)

Lemma run_critic_turn_outcome (env : environment) (w : world) :
  critic_turn_outcome env w (run_critic_turn env w).1 (run_critic_turn env w).2.
Proof.
  destruct (file_of w "history.md") as [h0|] eqn:Hh0.
  2:{ unfold run_critic_turn.
      rewrite (bind_Raise _ _ _ _ _ (get_round_missing _ Hh0)). cbn [fst snd].
      apply critic_unready; [| reflexivity | reflexivity].
      intros d g h p (Hd & _ & Hh & _). unfold file_of in Hh0.
      rewrite Hd in Hh0. congruence. }
  unfold file_of in Hh0. destruct (debate w) as [d0|] eqn:Hd0; [| discriminate].
  unfold run_critic_turn.
  rewrite (bind_Return _ _ _ _ _ (get_round_run _ _ _ Hd0 Hh0)).
  rewrite (bind_Return _ _ _ _ _ (get_run _)).
  do 3 rewrite (bind_Return _ _ _ _ _ (print_run _ _)).
  match goal with
  | |- context [bind (build_critic_prompt ?r) _ ?w1] =>
      destruct (build_critic_prompt_cases r w1)
        as [(d & g & h & p & Hready & Hprompt) | (Hunready & path & Hprompt)]
  end.
  2:{ rewrite (bind_Raise _ _ _ _ _ Hprompt). cbn [fst snd].
      apply critic_unready; [exact Hunready | reflexivity | reflexivity]. }
  rewrite (bind_Return _ _ _ _ _ Hprompt).
  assert (d = d0 /\ h = h0) as [-> ->].
  { destruct Hready as (Hd & _ & Hh & _). run_store_in Hd.
    rewrite Hd0 in Hd. injection Hd as ->. split; congruence. }
  change (proposer_round h0 - 1) with (critic_round h0) in *.
  match goal with
  | |- context [bind (call_agent env ?a ?q) _ ?w1] =>
      pose proof (call_agent_frame env a q w1) as (Hframe & Hconfig & Hfuel);
      destruct (call_agent env a q w1) as [w2 [response | e |]] eqn:Hcall
  end; cbn [fst snd] in Hframe, Hconfig, Hfuel; run_store_in Hframe; run_store_in Hconfig.
  3:{ now contradiction Hfuel. }
  2:{ rewrite (bind_Raise _ _ _ _ _ Hcall). cbn [fst snd].
      eapply critic_agent_failed; [exact Hready | exact Hcall | | ]; congruence. }
  rewrite (bind_Return _ _ _ _ _ Hcall).
  assert (debate w2 = Some d0) as Hd2 by congruence.
  rewrite (bind_Return _ _ _ _ _ (write_file_run _ _ _ _ Hd2)).
  rewrite (bind_Return _ _ _ _ _ (timestamp_now_run _ _)).
  erewrite bind_Return;
    [| eapply append_file_run;
       [run_store; reflexivity
       | rewrite lookup_insert_ne by done; exact Hh0]].
  rewrite (bind_Return _ _ _ _ _ (print_run _ _)).
  run_store.
  destruct (contains CONSENSUS_MARKER (upper response)) eqn:Hmarker;
    repeat (erewrite bind_Return;
            [| first [eapply set_state_run | eapply write_file_run];
               run_store; reflexivity]);
    rewrite print_run; cbn [fst snd];
    (eapply critic_answered; [exact Hready | exact Hcall | | exact Hconfig]);
    unfold after_critic_turn, critic_recorded; rewrite Hmarker; reflexivity.
Qed.

Lemma run_proposer_turn_outcome (env : environment) (w : world) :
  proposer_turn_outcome env w (run_proposer_turn env w).1 (run_proposer_turn env w).2.
Proof.
  destruct (file_of w "history.md") as [h0|] eqn:Hh0.
  2:{ unfold run_proposer_turn.
      rewrite (bind_Raise _ _ _ _ _ (get_round_missing _ Hh0)). cbn [fst snd].
      apply proposer_unready; [| reflexivity | reflexivity].
      intros d g h p (Hd & _ & Hh & _). unfold file_of in Hh0.
      rewrite Hd in Hh0. congruence. }
  unfold file_of in Hh0. destruct (debate w) as [d0|] eqn:Hd0; [| discriminate].
  unfold run_proposer_turn.
  rewrite (bind_Return _ _ _ _ _ (get_round_run _ _ _ Hd0 Hh0)).
  rewrite (bind_Return _ _ _ _ _ (get_run _)).
  do 3 rewrite (bind_Return _ _ _ _ _ (print_run _ _)).
  match goal with
  | |- context [bind (build_proposer_prompt ?r) _ ?w1] =>
      destruct (build_proposer_prompt_cases r w1)
        as [(d & g & h & c & Hready & Hprompt) | (Hunready & path & Hprompt)]
  end.
  2:{ rewrite (bind_Raise _ _ _ _ _ Hprompt). cbn [fst snd].
      apply proposer_unready; [exact Hunready | reflexivity | reflexivity]. }
  rewrite (bind_Return _ _ _ _ _ Hprompt).
  assert (d = d0 /\ h = h0) as [-> ->].
  { destruct Hready as (Hd & _ & Hh & _). run_store_in Hd.
    rewrite Hd0 in Hd. injection Hd as ->. split; congruence. }
  match goal with
  | |- context [bind (call_agent env ?a ?q) _ ?w1] =>
      pose proof (call_agent_frame env a q w1) as (Hframe & Hconfig & Hfuel);
      destruct (call_agent env a q w1) as [w2 [response | e |]] eqn:Hcall
  end; cbn [fst snd] in Hframe, Hconfig, Hfuel; run_store_in Hframe; run_store_in Hconfig.
  3:{ now contradiction Hfuel. }
  2:{ rewrite (bind_Raise _ _ _ _ _ Hcall). cbn [fst snd].
      eapply proposer_agent_failed; [exact Hready | exact Hcall | | ]; congruence. }
  rewrite (bind_Return _ _ _ _ _ Hcall).
  assert (debate w2 = Some d0) as Hd2 by congruence.
  rewrite (bind_Return _ _ _ _ _ (write_file_run _ _ _ _ Hd2)).
  rewrite (bind_Return _ _ _ _ _ (timestamp_now_run _ _)).
  erewrite bind_Return;
    [| eapply append_file_run;
       [run_store; reflexivity
       | rewrite lookup_insert_ne by done; exact Hh0]].
  rewrite (bind_Return _ _ _ _ _ (print_run _ _)).
  erewrite bind_Return; [| eapply set_state_run; run_store; reflexivity].
  rewrite print_run; cbn [fst snd].
  eapply proposer_answered; [exact Hready | exact Hcall | | exact Hconfig].
  reflexivity.
Qed.

Lemma proposer_ready_inj (w : world) d g h c d' g' h' c' :
  proposer_ready w d g h c -> proposer_ready w d' g' h' c' ->
  d' = d /\ g' = g /\ h' = h /\ c' = c.
Proof.
  intros (Hd & Hg & Hh & Hc) (Hd' & Hg' & Hh' & Hc').
  rewrite Hd in Hd'. injection Hd' as <-. repeat split; congruence.
Qed.

Lemma critic_ready_inj (w : world) d g h p d' g' h' p' :
  critic_ready w d g h p -> critic_ready w d' g' h' p' ->
  d' = d /\ g' = g /\ h' = h /\ p' = p.
Proof.
  intros (Hd & Hg & Hh & Hc) (Hd' & Hg' & Hh' & Hc').
  rewrite Hd in Hd'. injection Hd' as <-. repeat split; congruence.
Qed.

Lemma run_proposer_turn_answers (env : environment) (w : world) d g h c
    (P : string -> Prop) :
  proposer_ready w d g h c ->
  always_answers env (PROPOSER (config w)) P ->
  exists w' ts response,
    run_proposer_turn env w = (w', Return tt) /\ P response /\
    debate w' = Some (after_proposer_turn d h ts response) /\
    config w' = config w.
Proof.
  intros Hready Hanswers.
  pose proof (run_proposer_turn_outcome env w) as Hout.
  destruct (run_proposer_turn env w) as [w' r]. cbn [fst snd] in Hout.
  inversion Hout as [path Hunready | d' g' h' c' w1 e Hready' Hcall
                    | d' g' h' c' w1 w2 response Hready' Hcall Hd' Hconfig].
  - now destruct (Hunready _ _ _ _ Hready).
  - destruct (Hanswers (proposer_prompt (proposer_round h') g' h' c') w1)
      as (? & ? & Hret & _). congruence.
  - destruct (proposer_ready_inj _ _ _ _ _ _ _ _ _ Hready Hready')
      as (-> & -> & -> & ->).
    destruct (Hanswers (proposer_prompt (proposer_round h) g h c) w1)
      as (w2' & response' & Hret & HP).
    rewrite Hcall in Hret. injection Hret as <- <-.
    now exists w', (strftime (now env (length (events w2)))), response.
Qed.

Lemma run_critic_turn_answers (env : environment) (w : world) d g h p
    (P : string -> Prop) :
  critic_ready w d g h p ->
  always_answers env (CRITIC (config w)) P ->
  exists w' ts response,
    run_critic_turn env w = (w', Return tt) /\ P response /\
    debate w' = Some (after_critic_turn d h ts response) /\
    config w' = config w.
Proof.
  intros Hready Hanswers.
  pose proof (run_critic_turn_outcome env w) as Hout.
  destruct (run_critic_turn env w) as [w' r]. cbn [fst snd] in Hout.
  inversion Hout as [path Hunready | d' g' h' c' w1 e Hready' Hcall
                    | d' g' h' c' w1 w2 response Hready' Hcall Hd' Hconfig].
  - now destruct (Hunready _ _ _ _ Hready).
  - destruct (Hanswers (critic_prompt (critic_round h') g' h' c') w1)
      as (? & ? & Hret & _). congruence.
  - destruct (critic_ready_inj _ _ _ _ _ _ _ _ _ Hready Hready')
      as (-> & -> & -> & ->).
    destruct (Hanswers (critic_prompt (critic_round h) g h p) w1)
      as (w2' & response' & Hret & HP).
    rewrite Hcall in Hret. injection Hret as <- <-.
    now exists w', (strftime (now env (length (events w2)))), response.
Qed.

Lemma after_proposer_turn_lookup (d : gmap string string) (h ts r : string) :
  after_proposer_turn d h ts r !! "state.md" = Some (State_value CRITIC_TURN) /\
  after_proposer_turn d h ts r !! "history.md"
    = Some (h ++ turn_record "PROPOSER" (proposer_round h) ts r) /\
  after_proposer_turn d h ts r !! "proposer.md" = Some r /\
  after_proposer_turn d h ts r !! "goal.md" = d !! "goal.md" /\
  after_proposer_turn d h ts r !! "critic.md" = d !! "critic.md".
Proof. unfold after_proposer_turn. repeat split; now simplify_map_eq. Qed.

Lemma after_critic_turn_lookup (d : gmap string string) (h ts r : string) :
  contains CONSENSUS_MARKER (upper r) = false ->
  after_critic_turn d h ts r !! "state.md" = Some (State_value PROPOSER_TURN) /\
  after_critic_turn d h ts r !! "history.md"
    = Some (h ++ turn_record "CRITIC" (critic_round h) ts r) /\
  after_critic_turn d h ts r !! "critic.md" = Some r /\
  after_critic_turn d h ts r !! "goal.md" = d !! "goal.md" /\
  after_critic_turn d h ts r !! "proposer.md" = d !! "proposer.md".
Proof.
  intros Hmarker. unfold after_critic_turn, critic_recorded. rewrite Hmarker.
  repeat split; now simplify_map_eq.
Qed.

(** What a turn is in terms of the call of its agent. *)
Lemma run_proposer_turn_run (env : environment) (w : world) d g h c :
  proposer_ready w d g h c ->
  run_proposer_turn env w =
    match call_agent env (PROPOSER (config w))
            (proposer_prompt (proposer_round h) g h c) (proposer_announced w h) with
    | (w2, Return response) => (proposer_done env w2 d h response, Return tt)
    | (w2, Raise e) => (w2, Raise e)
    | (w2, OutOfFuel) => (w2, OutOfFuel)
    end.
Proof.
  intros (Hd & Hg & Hh & Hc).
  unfold run_proposer_turn.
  rewrite (bind_Return _ _ _ _ _ (get_round_run _ _ _ Hd Hh)).
  rewrite (bind_Return _ _ _ _ _ (get_run _)).
  do 3 rewrite (bind_Return _ _ _ _ _ (print_run _ _)).
  change (with_event (Stdout banner)
            (with_event
               (Stdout ("  PROPOSER (" ++ upper (PROPOSER (config w)) ++ ") - Round "
                          ++ str (proposer_round h)))
               (with_event (Stdout (LF ++ banner)) w)))
    with (proposer_announced w h).
  rewrite (bind_Return _ _ _ _ _
             (build_proposer_prompt_run _ (proposer_announced w h) d g h c Hd Hg Hh Hc)).
  pose proof (call_agent_frame env (PROPOSER (config w))
                (proposer_prompt (proposer_round h) g h c) (proposer_announced w h))
    as (Hframe & Hconfig & Hfuel).
  destruct (call_agent env (PROPOSER (config w))
              (proposer_prompt (proposer_round h) g h c) (proposer_announced w h))
    as [w2 [response | e |]] eqn:Hcall; cbn [fst snd] in Hframe, Hconfig, Hfuel.
  3:{ now contradiction Hfuel. }
  2:{ now rewrite (bind_Raise _ _ _ _ _ Hcall). }
  rewrite (bind_Return _ _ _ _ _ Hcall).
  assert (debate w2 = Some d) as Hd2 by (rewrite Hframe; exact Hd).
  rewrite (bind_Return _ _ _ _ _ (write_file_run _ _ _ _ Hd2)).
  rewrite (bind_Return _ _ _ _ _ (timestamp_now_run _ _)).
  erewrite bind_Return;
    [| eapply append_file_run;
       [run_store; reflexivity
       | rewrite lookup_insert_ne by done; exact Hh]].
  rewrite (bind_Return _ _ _ _ _ (print_run _ _)).
  erewrite bind_Return; [| eapply set_state_run; run_store; reflexivity].
  rewrite print_run. reflexivity.
Qed.

Lemma run_critic_turn_run (env : environment) (w : world) d g h p :
  critic_ready w d g h p ->
  run_critic_turn env w =
    match call_agent env (CRITIC (config w))
            (critic_prompt (critic_round h) g h p) (critic_announced w h) with
    | (w2, Return response) => (critic_done env w2 d h response, Return tt)
    | (w2, Raise e) => (w2, Raise e)
    | (w2, OutOfFuel) => (w2, OutOfFuel)
    end.
Proof.
  intros (Hd & Hg & Hh & Hp).
  unfold run_critic_turn.
  rewrite (bind_Return _ _ _ _ _ (get_round_run _ _ _ Hd Hh)).
  rewrite (bind_Return _ _ _ _ _ (get_run _)).
  do 3 rewrite (bind_Return _ _ _ _ _ (print_run _ _)).
  change (proposer_round h - 1) with (critic_round h).
  change (with_event (Stdout banner)
            (with_event
               (Stdout ("  CRITIC (" ++ upper (CRITIC (config w)) ++ ") - Round "
                          ++ str (critic_round h)))
               (with_event (Stdout (LF ++ banner)) w)))
    with (critic_announced w h).
  rewrite (bind_Return _ _ _ _ _
             (build_critic_prompt_run _ (critic_announced w h) d g h p Hd Hg Hh Hp)).
  pose proof (call_agent_frame env (CRITIC (config w))
                (critic_prompt (critic_round h) g h p) (critic_announced w h))
    as (Hframe & Hconfig & Hfuel).
  destruct (call_agent env (CRITIC (config w))
              (critic_prompt (critic_round h) g h p) (critic_announced w h))
    as [w2 [response | e |]] eqn:Hcall; cbn [fst snd] in Hframe, Hconfig, Hfuel.
  3:{ now contradiction Hfuel. }
  2:{ now rewrite (bind_Raise _ _ _ _ _ Hcall). }
  rewrite (bind_Return _ _ _ _ _ Hcall).
  assert (debate w2 = Some d) as Hd2 by (rewrite Hframe; exact Hd).
  rewrite (bind_Return _ _ _ _ _ (write_file_run _ _ _ _ Hd2)).
  rewrite (bind_Return _ _ _ _ _ (timestamp_now_run _ _)).
  erewrite bind_Return;
    [| eapply append_file_run;
       [run_store; reflexivity
       | rewrite lookup_insert_ne by done; exact Hh]].
  rewrite (bind_Return _ _ _ _ _ (print_run _ _)).
  run_store. unfold critic_done, after_critic_turn, critic_recorded.
  destruct (contains CONSENSUS_MARKER (upper response)) eqn:Hmarker;
    repeat (erewrite bind_Return;
            [| first [eapply set_state_run | eapply write_file_run];
               run_store; reflexivity]);
    rewrite print_run; reflexivity.
Qed.

(** A call that returns has started one process: its answer is what that
    process gave, stripped. *)
Lemma call_agent_answer (env : environment) (agent prompt : string) (w w' : world)
    (response : string) :
  call_agent env agent prompt w = (w', Return response) ->
  (exists raw, process_output env agent prompt w = Some raw /\ response = strip raw) /\
  started w' = (S (length (events w)), agent) :: started w.
Proof.
  unfold call_agent, process_output. cbv zeta.
  destruct (String.eqb_spec agent "claude") as [-> | _].
  - unfold call_claude, bind, print, modify, Popen, set_current_process,
      try_finally, try_except, communicate, killpg_of, raise, ret, bind, modify.
    cbn. destruct (program env _ _) as [|x]; cbn; [discriminate |].
    destruct (seconds x <=? AGENT_TIMEOUT); cbn; [| discriminate].
    destruct (returncode x =? 0); cbn; [| discriminate].
    intros [= <- <-]. split; [eauto | reflexivity].
  - destruct (String.eqb_spec agent "codex") as [-> | _]; [| discriminate].
    unfold call_codex, bind, print, modify, NamedTemporaryFile, Popen,
      set_current_process, try_finally, try_except, communicate, killpg_of,
      path_exists, path_read_text, path_unlink, raise, ret, bind, modify.
    cbn. destruct (program env _ _) as [|x]; cbn; [discriminate |].
    destruct (seconds x <=? AGENT_TIMEOUT); cbn; [| discriminate].
    case_bool_decide as Hthere; cbn.
    + destruct Hthere as [content Hc]. rewrite Hc. cbn.
      intros [= <- <-]. split; [eauto | reflexivity].
    + intros [= <- <-]. split; [| reflexivity].
      eexists. split; [reflexivity |].
      destruct (writes x _ !! _) eqn:E; [destruct Hthere; eauto | reflexivity].
Qed.

(** ** Critic turn and consensus *)






(** ** A failed agent invocation *)


(** C4, where the code departs from it.  The critic is codex; its process
    exits with status 1, having written nothing.  [call_codex] does not look
    at the exit status (as [call_claude] does), so the turn completes: an
    empty critique is stored, a Turn Record is appended and the state moves
    on to PROPOSER_TURN. *)
Lemma codex_exit_status_is_ignored :
  (forall t argv, hd "" argv = "codex" ->
     program env_codex_crashing t argv = Runs (crashes "error: model unavailable")) /\
  returncode (crashes "error: model unavailable") = 1 /\
  file_of (after_first_proposal env_codex_crashing) "state.md" = Some "CRITIC_TURN" /\
  started (after_first_proposal env_codex_crashing) = [(16%nat, "claude")] /\
  (run_critic_turn env_codex_crashing (after_first_proposal env_codex_crashing)).2
    = Return tt /\
  started (run_critic_turn env_codex_crashing
             (after_first_proposal env_codex_crashing)).1
    = [(28%nat, "codex"); (16%nat, "claude")] /\
  file_of (run_critic_turn env_codex_crashing
             (after_first_proposal env_codex_crashing)).1 "state.md"
    = Some "PROPOSER_TURN" /\
  file_of (run_critic_turn env_codex_crashing
             (after_first_proposal env_codex_crashing)).1 "critic.md"
    = Some "" /\
  file_of (run_critic_turn env_codex_crashing
             (after_first_proposal env_codex_crashing)).1 "history.md"
    = Some (default "" (file_of (after_first_proposal env_codex_crashing) "history.md")
              ++ turn_record "CRITIC" 1 "2026-01-02 03:04" "").
Proof.
  split.
  { intros t argv Hcodex. cbn. now rewrite Hcodex. }
  repeat apply conj; vm_compute; reflexivity.
Qed.

(** ** Resuming without a session *)

(** C9, as the code has it.  Asked to resume when there is no session
    directory, [main] starts no process, creates no directory and leaves
    every file alone.  It prints the missing-session message and returns
    exit status 1 - unless the command line also names a goal file that is
    used and cannot be read: [main] reads the goal before it looks at
    [--resume], so then the read fails first and nothing is printed. *)
Theorem resume_without_session_starts_nothing
    (env : environment) (a : arguments) (w : world) :
  arg_resume a = true ->
  debate w = None ->
  debate (main env a w).1 = None /\
  files (main env a w).1 = files w /\
  if goal_file_unreadable a w
  then (main env a w).2 = Raise (FileNotFoundError (default "" (arg_goal_file a))) /\
       events (main env a w).1 = events w
  else (main env a w).2 = Return 1 /\
       events (main env a w).1
         = Stdout "Error: No debate to resume. Start with --goal" :: events w.
Proof.
  intros Hresume Habsent.
  unfold main, goal_file_unreadable.
  rewrite (bind_Return _ _ _ _ _ (modify_run _ _)).
  match goal with |- context [with_config ?g w] => set (w0 := with_config g w) end.
  assert (debate w0 = None) as Habsent0 by exact Habsent.
  assert (files w0 = files w) as Hfiles0 by reflexivity.
  assert (events w0 = events w) as Hevents0 by reflexivity.
  assert (forall goal : option string,
            (there <- debate_dir_exists ;;
             proceed <-
               (if arg_resume a
                then
                  if negb there
                  then print "Error: No debate to resume. Start with --goal" ;; ret false
                  else print "Resuming from debate" ;; ret true
                else
                  (if there : bool then rmtree else ret tt) ;;
                  if negb (option_truthy goal)
                  then print "Error: Provide --goal or --goal-file" ;; ret false
                  else setup_debate_dir goal ;; ret true) ;;
             if proceed : bool
             then
               try_except (run_debate_loop env) is_KeyboardInterrupt
                 (fun _ => print (LF ++ LF ++ "  Paused. Resume with: python debate_watcher.py --resume")) ;;
               ret 0
             else ret 1) w0
            = (with_event (Stdout "Error: No debate to resume. Start with --goal") w0,
               Return 1)) as Hrest.
  { intros goal.
    rewrite (bind_Return _ _ _ _ _ (debate_dir_exists_absent _ Habsent0)).
    rewrite Hresume. cbn [negb].
    rewrite (bind_Return _ _ _ _ _ (bind_Return _ _ _ _ _ (print_run _ _))).
    reflexivity. }
  destruct (option_truthy (arg_goal a)); cbn [negb andb].
  - rewrite (bind_Return _ _ _ w0 (Some ("# Goal" ++ LF ++ LF ++ default "" (arg_goal a))) eq_refl).
    rewrite Hrest. run_store. now rewrite Habsent0, Hfiles0, Hevents0.
  - destruct (option_truthy (arg_goal_file a)); cbn [andb].
    + rewrite <- Hfiles0.
      destruct (files w0 !! default "" (arg_goal_file a)) as [text|] eqn:Htext.
      * rewrite bool_decide_eq_false_2 by done.
        rewrite (bind_Return _ _ _ w0 (Some text)).
        2:{ unfold bind, path_read_text. now rewrite Htext. }
        rewrite Hrest. run_store. now rewrite Habsent0, Hevents0.
      * rewrite bool_decide_eq_true_2 by done.
        rewrite (bind_Raise _ _ _ w0 (FileNotFoundError (default "" (arg_goal_file a)))).
        2:{ unfold bind, path_read_text. now rewrite Htext. }
        run_store. now rewrite Habsent0, Hevents0.
    + rewrite (bind_Return _ _ _ w0 None eq_refl).
      rewrite Hrest. run_store. now rewrite Habsent0, Hfiles0, Hevents0.
Qed.

Lemma resume_without_session_starts_nothing_witness :
  debate (main env_agreeing (resume 10) empty_world).1 = None /\
  files (main env_agreeing (resume 10) empty_world).1 = ∅ /\
  (main env_agreeing (resume 10) empty_world).2 = Return 1 /\
  events (main env_agreeing (resume 10) empty_world).1
    = [Stdout "Error: No debate to resume. Start with --goal"].
Proof.
  exact (resume_without_session_starts_nothing env_agreeing (resume 10) empty_world
           eq_refl eq_refl).
Defined.

(** C9, as stated, fails: asked to resume with no session directory and
    with [--goal-file goal.txt] where there is no such file, [main] raises
    the read error and prints nothing. *)
Lemma resume_with_unreadable_goal_file_raises :
  (main env_agreeing
     (mkArguments None (Some "goal.txt") true "claude" "codex" 10 false)
     empty_world).2 = Raise (FileNotFoundError "goal.txt") /\
  events (main env_agreeing
            (mkArguments None (Some "goal.txt") true "claude" "codex" 10 false)
            empty_world).1 = [].
Proof. split; vm_compute; reflexivity. Qed.

(** ** Orchestration loop *)

Lemma debate_loop_proposer (env : environment) (fuel : nat) (rounds : Z)
    (w w' : world) :
  rounds < MAX_ROUNDS (config w) ->
  get_state w = (w, Return PROPOSER_TURN) ->
  run_proposer_turn env w = (w', Return tt) ->
  debate_loop env (S fuel) rounds w
    = debate_loop env fuel (rounds + 1) (with_event (Sleep POLL_INTERVAL) w').
Proof.
  intros Hlt Hstate Hturn. cbn [debate_loop].
  rewrite (bind_Return _ _ _ _ _ (get_run _)).
  apply Z.ltb_lt in Hlt. rewrite Hlt.
  rewrite (bind_Return _ _ _ _ _ Hstate).
  rewrite (bind_Return _ _ _ _ _ Hturn).
  now rewrite (bind_Return _ _ _ _ _ (sleep_run _ _)).
Qed.

Lemma debate_loop_critic (env : environment) (fuel : nat) (rounds : Z)
    (w w' : world) :
  rounds < MAX_ROUNDS (config w) ->
  get_state w = (w, Return CRITIC_TURN) ->
  run_critic_turn env w = (w', Return tt) ->
  debate_loop env (S fuel) rounds w
    = debate_loop env fuel rounds (with_event (Sleep POLL_INTERVAL) w').
Proof.
  intros Hlt Hstate Hturn. cbn [debate_loop].
  rewrite (bind_Return _ _ _ _ _ (get_run _)).
  apply Z.ltb_lt in Hlt. rewrite Hlt.
  rewrite (bind_Return _ _ _ _ _ Hstate).
  rewrite (bind_Return _ _ _ _ _ Hturn).
  now rewrite (bind_Return _ _ _ _ _ (sleep_run _ _)).
Qed.

Lemma debate_loop_exhausted (env : environment) (fuel : nat) (rounds : Z)
    (w : world) :
  MAX_ROUNDS (config w) <= rounds ->
  exists w',
    debate_loop env fuel rounds w = (w', Return tt) /\
    debate w' = debate w /\ config w' = config w /\
    events w' = (budget_report (MAX_ROUNDS (config w)) ++ events w)%list.
Proof.
  intros Hge. apply Z.ltb_ge in Hge.
  eexists. split.
  - destruct fuel; cbn [debate_loop];
      rewrite (bind_Return _ _ _ _ _ (get_run _)); rewrite Hge;
      do 3 rewrite (bind_Return _ _ _ _ _ (print_run _ _));
      rewrite print_run; reflexivity.
  - now split.
Qed.

Lemma setup_debate_dir_run (goal : string) (w : world) :
  debate w = None -> truthy goal = true ->
  exists w',
    setup_debate_dir (Some goal) w = (w', Return tt) /\
    debate w' = Some (fresh_session goal) /\ config w' = config w.
Proof.
  intros Habsent Hgoal.
  unfold setup_debate_dir, mkdir_exist_ok, create_files, fresh_session.
  rewrite Hgoal.
  rewrite (bind_Return _ _ _ _ _ (modify_run _ _)).
  rewrite Habsent. cbn [default from_option].
  repeat (erewrite bind_Return; [| eapply write_file_run; run_store; reflexivity];
          rewrite (bind_Return _ _ _ _ _ (print_run _ _))).
  eexists. split; [reflexivity |]. split; reflexivity.
Qed.

Lemma setup_debate_dir_fresh (goal : option string) (w : world) :
  debate w = None ->
  exists text, debate (setup_debate_dir goal w).1 = Some (fresh_session text).
Proof.
  intros Habsent.
  unfold setup_debate_dir, mkdir_exist_ok, create_files, fresh_session.
  rewrite (bind_Return _ _ _ _ _ (modify_run _ _)).
  rewrite Habsent. cbn [default from_option].
  repeat (erewrite bind_Return; [| eapply write_file_run; run_store; reflexivity];
          rewrite (bind_Return _ _ _ _ _ (print_run _ _))).
  eexists. reflexivity.
Qed.

Lemma run_debate_loop_run (env : environment) (w : world) :
  exists w1,
    run_debate_loop env w
      = debate_loop env (loop_fuel (MAX_ROUNDS (config w))) 0 w1 /\
    debate w1 = debate w /\ config w1 = config w.
Proof.
  unfold run_debate_loop.
  rewrite (bind_Return _ _ _ _ _ (get_run _)).
  do 7 rewrite (bind_Return _ _ _ _ _ (print_run _ _)).
  eexists. split; [reflexivity |]. split; reflexivity.
Qed.

Lemma debate_loop_within_fuel (env : environment) (fuel : nat) (rounds : Z) (w : world) :
  (rounds < MAX_ROUNDS (config w) -> (1 <= fuel)%nat) ->
  (forall st, (get_state w).2 = Return st ->
     (fuel_needed (MAX_ROUNDS (config w) - rounds) st <= fuel)%nat) ->
  (debate_loop env fuel rounds w).2 <> OutOfFuel.
Proof.
  revert rounds w.
  induction fuel as [|fuel IH]; intros rounds w Hone Hneed; cbn [debate_loop];
    rewrite (bind_Return _ _ _ _ _ (get_run _));
    destruct (Z.ltb_spec rounds (MAX_ROUNDS (config w))) as [Hlt | Hge];
    try (do 3 rewrite (bind_Return _ _ _ _ _ (print_run _ _)); rewrite print_run;
         discriminate).
  - specialize (Hone Hlt). lia.
  - pose proof (get_state_world w) as Hsame.
    destruct (get_state w) as [w0 [st | e |]] eqn:Hstate; cbn [fst] in Hsame; subst w0.
    2:{ now rewrite (bind_Raise _ _ _ _ _ Hstate). }
    2:{ exfalso. clear -Hstate. unfold get_state, bind, read_file in Hstate.
        destruct (debate w) as [d|]; [| discriminate].
        destruct (d !! "state.md") as [text|]; [| discriminate].
        now destruct (State_of_value (strip text)). }
    rewrite (bind_Return _ _ _ _ _ Hstate).
    specialize (Hneed st eq_refl). unfold fuel_needed in Hneed.
    destruct (Z.leb_spec (MAX_ROUNDS (config w) - rounds) 0) as [? | Hpos]; [lia |].
    destruct st.
    + pose proof (run_proposer_turn_outcome env w) as Hout.
      destruct (run_proposer_turn env w) as [w1 r] eqn:Hrun. cbn [fst snd] in Hout.
      inversion Hout as [path Hunready Hd' Hc' | d g h c w2 e Hready Hcall Hd' Hc'
                        | d g h c w2 w3 response Hready Hcall Hd' Hc']; subst r.
      * now rewrite (bind_Raise _ _ _ _ _ Hrun).
      * now rewrite (bind_Raise _ _ _ _ _ Hrun).
      * rewrite (bind_Return _ _ _ _ _ Hrun).
        rewrite (bind_Return _ _ _ _ _ (sleep_run _ _)).
        destruct (after_proposer_turn_lookup d h
                    (strftime (now env (length (events w3)))) response) as (Hs & _).
        apply IH; run_store; rewrite Hc'.
        -- lia.
        -- intros st Hst.
           rewrite (get_state_run (with_event (Sleep POLL_INTERVAL) w1) _ CRITIC_TURN Hd' Hs)
             in Hst.
           injection Hst as <-. unfold fuel_needed.
           destruct (Z.leb_spec (MAX_ROUNDS (config w) - (rounds + 1)) 0); lia.
    + pose proof (run_critic_turn_outcome env w) as Hout.
      destruct (run_critic_turn env w) as [w1 r] eqn:Hrun. cbn [fst snd] in Hout.
      inversion Hout as [path Hunready Hd' Hc' | d g h c w2 e Hready Hcall Hd' Hc'
                        | d g h c w2 w3 response Hready Hcall Hd' Hc']; subst r.
      * now rewrite (bind_Raise _ _ _ _ _ Hrun).
      * now rewrite (bind_Raise _ _ _ _ _ Hrun).
      * rewrite (bind_Return _ _ _ _ _ Hrun).
        rewrite (bind_Return _ _ _ _ _ (sleep_run _ _)).
        apply IH; run_store; rewrite Hc'.
        -- lia.
        -- intros st Hst.
           assert (exists st', st' <> CRITIC_TURN /\
                     after_critic_turn d h (strftime (now env (length (events w3))))
                       response !! "state.md" = Some (State_value st'))
             as (st' & Hne & Hs).
           { unfold after_critic_turn, critic_recorded.
             destruct (contains CONSENSUS_MARKER (upper response));
               [exists CONSENSUS | exists PROPOSER_TURN]; split;
               (discriminate || now simplify_map_eq). }
           rewrite (get_state_run (with_event (Sleep POLL_INTERVAL) w1) _ st' Hd' Hs)
             in Hst.
           injection Hst as <-. unfold fuel_needed.
           destruct (Z.leb_spec (MAX_ROUNDS (config w) - rounds) 0); [lia |].
           destruct st'; [lia | congruence | lia].
    + do 4 rewrite (bind_Return _ _ _ _ _ (print_run _ _)). rewrite print_run.
      discriminate.
Qed.

(** The fuel that [run_debate_loop] gives the loop is enough, whatever the
    session directory holds and whatever the agents do. *)
Lemma run_debate_loop_within_fuel (env : environment) (w : world) :
  (run_debate_loop env w).2 <> OutOfFuel.
Proof.
  destruct (run_debate_loop_run env w) as (w1 & -> & _ & Hconfig).
  rewrite <- Hconfig. unfold loop_fuel.
  apply debate_loop_within_fuel.
  - lia.
  - intros st _. unfold fuel_needed.
    destruct (Z.leb_spec (MAX_ROUNDS (config w1) - 0) 0); [lia |].
    destruct st; lia.
Qed.

(** ** Counting headings in the transcript *)

Lemma free_of_app (c : ascii) (a b : string) :
  free_of c (a ++ b) = (free_of c a && free_of c b)%bool.
Proof.
  induction a as [|x a IH]; norm_append; simpl; [reflexivity |].
  now rewrite IH, andb_assoc.
Qed.

Lemma free_of_uint (d : Decimal.uint) :
  free_of "#" (NilEmpty.string_of_uint d) = true.
Proof. induction d; simpl; auto. Qed.

Lemma free_of_digits (n : nat) : free_of "#" (digits n) = true.
Proof.
  unfold digits, NilZero.string_of_uint.
  destruct (Nat.to_uint n) eqn:E; try reflexivity; rewrite <- E; apply free_of_uint.
Qed.

Lemma free_of_str (z : Z) : free_of "#" (str z) = true.
Proof.
  unfold str, NilZero.string_of_int.
  destruct (Z.to_int z) as [d | d]; unfold NilZero.string_of_uint.
  - destruct d eqn:E; try reflexivity; rewrite <- E; apply free_of_uint.
  - destruct d eqn:E; try reflexivity; rewrite <- E; simpl; apply free_of_uint.
Qed.

Lemma free_of_repeat_zero (n : nat) : free_of "#" (repeat_str "0" n) = true.
Proof. induction n as [|n IH]; simpl; norm_append; [reflexivity | exact IH]. Qed.

Lemma free_of_pad (width n : nat) : free_of "#" (pad width (digits n)) = true.
Proof.
  unfold pad. now rewrite free_of_app, free_of_repeat_zero, free_of_digits.
Qed.

Lemma free_of_strftime (d : datetime) : free_of "#" (strftime d) = true.
Proof.
  unfold strftime.
  repeat (rewrite free_of_app, ?free_of_pad; cbn [andb]).
  reflexivity.
Qed.

Lemma count_from_skip_free (c : ascii) (n a s : string) :
  free_of c a = true ->
  count_from (String c n) (a ++ s) 0 = count_from (String c n) s 0.
Proof.
  induction a as [|x a IH]; norm_append; [reflexivity |].
  simpl free_of. intros H. apply andb_prop in H as [Hx Ha].
  cbn [count_from startswith].
  rewrite Ascii.eqb_sym. apply negb_true_iff in Hx. rewrite Hx. cbn [andb].
  now apply IH.
Qed.

Lemma startswith_before (c : ascii) (n b s : string) :
  free_of c n = true ->
  startswith n (b ++ String c s) = startswith n b.
Proof.
  revert b; induction n as [|x n IH]; intros b H; [reflexivity |].
  simpl in H. apply andb_prop in H as [Hx Hn].
  destruct b as [|y b]; norm_append; cbn [startswith].
  - apply negb_true_iff in Hx. now rewrite Hx.
  - now rewrite IH.
Qed.

Lemma count_from_clean (c : ascii) (n a s : string) :
  free_of c n = true ->
  contains n a = false ->
  count_from n (a ++ String c s) 0 = count_from n (String c s) 0.
Proof.
  intros Hn. induction a as [|x a IH]; norm_append; [reflexivity |].
  intros H. cbn [contains] in H. apply orb_false_elim in H as [Hhere Hlater].
  cbn [count_from].
  change (String x (a ++ String c s)) with (String x a ++ String c s).
  rewrite (startswith_before c n (String x a) s Hn), Hhere.
  now apply IH.
Qed.

Lemma count_from_header (s : string) :
  count_from PROPOSER_HEADER (PROPOSER_HEADER ++ s) 0
    = S (count_from PROPOSER_HEADER s 0).
Proof. reflexivity. Qed.

Lemma count_render (t : turn) (s : string) :
  free_of "#" (turn_time t) = true ->
  contains PROPOSER_HEADER (turn_content t) = false ->
  count_from PROPOSER_HEADER (render t ++ s) 0
    = ((match turn_role t with Proposer => 1 | Critic => 0 end)
       + count_from PROPOSER_HEADER s 0)%nat.
Proof.
  intros Htime Hcontent.
  unfold render, turn_record. rewrite !append_assoc.
  change PROPOSER_HEADER with (String "#" "# [PROPOSER]") in *.
  assert (forall rest,
            count_from (String "#" "# [PROPOSER]")
              (" Round " ++ str (turn_round t) ++ " (" ++ turn_time t ++ ")"
                 ++ LF ++ LF ++ turn_content t ++ LF ++ LF ++ "---" ++ LF ++ rest) 0
            = count_from (String "#" "# [PROPOSER]") rest 0) as Hbody.
  { intros rest.
    rewrite (count_from_skip_free "#" "# [PROPOSER]" " Round ") by reflexivity.
    rewrite (count_from_skip_free "#" "# [PROPOSER]" (str (turn_round t)))
      by apply free_of_str.
    rewrite (count_from_skip_free "#" "# [PROPOSER]" " (") by reflexivity.
    rewrite (count_from_skip_free "#" "# [PROPOSER]" (turn_time t)) by exact Htime.
    rewrite (count_from_skip_free "#" "# [PROPOSER]" ")") by reflexivity.
    rewrite (count_from_skip_free "#" "# [PROPOSER]" LF) by reflexivity.
    rewrite (count_from_skip_free "#" "# [PROPOSER]" LF) by reflexivity.
    change (LF ++ LF ++ "---" ++ LF ++ rest)
      with (String (ascii_of_nat 10) (LF ++ "---" ++ LF ++ rest)).
    rewrite (count_from_clean (ascii_of_nat 10) (String "#" "# [PROPOSER]")
               (turn_content t)) by (reflexivity || exact Hcontent).
    change (String (ascii_of_nat 10) (LF ++ "---" ++ LF ++ rest))
      with ((LF ++ LF ++ "---" ++ LF) ++ rest).
    now rewrite (count_from_skip_free "#" "# [PROPOSER]" (LF ++ LF ++ "---" ++ LF))
      by reflexivity. }
  rewrite (count_from_skip_free "#" "# [PROPOSER]" LF) by reflexivity.
  destruct (turn_role t); cbn [role_name].
  - change ("## [" ++ "PROPOSER" ++ "] Round " ++ ?x)
      with (String "#" "# [PROPOSER]" ++ " Round " ++ x).
    change (String "#" "# [PROPOSER]") with PROPOSER_HEADER at 2.
    change (String "#" "# [PROPOSER]") with PROPOSER_HEADER at 1.
    rewrite count_from_header.
    change PROPOSER_HEADER with (String "#" "# [PROPOSER]").
    now rewrite Hbody.
  - change ("## [" ++ "CRITIC" ++ "] Round " ++ ?x)
      with ("## [CRITIC]" ++ " Round " ++ x).
    match goal with
    | |- count_from ?n ("## [CRITIC]" ++ ?x) 0 = _ =>
        change (count_from n ("## [CRITIC]" ++ x) 0) with (count_from n x 0)
    end.
    now rewrite Hbody.
Qed.

Lemma count_records (j : Z) (rounds : list (entry * entry)) (pending : option entry) :
  Forall (fun r => sound r.1 /\ sound r.2) rounds ->
  (forall p, pending = Some p -> sound p) ->
  count_from PROPOSER_HEADER (render_all (records_from j rounds pending)) 0
    = (length rounds + match pending with Some _ => 1 | None => 0 end)%nat.
Proof.
  intros Hrounds Hpending. revert j.
  induction Hrounds as [|[p c] rounds [[Hpt Hpc] [Hct Hcc]] _ IH]; intros j.
  - destruct pending as [p|]; [| reflexivity].
    destruct (Hpending p eq_refl) as [Ht Hc].
    cbn [records_from render_all].
    now rewrite count_render.
  - cbn [records_from render_all length].
    rewrite count_render by assumption.
    rewrite count_render by assumption.
    cbn [turn_role]. now rewrite IH.
Qed.

Lemma count_opening (s : string) :
  count PROPOSER_HEADER (TRANSCRIPT_OPENING ++ s) = count_from PROPOSER_HEADER s 0.
Proof.
  unfold count. change PROPOSER_HEADER with (String "#" "# [PROPOSER]").
  change (TRANSCRIPT_OPENING ++ s) with (String "#" (" Debate History" ++ LF ++ LF ++ "---" ++ LF ++ s)).
  cbn [count_from startswith]. cbn.
  change (" Debate History" ++ LF ++ LF ++ "---" ++ LF ++ s)
    with ((" Debate History" ++ LF ++ LF ++ "---" ++ LF) ++ s).
  now rewrite (count_from_skip_free "#" "# [PROPOSER]") by reflexivity.
Qed.

Lemma render_all_app (l1 l2 : list turn) :
  render_all (l1 ++ l2) = render_all l1 ++ render_all l2.
Proof.
  induction l1 as [|t l1 IH]; [reflexivity |].
  cbn [app render_all]. now rewrite IH, append_assoc.
Qed.

Lemma records_from_pending (j : Z) (rounds : list (entry * entry)) (p : entry) :
  records_from j rounds (Some p)
    = (records_from j rounds None
         ++ [mkTurn Proposer (j + Z.of_nat (length rounds)) p.1 p.2])%list.
Proof.
  revert j; induction rounds as [|[a b] rounds IH]; intros j; cbn [records_from length app].
  - now rewrite Z.add_0_r.
  - rewrite IH.
    replace (j + Z.of_nat (S (length rounds))) with (j + 1 + Z.of_nat (length rounds))
      by lia.
    reflexivity.
Qed.

Lemma records_from_completed (j : Z) (rounds : list (entry * entry)) (p c : entry) :
  records_from j (rounds ++ [(p, c)]) None
    = (records_from j rounds (Some p)
         ++ [mkTurn Critic (j + Z.of_nat (length rounds)) c.1 c.2])%list.
Proof.
  revert j; induction rounds as [|[a b] rounds IH]; intros j; cbn [records_from length app].
  - now rewrite Z.add_0_r.
  - rewrite IH.
    replace (j + Z.of_nat (S (length rounds))) with (j + 1 + Z.of_nat (length rounds))
      by lia.
    reflexivity.
Qed.



(** ** The session invariant *)

Lemma world_ok_same_debate (w w' : world) :
  debate w' = debate w -> world_ok w -> world_ok w'.
Proof. unfold world_ok. now intros ->. Qed.

Lemma world_ok_absent (w : world) : debate w = None -> world_ok w.
Proof. unfold world_ok. intros -> d. discriminate. Qed.

Lemma fresh_session_ok (goal : string) : session_ok (fresh_session goal).
Proof.
  exists [], None, PROPOSER_TURN. unfold fresh_session.
  split; [now simplify_map_eq |]. split; [now simplify_map_eq |].
  split; [split; [discriminate | intros [? [=]]] |].
  split; [constructor | discriminate].
Qed.

Lemma proposer_turn_keeps_ok (env : environment) (w : world) :
  answers_free_of_header env ->
  world_ok w ->
  (get_state w).2 = Return PROPOSER_TURN ->
  world_ok (run_proposer_turn env w).1.
Proof.
  intros Hclean Hok Hstate.
  pose proof (run_proposer_turn_outcome env w) as Hout.
  destruct (run_proposer_turn env w) as [w' r]. cbn [fst snd] in *.
  inversion Hout as [path Hunready Hd' Hc' | d g h c w1 e Hready Hcall Hd' Hc'
                    | d g h c w1 w2 response Hready Hcall Hd' Hc'];
    try (now apply (world_ok_same_debate w)).
  destruct Hready as (Hd & _ & Hh & _).
  destruct (Hok d Hd) as (rounds & pending & st & Hhist & Hst & Hpend & Hrounds & Hsound).
  assert (st = PROPOSER_TURN) as ->.
  { symmetry. eapply get_state_agrees; [exact Hd | exact Hst | exact Hstate]. }
  assert (pending = None) as ->.
  { destruct pending as [p|]; [| reflexivity].
    destruct Hpend as [_ Hpend]. now discriminate Hpend. }
  rewrite Hhist in Hh. injection Hh as <-.
  intros d' Hd''. rewrite Hd' in Hd''. injection Hd'' as <-.
  set (ts := strftime (now env (length (events w2)))) in *.
  exists rounds, (Some (ts, response)), CRITIC_TURN.
  destruct (after_proposer_turn_lookup d
              (TRANSCRIPT_OPENING ++ render_all (records_from 1 rounds None)) ts response)
    as (Hs' & Hh' & _).
  split; [| split; [exact Hs' | split; [split; eauto | split; [exact Hrounds |]]]].
  - rewrite Hh'. f_equal.
    rewrite records_from_pending, render_all_app, <- append_assoc. f_equal.
    cbn [render_all]. rewrite append_empty_r. unfold render. cbn [turn_role role_name
      turn_round turn_time turn_content fst snd]. f_equal.
    unfold proposer_round. rewrite count_opening, count_records by (assumption || discriminate).
    lia.
  - intros p [= <-]. split; [apply free_of_strftime | exact (Hclean _ _ _ _ _ Hcall)].
Qed.

Lemma critic_turn_keeps_ok (env : environment) (w : world) :
  answers_free_of_header env ->
  world_ok w ->
  (get_state w).2 = Return CRITIC_TURN ->
  world_ok (run_critic_turn env w).1.
Proof.
  intros Hclean Hok Hstate.
  pose proof (run_critic_turn_outcome env w) as Hout.
  destruct (run_critic_turn env w) as [w' r]. cbn [fst snd] in *.
  inversion Hout as [path Hunready Hd' Hc' | d g h c w1 e Hready Hcall Hd' Hc'
                    | d g h c w1 w2 response Hready Hcall Hd' Hc'];
    try (now apply (world_ok_same_debate w)).
  destruct Hready as (Hd & _ & Hh & _).
  destruct (Hok d Hd) as (rounds & pending & st & Hhist & Hst & Hpend & Hrounds & Hsound).
  assert (st = CRITIC_TURN) as ->.
  { symmetry. eapply get_state_agrees; [exact Hd | exact Hst | exact Hstate]. }
  destruct Hpend as [Hpend _]. destruct (Hpend eq_refl) as [p ->].
  rewrite Hhist in Hh. injection Hh as <-.
  intros d' Hd''. rewrite Hd' in Hd''. injection Hd'' as <-.
  set (ts := strftime (now env (length (events w2)))) in *.
  set (h := TRANSCRIPT_OPENING ++ render_all (records_from 1 rounds (Some p))) in *.
  exists (rounds ++ [(p, (ts, response))])%list, None,
         (if contains CONSENSUS_MARKER (upper response) then CONSENSUS else PROPOSER_TURN).
  assert (critic_round h = 1 + Z.of_nat (length rounds)) as Hround.
  { unfold critic_round, h. rewrite count_opening, count_records by (assumption || eauto).
    lia. }
  split; [| split; [| split; [| split]]].
  - transitivity (Some (h ++ turn_record "CRITIC" (critic_round h) ts response)).
    + unfold after_critic_turn, critic_recorded.
      destruct (contains CONSENSUS_MARKER (upper response)); now simplify_map_eq.
    + f_equal. unfold h.
      rewrite records_from_completed, render_all_app, <- append_assoc. f_equal.
      cbn [render_all]. rewrite append_empty_r. unfold render. cbn [turn_role role_name
        turn_round turn_time turn_content fst snd]. fold h. now rewrite Hround.
  - unfold after_critic_turn, critic_recorded.
    destruct (contains CONSENSUS_MARKER (upper response)); now simplify_map_eq.
  - split; [| intros [? [=]]].
    destruct (contains CONSENSUS_MARKER (upper response)); discriminate.
  - apply Forall_app. split; [exact Hrounds |].
    constructor; [| constructor]. cbn [fst snd]. split; [now apply Hsound |].
    split; [apply free_of_strftime | exact (Hclean _ _ _ _ _ Hcall)].
  - discriminate.
Qed.

Lemma debate_loop_keeps_ok (env : environment) (fuel : nat) (rounds : Z) (w : world) :
  answers_free_of_header env ->
  world_ok w ->
  world_ok (debate_loop env fuel rounds w).1.
Proof.
  intros Hclean. revert rounds w.
  induction fuel as [|fuel IH]; intros rounds w Hok; cbn [debate_loop];
    rewrite (bind_Return _ _ _ _ _ (get_run _));
    destruct (rounds <? MAX_ROUNDS (config w)).
  - exact Hok.
  - do 3 rewrite (bind_Return _ _ _ _ _ (print_run _ _)). rewrite print_run.
    now apply (world_ok_same_debate w).
  - pose proof (get_state_world w) as Hsame.
    destruct (get_state w) as [w0 [st | e |]] eqn:Hstate; cbn [fst] in Hsame; subst w0.
    + rewrite (bind_Return _ _ _ _ _ Hstate).
      assert ((get_state w).2 = Return st) as Hst by now rewrite Hstate.
      destruct st.
      * pose proof (proposer_turn_keeps_ok env w Hclean Hok Hst) as Hturn.
        destruct (run_proposer_turn env w) as [w1 [[] | e |]] eqn:Hrun;
          cbn [fst] in Hturn.
        -- rewrite (bind_Return _ _ _ _ _ Hrun).
           rewrite (bind_Return _ _ _ _ _ (sleep_run _ _)).
           apply IH. now apply (world_ok_same_debate w1).
        -- now rewrite (bind_Raise _ _ _ _ _ Hrun).
        -- unfold bind. now rewrite Hrun.
      * pose proof (critic_turn_keeps_ok env w Hclean Hok Hst) as Hturn.
        destruct (run_critic_turn env w) as [w1 [[] | e |]] eqn:Hrun;
          cbn [fst] in Hturn.
        -- rewrite (bind_Return _ _ _ _ _ Hrun).
           rewrite (bind_Return _ _ _ _ _ (sleep_run _ _)).
           apply IH. now apply (world_ok_same_debate w1).
        -- now rewrite (bind_Raise _ _ _ _ _ Hrun).
        -- unfold bind. now rewrite Hrun.
      * do 4 rewrite (bind_Return _ _ _ _ _ (print_run _ _)). rewrite print_run.
        now apply (world_ok_same_debate w).
    + now rewrite (bind_Raise _ _ _ _ _ Hstate).
    + unfold bind. now rewrite Hstate.
  - do 3 rewrite (bind_Return _ _ _ _ _ (print_run _ _)). rewrite print_run.
    now apply (world_ok_same_debate w).
Qed.

Lemma run_debate_loop_keeps_ok (env : environment) (w : world) :
  answers_free_of_header env ->
  world_ok w ->
  world_ok (run_debate_loop env w).1.
Proof.
  intros Hclean Hok.
  destruct (run_debate_loop_run env w) as (w1 & -> & Hd & _).
  apply debate_loop_keeps_ok; [exact Hclean |].
  now apply (world_ok_same_debate w).
Qed.

(** Every run of [main] keeps the invariant. *)
Lemma main_keeps_ok (env : environment) (a : arguments) (w : world) :
  answers_free_of_header env ->
  world_ok w ->
  world_ok (main env a w).1.
Proof.
  intros Hclean Hok. unfold main.
  rewrite (bind_Return _ _ _ _ _ (modify_run _ _)).
  match goal with |- context [with_config ?g w] => set (wa := with_config g w) end.
  assert (world_ok wa) as Hoka by exact Hok.
  clearbody wa. clear Hok w.
  (* reading the goal leaves the world alone *)
  match goal with
  | |- world_ok (bind ?m ?k wa).1 =>
      pose (res := m wa);
      assert (m wa = res) as Hread by reflexivity;
      assert (res.1 = wa) as Hgoal
  end.
  { subst res.
    destruct (option_truthy (arg_goal a)); [reflexivity |].
    destruct (option_truthy (arg_goal_file a)); [| reflexivity].
    unfold bind, path_read_text.
    now destruct (files wa !! default "" (arg_goal_file a)). }
  clearbody res. destruct res as [w0 [goal | e |]]; cbn [fst] in Hgoal; subst w0.
  2:{ now rewrite (bind_Raise _ _ _ _ _ Hread). }
  2:{ unfold bind at 1. now rewrite Hread. }
  rewrite (bind_Return _ _ _ _ _ Hread).
  rewrite (bind_Return _ _ _ wa (bool_decide (is_Some (debate wa))) eq_refl).
  (* the loop, run in a world that is in order *)
  assert (forall w1, world_ok w1 ->
            world_ok ((try_except (run_debate_loop env) is_KeyboardInterrupt
                         (fun _ => print (LF ++ LF
                            ++ "  Paused. Resume with: python debate_watcher.py --resume")) ;;
                       ret 0) w1).1) as Hloop.
  { intros w1 Hok1.
    pose proof (run_debate_loop_keeps_ok env w1 Hclean Hok1) as Hrun.
    unfold bind, try_except.
    destruct (run_debate_loop env w1) as [w2 [[] | e |]]; cbn [fst] in Hrun;
      try exact Hrun.
    destruct (is_KeyboardInterrupt e); [| exact Hrun].
    rewrite print_run. now apply (world_ok_same_debate w2). }
  destruct (arg_resume a).
  - case_bool_decide as Hthere; cbn [negb].
    + rewrite (bind_Return _ _ _ _ _ (bind_Return _ _ _ _ _ (print_run _ _))).
      apply Hloop. now apply (world_ok_same_debate wa).
    + rewrite (bind_Return _ _ _ _ _ (bind_Return _ _ _ _ _ (print_run _ _))).
      now apply (world_ok_same_debate wa).
  - assert (exists wb, (if bool_decide (is_Some (debate wa)) then rmtree else ret tt) wa
                         = (wb, Return tt) /\ debate wb = None)
      as (wb & Hwb & Habsent).
    { case_bool_decide as Hthere.
      - eexists. split; reflexivity.
      - exists wa. split; [reflexivity |].
        destruct (debate wa); [destruct Hthere; eauto | reflexivity]. }
    destruct (negb (option_truthy goal)).
    + rewrite (bind_Return _ _ _ (with_event (Stdout "Error: Provide --goal or --goal-file") wb)
                 false).
      2:{ rewrite (bind_Return _ _ _ _ _ Hwb).
          now rewrite (bind_Return _ _ _ _ _ (print_run _ _)). }
      now apply world_ok_absent.
    + destruct (setup_debate_dir_fresh goal wb Habsent) as (text & Hfresh).
      destruct (setup_debate_dir goal wb) as [wc [[] | e |]] eqn:Hsetup;
        cbn [fst] in Hfresh.
      * rewrite (bind_Return _ _ _ wc true).
        2:{ rewrite (bind_Return _ _ _ _ _ Hwb).
            now rewrite (bind_Return _ _ _ _ _ Hsetup). }
        apply Hloop. intros d Hd. rewrite Hfresh in Hd. injection Hd as <-.
        apply fresh_session_ok.
      * rewrite (bind_Raise _ _ _ wc e).
        2:{ rewrite (bind_Return _ _ _ _ _ Hwb).
            now rewrite (bind_Raise _ _ _ _ _ Hsetup). }
        intros d Hd. cbn [fst] in Hd. rewrite Hfresh in Hd. injection Hd as <-.
        apply fresh_session_ok.
      * unfold bind at 1. unfold bind at 1. rewrite Hwb. unfold bind at 1.
        rewrite Hsetup. cbn [fst].
        intros d Hd. rewrite Hfresh in Hd. injection Hd as <-.
        apply fresh_session_ok.
Qed.

Lemma session_history_ok (env : environment) (w : world) :
  answers_free_of_header env -> session_history env w -> world_ok w.
Proof.
  intros Hclean H. induction H as [w Habsent | a w _ IH].
  - now apply world_ok_absent.
  - now apply main_keeps_ok.
Qed.


(** * Further properties of the engine *)

(** ** What a turn does to the session directory *)

(** X1. A proposer turn that completes has called the proposer's agent
    once, with the prompt built from the goal, the transcript and the
    latest critique as the session directory held them, right after
    announcing the turn.  What that call returned is stored in
    [proposer.md] and appended to the transcript as one PROPOSER record -
    its round is one more than the number of proposer headings the
    transcript had - and the state is set to CRITIC_TURN, whatever the
    answer says (the consensus marker in a proposal ends nothing).  One
    process has been started, the agent's; every other file of the
    session directory, [consensus.md] included, is as it was. *)
Theorem proposer_turn_effect (env : environment) (w w' : world) :
  run_proposer_turn env w = (w', Return tt) ->
  exists goal history critique w2 response,
    file_of w "goal.md" = Some goal /\
    file_of w "history.md" = Some history /\
    file_of w "critic.md" = Some critique /\
    call_agent env (PROPOSER (config w))
      (proposer_prompt (Z.of_nat (count PROPOSER_HEADER history) + 1)
         goal history critique)
      (proposer_announced w history) = (w2, Return response) /\
    file_of w' "proposer.md" = Some response /\
    file_of w' "history.md"
      = Some (history
                ++ turn_record "PROPOSER"
                     (Z.of_nat (count PROPOSER_HEADER history) + 1)
                     (strftime (now env (length (events w2)))) response) /\
    get_state w' = (w', Return CRITIC_TURN) /\
    (forall name,
       name <> "proposer.md" -> name <> "history.md" -> name <> "state.md" ->
       file_of w' name = file_of w name) /\
    config w' = config w /\
    started w' = (S (S (S (S (length (events w))))), PROPOSER (config w)) :: started w.
Proof.
  intros Hrun.
  pose proof (run_proposer_turn_outcome env w) as Hout.
  rewrite Hrun in Hout. cbn [fst snd] in Hout.
  inversion Hout as [| | d g h c w1 w2 response Hready _ _ _].
  clear Hout w1 w2 response.
  rewrite (run_proposer_turn_run env w d g h c Hready) in Hrun.
  pose proof (call_agent_frame env (PROPOSER (config w))
                (proposer_prompt (proposer_round h) g h c) (proposer_announced w h))
    as (_ & Hconfig & _).
  destruct (call_agent env (PROPOSER (config w))
              (proposer_prompt (proposer_round h) g h c) (proposer_announced w h))
    as [w2 [response | e |]] eqn:Hcall; try discriminate.
  injection Hrun as <-. cbn [fst] in Hconfig.
  destruct (call_agent_answer _ _ _ _ _ _ Hcall) as (_ & Hstarted).
  destruct Hready as (Hd & Hg & Hh & Hc).
  exists g, h, c, w2, response.
  destruct (after_proposer_turn_lookup d h (strftime (now env (length (events w2))))
              response) as (Hs & Hh' & Hp & _).
  unfold file_of. rewrite Hd. unfold proposer_done. run_store.
  split; [exact Hg |]. split; [exact Hh |]. split; [exact Hc |].
  split; [exact Hcall |]. split; [exact Hp |]. split; [exact Hh' |].
  split; [| split; [| split; [exact Hconfig |]]].
  - eapply get_state_run; [reflexivity | exact Hs].
  - intros name H1 H2 H3. unfold after_proposer_turn.
    now rewrite !lookup_insert_ne by congruence.
  - unfold started at 1. cbn [events omap list_omap]. fold (started w2).
    rewrite Hstarted. reflexivity.
Qed.

Lemma proposer_turn_effect_witness :
  exists goal history critique w2 response,
    file_of (before_first_turn env_agreeing) "goal.md" = Some goal /\
    file_of (before_first_turn env_agreeing) "history.md" = Some history /\
    file_of (before_first_turn env_agreeing) "critic.md" = Some critique /\
    call_agent env_agreeing (PROPOSER (config (before_first_turn env_agreeing)))
      (proposer_prompt (Z.of_nat (count PROPOSER_HEADER history) + 1)
         goal history critique)
      (proposer_announced (before_first_turn env_agreeing) history) = (w2, Return response) /\
    file_of (run_proposer_turn env_agreeing (before_first_turn env_agreeing)).1 "proposer.md" = Some response /\
    file_of (run_proposer_turn env_agreeing (before_first_turn env_agreeing)).1 "history.md"
      = Some (history
                ++ turn_record "PROPOSER"
                     (Z.of_nat (count PROPOSER_HEADER history) + 1)
                     (strftime (now env_agreeing (length (events w2)))) response) /\
    get_state (run_proposer_turn env_agreeing (before_first_turn env_agreeing)).1 = ((run_proposer_turn env_agreeing (before_first_turn env_agreeing)).1, Return CRITIC_TURN) /\
    (forall name,
       name <> "proposer.md" -> name <> "history.md" -> name <> "state.md" ->
       file_of (run_proposer_turn env_agreeing (before_first_turn env_agreeing)).1 name = file_of (before_first_turn env_agreeing) name) /\
    config (run_proposer_turn env_agreeing (before_first_turn env_agreeing)).1 = config (before_first_turn env_agreeing) /\
    started (run_proposer_turn env_agreeing (before_first_turn env_agreeing)).1 = (S (S (S (S (length (events (before_first_turn env_agreeing)))))), PROPOSER (config (before_first_turn env_agreeing))) :: started (before_first_turn env_agreeing).
Proof.
  apply (proposer_turn_effect env_agreeing (before_first_turn env_agreeing)).
  vm_compute. reflexivity.
Defined.

(** X2. A critic turn that completes has called the critic's agent once,
    with the prompt built from the goal, the transcript and the latest
    proposal as the session directory held them.  What that call returned
    is stored in [critic.md] and appended to the transcript as one CRITIC
    record; its round is the number of proposer headings the transcript
    had, the round of the proposal it answers.  One process has been
    started, the agent's.  The goal, the proposal and every file other
    than [critic.md], [history.md], [state.md] and [consensus.md] are as
    they were. *)
Theorem critic_turn_effect (env : environment) (w w' : world) :
  run_critic_turn env w = (w', Return tt) ->
  exists goal history proposal w2 response,
    file_of w "goal.md" = Some goal /\
    file_of w "history.md" = Some history /\
    file_of w "proposer.md" = Some proposal /\
    call_agent env (CRITIC (config w))
      (critic_prompt (Z.of_nat (count PROPOSER_HEADER history)) goal history proposal)
      (critic_announced w history) = (w2, Return response) /\
    file_of w' "critic.md" = Some response /\
    file_of w' "history.md"
      = Some (history
                ++ turn_record "CRITIC" (Z.of_nat (count PROPOSER_HEADER history))
                     (strftime (now env (length (events w2)))) response) /\
    (forall name,
       name <> "critic.md" -> name <> "history.md" -> name <> "state.md" ->
       name <> "consensus.md" ->
       file_of w' name = file_of w name) /\
    config w' = config w /\
    started w' = (S (S (S (S (length (events w))))), CRITIC (config w)) :: started w.
Proof.
  intros Hrun.
  pose proof (run_critic_turn_outcome env w) as Hout.
  rewrite Hrun in Hout. cbn [fst snd] in Hout.
  inversion Hout as [| | d g h p w1 w2 response Hready _ _ _].
  clear Hout w1 w2 response.
  rewrite (run_critic_turn_run env w d g h p Hready) in Hrun.
  pose proof (call_agent_frame env (CRITIC (config w))
                (critic_prompt (critic_round h) g h p) (critic_announced w h))
    as (_ & Hconfig & _).
  destruct (call_agent env (CRITIC (config w))
              (critic_prompt (critic_round h) g h p) (critic_announced w h))
    as [w2 [response | e |]] eqn:Hcall; try discriminate.
  injection Hrun as <-. cbn [fst] in Hconfig.
  destruct (call_agent_answer _ _ _ _ _ _ Hcall) as (_ & Hstarted).
  destruct Hready as (Hd & Hg & Hh & Hp).
  exists g, h, p, w2, response.
  replace (Z.of_nat (count PROPOSER_HEADER h)) with (critic_round h)
    by (unfold critic_round; lia).
  unfold file_of. rewrite Hd. unfold critic_done. run_store.
  unfold after_critic_turn, critic_recorded.
  split; [exact Hg |]. split; [exact Hh |]. split; [exact Hp |].
  split; [exact Hcall |].
  split; [destruct (contains CONSENSUS_MARKER (upper response)); now simplify_map_eq |].
  split; [destruct (contains CONSENSUS_MARKER (upper response)); now simplify_map_eq |].
  split; [| split; [exact Hconfig |]].
  - intros name H1 H2 H3 H4.
    destruct (contains CONSENSUS_MARKER (upper response));
      now rewrite !lookup_insert_ne by congruence.
  - unfold started at 1. cbn [events omap list_omap]. fold (started w2).
    rewrite Hstarted. reflexivity.
Qed.

Lemma critic_turn_effect_witness :
  exists goal history proposal w2 response,
    file_of (after_first_proposal env_disagreeing) "goal.md" = Some goal /\
    file_of (after_first_proposal env_disagreeing) "history.md" = Some history /\
    file_of (after_first_proposal env_disagreeing) "proposer.md" = Some proposal /\
    call_agent env_disagreeing (CRITIC (config (after_first_proposal env_disagreeing)))
      (critic_prompt (Z.of_nat (count PROPOSER_HEADER history)) goal history proposal)
      (critic_announced (after_first_proposal env_disagreeing) history) = (w2, Return response) /\
    file_of (run_critic_turn env_disagreeing (after_first_proposal env_disagreeing)).1 "critic.md" = Some response /\
    file_of (run_critic_turn env_disagreeing (after_first_proposal env_disagreeing)).1 "history.md"
      = Some (history
                ++ turn_record "CRITIC" (Z.of_nat (count PROPOSER_HEADER history))
                     (strftime (now env_disagreeing (length (events w2)))) response) /\
    (forall name,
       name <> "critic.md" -> name <> "history.md" -> name <> "state.md" ->
       name <> "consensus.md" ->
       file_of (run_critic_turn env_disagreeing (after_first_proposal env_disagreeing)).1 name = file_of (after_first_proposal env_disagreeing) name) /\
    config (run_critic_turn env_disagreeing (after_first_proposal env_disagreeing)).1 = config (after_first_proposal env_disagreeing) /\
    started (run_critic_turn env_disagreeing (after_first_proposal env_disagreeing)).1 = (S (S (S (S (length (events (after_first_proposal env_disagreeing)))))), CRITIC (config (after_first_proposal env_disagreeing))) :: started (after_first_proposal env_disagreeing).
Proof.
  apply (critic_turn_effect env_disagreeing (after_first_proposal env_disagreeing)).
  vm_compute. reflexivity.
Defined.

(** X3. A proposer turn that raises - a file it reads is missing, or the
    agent invocation fails - leaves the session directory and the globals
    exactly as they were: nothing of the turn is stored, the round number
    and the prompt of a second attempt are those of the first. *)
Theorem failed_proposer_turn_changes_nothing
    (env : environment) (w w' : world) (e : exn) :
  run_proposer_turn env w = (w', Raise e) ->
  debate w' = debate w /\ config w' = config w /\
  (get_round w').2 = (get_round w).2 /\
  forall r, (build_proposer_prompt r w').2 = (build_proposer_prompt r w).2.
Proof.
  intros Hrun.
  pose proof (run_proposer_turn_outcome env w) as Hout.
  rewrite Hrun in Hout. cbn [fst snd] in Hout.
  assert (debate w' = debate w /\ config w' = config w) as [Hd Hc]
    by (inversion Hout; split; assumption).
  split; [exact Hd |]. split; [exact Hc |].
  destruct (debate w) as [d|] eqn:Hdw.
  - split; [| intros r];
      unfold get_round, build_proposer_prompt, bind, read_file, ret;
      repeat (rewrite ?Hd, ?Hdw; cbv beta iota delta [snd];
              try match goal with
                  | |- context [d !! ?n] => destruct (d !! n)
                  end);
      reflexivity.
  - split; [| intros r];
      unfold get_round, build_proposer_prompt, bind, read_file;
      rewrite Hd, Hdw; reflexivity.
Qed.

Lemma failed_proposer_turn_changes_nothing_witness :
  debate (run_proposer_turn env_claude_hanging (before_first_turn env_claude_hanging)).1
    = debate (before_first_turn env_claude_hanging) /\
  config (run_proposer_turn env_claude_hanging (before_first_turn env_claude_hanging)).1
    = config (before_first_turn env_claude_hanging) /\
  (get_round
     (run_proposer_turn env_claude_hanging (before_first_turn env_claude_hanging)).1).2
    = (get_round (before_first_turn env_claude_hanging)).2 /\
  forall r,
    (build_proposer_prompt r
       (run_proposer_turn env_claude_hanging (before_first_turn env_claude_hanging)).1).2
      = (build_proposer_prompt r (before_first_turn env_claude_hanging)).2.
Proof.
  apply (failed_proposer_turn_changes_nothing env_claude_hanging
           (before_first_turn env_claude_hanging)
           (run_proposer_turn env_claude_hanging (before_first_turn env_claude_hanging)).1
           (TimeoutExpired
              ["claude"; "-p";
               proposer_prompt 1
                 (default "" (file_of (before_first_turn env_claude_hanging) "goal.md"))
                 (default "" (file_of (before_first_turn env_claude_hanging) "history.md"))
                 (default "" (file_of (before_first_turn env_claude_hanging) "critic.md"));
               "--dangerously-skip-permissions"] 600)).
  vm_compute. reflexivity.
Defined.



(** ** How one turn feeds the next *)

(** X5. What the proposer answered is what the critic is asked about: after
    a proposer turn that completes, the critic's prompt is built from the
    unchanged goal, the transcript extended by the new PROPOSER record, and
    that very answer as the latest proposal.  Building it cannot fail. *)
Theorem critic_prompt_carries_proposal
    (env : environment) (w w' : world) (r : Z) :
  run_proposer_turn env w = (w', Return tt) ->
  exists goal history timestamp response,
    file_of w "goal.md" = Some goal /\
    file_of w "history.md" = Some history /\
    file_of w' "proposer.md" = Some response /\
    build_critic_prompt r w'
      = (w', Return (critic_prompt r goal
                       (history ++ turn_record "PROPOSER"
                                     (Z.of_nat (count PROPOSER_HEADER history) + 1)
                                     timestamp response)
                       response)).
Proof.
  intros Hrun.
  pose proof (run_proposer_turn_outcome env w) as Hout.
  rewrite Hrun in Hout. cbn [fst snd] in Hout.
  inversion Hout as [| | d g h c w1 w2 response Hready Hcall Hd' Hconfig].
  destruct Hready as (Hd & Hg & Hh & _).
  destruct (after_proposer_turn_lookup d h (strftime (now env (length (events w2))))
              response) as (_ & Hh' & Hp & Hg' & _).
  exists g, h, (strftime (now env (length (events w2)))), response.
  unfold file_of. rewrite Hd', Hd.
  split; [exact Hg |]. split; [exact Hh |]. split; [exact Hp |].
  eapply build_critic_prompt_run.
  - exact Hd'.
  - rewrite Hg'. exact Hg.
  - exact Hh'.
  - exact Hp.
Qed.

Lemma critic_prompt_carries_proposal_witness :
  exists goal history timestamp response,
    file_of (before_first_turn env_agreeing) "goal.md" = Some goal /\
    file_of (before_first_turn env_agreeing) "history.md" = Some history /\
    file_of (run_proposer_turn env_agreeing (before_first_turn env_agreeing)).1
      "proposer.md" = Some response /\
    build_critic_prompt 1
      (run_proposer_turn env_agreeing (before_first_turn env_agreeing)).1
      = ((run_proposer_turn env_agreeing (before_first_turn env_agreeing)).1,
         Return (critic_prompt 1 goal
                   (history ++ turn_record "PROPOSER"
                                 (Z.of_nat (count PROPOSER_HEADER history) + 1)
                                 timestamp response)
                   response)).
Proof.
  apply (critic_prompt_carries_proposal env_agreeing (before_first_turn env_agreeing)).
  vm_compute. reflexivity.
Defined.

(** X6. What the critic answered is what the proposer is asked to address:
    after a critic turn that completes - with or without the consensus
    marker - the proposer's prompt is built from the unchanged goal, the
    transcript extended by the new CRITIC record, and that very answer as
    the latest critique. *)
Theorem proposer_prompt_carries_critique
    (env : environment) (w w' : world) (r : Z) :
  run_critic_turn env w = (w', Return tt) ->
  exists goal history timestamp response,
    file_of w "goal.md" = Some goal /\
    file_of w "history.md" = Some history /\
    file_of w' "critic.md" = Some response /\
    build_proposer_prompt r w'
      = (w', Return (proposer_prompt r goal
                       (history ++ turn_record "CRITIC"
                                     (Z.of_nat (count PROPOSER_HEADER history))
                                     timestamp response)
                       response)).
Proof.
  intros Hrun.
  pose proof (run_critic_turn_outcome env w) as Hout.
  rewrite Hrun in Hout. cbn [fst snd] in Hout.
  inversion Hout as [| | d g h c w1 w2 response Hready Hcall Hd' Hconfig].
  destruct Hready as (Hd & Hg & Hh & _).
  exists g, h, (strftime (now env (length (events w2)))), response.
  unfold file_of. rewrite Hd', Hd.
  replace (Z.of_nat (count PROPOSER_HEADER h)) with (critic_round h)
    by (unfold critic_round; lia).
  split; [exact Hg |]. split; [exact Hh |].
  assert (after_critic_turn d h (strftime (now env (length (events w2)))) response
            !! "critic.md" = Some response) as Hc'
    by (unfold after_critic_turn, critic_recorded;
        destruct (contains CONSENSUS_MARKER (upper response)); now simplify_map_eq).
  split; [exact Hc' |].
  eapply build_proposer_prompt_run.
  - exact Hd'.
  - unfold after_critic_turn, critic_recorded.
    destruct (contains CONSENSUS_MARKER (upper response));
      rewrite !lookup_insert_ne by congruence; exact Hg.
  - unfold after_critic_turn, critic_recorded.
    destruct (contains CONSENSUS_MARKER (upper response)); now simplify_map_eq.
  - exact Hc'.
Qed.

Lemma proposer_prompt_carries_critique_witness :
  exists goal history timestamp response,
    file_of (after_first_proposal env_disagreeing) "goal.md" = Some goal /\
    file_of (after_first_proposal env_disagreeing) "history.md" = Some history /\
    file_of (run_critic_turn env_disagreeing (after_first_proposal env_disagreeing)).1
      "critic.md" = Some response /\
    build_proposer_prompt 2
      (run_critic_turn env_disagreeing (after_first_proposal env_disagreeing)).1
      = ((run_critic_turn env_disagreeing (after_first_proposal env_disagreeing)).1,
         Return (proposer_prompt 2 goal
                   (history ++ turn_record "CRITIC"
                                 (Z.of_nat (count PROPOSER_HEADER history))
                                 timestamp response)
                   response)).
Proof.
  apply (proposer_prompt_carries_critique env_disagreeing
           (after_first_proposal env_disagreeing)).
  vm_compute. reflexivity.
Defined.

(** ** The loop as a whole *)

Lemma get_state_frame (w w' : world) :
  debate w' = debate w -> get_state w' = (w', (get_state w).2).
Proof.
  intros Hd. unfold get_state, bind, read_file. rewrite Hd.
  destruct (debate w) as [d|]; [| reflexivity].
  destruct (d !! "state.md") as [text|]; [| reflexivity].
  now destruct (State_of_value (strip text)).
Qed.

Lemma run_debate_loop_start (env : environment) (w : world) :
  run_debate_loop env w
    = debate_loop env (loop_fuel (MAX_ROUNDS (config w))) 0
        (and_then (start_report (config w)) w).
Proof.
  unfold run_debate_loop.
  rewrite (bind_Return _ _ _ _ _ (get_run _)).
  do 7 rewrite (bind_Return _ _ _ _ _ (print_run _ _)).
  reflexivity.
Qed.

(** X7. A concluded debate stays concluded: when the state is CONSENSUS and
    the budget is positive, the loop prints its opening lines and the
    completion lines and returns.  It starts no process, does not sleep,
    and changes no file, inside the session directory or outside. *)
Theorem consensus_ends_the_loop (env : environment) (w : world) :
  (get_state w).2 = Return CONSENSUS ->
  0 < MAX_ROUNDS (config w) ->
  run_debate_loop env w
    = (and_then (completion_report ++ start_report (config w)) w, Return tt).
Proof.
  intros Hstate Hbudget.
  rewrite run_debate_loop_start.
  destruct (loop_fuel (MAX_ROUNDS (config w))) as [|fuel] eqn:Hfuel;
    [unfold loop_fuel in Hfuel; lia |].
  cbn [debate_loop].
  rewrite (bind_Return _ _ _ _ _ (get_run _)).
  cbn [and_then config].
  apply Z.ltb_lt in Hbudget. rewrite Hbudget.
  erewrite bind_Return by (rewrite (get_state_frame w) by reflexivity;
                           rewrite Hstate; reflexivity).
  cbv beta iota.
  do 4 rewrite (bind_Return _ _ _ _ _ (print_run _ _)). rewrite print_run.
  reflexivity.
Qed.

Lemma consensus_ends_the_loop_witness :
  run_debate_loop env_agreeing (concluded env_agreeing)
    = (and_then (completion_report ++ start_report (config (concluded env_agreeing)))
         (concluded env_agreeing),
       Return tt).
Proof.
  apply (consensus_ends_the_loop env_agreeing (concluded env_agreeing)).
  - vm_compute. reflexivity.
  - vm_compute. reflexivity.
Defined.

(** X8. With a budget of zero or less the loop does nothing but print its
    opening lines and the budget report: it does not even read the state,
    so it returns normally when the session directory is missing or
    [state.md] is unreadable. *)
Theorem no_budget_no_turn (env : environment) (w : world) :
  MAX_ROUNDS (config w) <= 0 ->
  run_debate_loop env w
    = (and_then (budget_report (MAX_ROUNDS (config w)) ++ start_report (config w)) w,
       Return tt).
Proof.
  intros Hbudget.
  rewrite run_debate_loop_start.
  assert ((0 <? MAX_ROUNDS (config w)) = false) as Hlt by now apply Z.ltb_ge.
  destruct (loop_fuel (MAX_ROUNDS (config w))); cbn [debate_loop];
    rewrite (bind_Return _ _ _ _ _ (get_run _));
    cbn [and_then config]; rewrite Hlt;
    do 3 rewrite (bind_Return _ _ _ _ _ (print_run _ _)); rewrite print_run;
    reflexivity.
Qed.

Lemma no_budget_no_turn_witness :
  run_debate_loop env_agreeing (with_config (mkGlobals "claude" "codex" 0) empty_world)
    = (and_then
         (budget_report
            (MAX_ROUNDS (config (with_config (mkGlobals "claude" "codex" 0) empty_world)))
            ++ start_report (config (with_config (mkGlobals "claude" "codex" 0) empty_world)))
         (with_config (mkGlobals "claude" "codex" 0) empty_world),
       Return tt).
Proof.
  apply (no_budget_no_turn env_agreeing
           (with_config (mkGlobals "claude" "codex" 0) empty_world)).
  cbn. lia.
Defined.



(** Whatever holds between a world and the world after a turn, and is kept
    by printing and sleeping, holds between the worlds before and after
    the loop. *)
Lemma debate_loop_preserves (env : environment) (R : world -> world -> Prop) :
  (forall w, R w w) ->
  (forall w1 w2 w3, R w1 w2 -> R w2 w3 -> R w1 w3) ->
  (forall e w, R w (with_event e w)) ->
  (forall w, R w (run_proposer_turn env w).1) ->
  (forall w, R w (run_critic_turn env w).1) ->
  forall fuel rounds w, R w (debate_loop env fuel rounds w).1.
Proof.
  intros Hrefl Htrans Hevent Hproposer Hcritic.
  assert (forall e1 e2 e3 e4 w,
            R w (with_event e1 (with_event e2 (with_event e3 (with_event e4 w)))))
    as Hfour by (intros; repeat (eapply Htrans; [| apply Hevent]); apply Hrefl).
  assert (forall e1 e2 e3 e4 e5 w,
            R w (with_event e1 (with_event e2 (with_event e3 (with_event e4
                   (with_event e5 w))))))
    as Hfive by (intros; eapply Htrans; [apply Hfour | apply Hevent]).
  induction fuel as [|fuel IH]; intros rounds w; cbn [debate_loop];
    rewrite (bind_Return _ _ _ _ _ (get_run _));
    destruct (rounds <? MAX_ROUNDS (config w)).
  - apply Hrefl.
  - do 3 rewrite (bind_Return _ _ _ _ _ (print_run _ _)). rewrite print_run.
    apply Hfour.
  - pose proof (get_state_world w) as Hsame.
    destruct (get_state w) as [w0 [st | e |]] eqn:Hstate; cbn [fst] in Hsame; subst w0.
    + rewrite (bind_Return _ _ _ _ _ Hstate).
      destruct st.
      * pose proof (Hproposer w) as Hturn.
        destruct (run_proposer_turn env w) as [w1 [[] | e |]] eqn:Hrun;
          cbn [fst] in Hturn.
        -- rewrite (bind_Return _ _ _ _ _ Hrun).
           rewrite (bind_Return _ _ _ _ _ (sleep_run _ _)).
           eapply Htrans; [| apply IH].
           eapply Htrans; [exact Hturn | apply Hevent].
        -- now rewrite (bind_Raise _ _ _ _ _ Hrun).
        -- unfold bind. now rewrite Hrun.
      * pose proof (Hcritic w) as Hturn.
        destruct (run_critic_turn env w) as [w1 [[] | e |]] eqn:Hrun;
          cbn [fst] in Hturn.
        -- rewrite (bind_Return _ _ _ _ _ Hrun).
           rewrite (bind_Return _ _ _ _ _ (sleep_run _ _)).
           eapply Htrans; [| apply IH].
           eapply Htrans; [exact Hturn | apply Hevent].
        -- now rewrite (bind_Raise _ _ _ _ _ Hrun).
        -- unfold bind. now rewrite Hrun.
      * do 4 rewrite (bind_Return _ _ _ _ _ (print_run _ _)). rewrite print_run.
        apply Hfive.
    + rewrite (bind_Raise _ _ _ _ _ Hstate). apply Hrefl.
    + unfold bind. rewrite Hstate. apply Hrefl.
  - do 3 rewrite (bind_Return _ _ _ _ _ (print_run _ _)). rewrite print_run.
    apply Hfour.
Qed.

Lemma session_extended_same (w w' : world) :
  debate w' = debate w -> config w' = config w -> session_extended w w'.
Proof.
  intros Hd Hc. unfold session_extended, file_of. rewrite Hd.
  split; [exact Hc |]. split; [reflexivity |]. split; [reflexivity |].
  destruct (debate w) as [d|]; [| reflexivity].
  destruct (d !! "history.md") as [h|]; [| reflexivity].
  exists "". now rewrite append_empty_r.
Qed.

Lemma session_extended_trans (w1 w2 w3 : world) :
  session_extended w1 w2 -> session_extended w2 w3 -> session_extended w1 w3.
Proof.
  intros (Hc1 & Hn1 & Ho1 & Hh1) (Hc2 & Hn2 & Ho2 & Hh2).
  split; [congruence |]. split; [tauto |].
  split; [intros name ? ? ? ? ?; rewrite Ho2, Ho1 by assumption; reflexivity |].
  destruct (file_of w1 "history.md") as [h|].
  - destruct Hh1 as [a1 Hh1]. rewrite Hh1 in Hh2. destruct Hh2 as [a2 Hh2].
    exists (a1 ++ a2). now rewrite <- append_assoc.
  - now rewrite Hh1 in Hh2.
Qed.

Lemma proposer_turn_extends (env : environment) (w : world) :
  session_extended w (run_proposer_turn env w).1.
Proof.
  pose proof (run_proposer_turn_outcome env w) as Hout.
  destruct (run_proposer_turn env w) as [w' r]. cbn [fst snd] in *.
  inversion Hout as [path Hunready Hd' Hc' | d g h c w1 e Hready Hcall Hd' Hc'
                    | d g h c w1 w2 response Hready Hcall Hd' Hc'];
    try (apply session_extended_same; assumption).
  destruct Hready as (Hd & _ & Hh & _).
  unfold session_extended, file_of. rewrite Hd', Hd, Hh.
  split; [exact Hc' |]. split; [split; discriminate |].
  split.
  - intros name ? ? ? ? ?. unfold after_proposer_turn.
    now rewrite !lookup_insert_ne by congruence.
  - eexists. apply after_proposer_turn_lookup.
Qed.

Lemma critic_turn_extends (env : environment) (w : world) :
  session_extended w (run_critic_turn env w).1.
Proof.
  pose proof (run_critic_turn_outcome env w) as Hout.
  destruct (run_critic_turn env w) as [w' r]. cbn [fst snd] in *.
  inversion Hout as [path Hunready Hd' Hc' | d g h c w1 e Hready Hcall Hd' Hc'
                    | d g h c w1 w2 response Hready Hcall Hd' Hc'];
    try (apply session_extended_same; assumption).
  destruct Hready as (Hd & _ & Hh & _).
  unfold session_extended, file_of. rewrite Hd', Hd, Hh.
  split; [exact Hc' |]. split; [split; discriminate |].
  unfold after_critic_turn, critic_recorded.
  split.
  - intros name ? ? ? ? ?.
    destruct (contains CONSENSUS_MARKER (upper response));
      now rewrite !lookup_insert_ne by congruence.
  - eexists.
    destruct (contains CONSENSUS_MARKER (upper response)); now simplify_map_eq.
Qed.

Lemma run_debate_loop_extends (env : environment) (w : world) :
  session_extended w (run_debate_loop env w).1.
Proof.
  rewrite run_debate_loop_start.
  apply (session_extended_trans w (and_then (start_report (config w)) w)).
  - now apply session_extended_same.
  - apply debate_loop_preserves.
    + intros w1. now apply session_extended_same.
    + apply session_extended_trans.
    + intros e w1. now apply session_extended_same.
    + apply proposer_turn_extends.
    + apply critic_turn_extends.
Qed.

(** X10. The loop only ever adds to a session.  However it ends - budget
    used up, consensus, or an exception on the way - the globals are as
    they were, the session directory is there exactly if it was, every
    file other than [proposer.md], [critic.md], [history.md], [state.md]
    and [consensus.md] (the goal, first of all) is as it was, and the
    transcript is the one before followed by what was added: nothing
    recorded is rewritten or dropped. *)
Theorem loop_only_extends_session (env : environment) (w : world) :
  config (run_debate_loop env w).1 = config w /\
  (debate (run_debate_loop env w).1 = None <-> debate w = None) /\
  (forall name,
     name <> "proposer.md" -> name <> "critic.md" -> name <> "history.md" ->
     name <> "state.md" -> name <> "consensus.md" ->
     file_of (run_debate_loop env w).1 name = file_of w name) /\
  match file_of w "history.md" with
  | Some history =>
      exists added, file_of (run_debate_loop env w).1 "history.md" = Some (history ++ added)
  | None => file_of (run_debate_loop env w).1 "history.md" = None
  end.
Proof.
  change (session_extended w (run_debate_loop env w).1).
  rewrite run_debate_loop_start.
  apply (session_extended_trans w (and_then (start_report (config w)) w)).
  - now apply session_extended_same.
  - apply debate_loop_preserves.
    + intros w1. now apply session_extended_same.
    + apply session_extended_trans.
    + intros e w1. now apply session_extended_same.
    + apply proposer_turn_extends.
    + apply critic_turn_extends.
Qed.

(** ** The budget of a run *)

Lemma session_at_same_debate (w w' : world) rounds pending st :
  debate w' = debate w -> session_at w rounds pending st ->
  session_at w' rounds pending st.
Proof. unfold session_at. now intros ->. Qed.

Lemma proposer_step (env : environment) (w : world) (rounds : list (entry * entry)) :
  session_at w rounds None PROPOSER_TURN ->
  always_answers env (PROPOSER (config w)) clean ->
  exists w' p,
    run_proposer_turn env w = (w', Return tt) /\
    session_at w' rounds (Some p) CRITIC_TURN /\ config w' = config w.
Proof.
  intros (d & Hd & Hh & Hs & [g Hg] & [pr Hpr] & [c Hc] & Hsound & _) Halways.
  assert (proposer_ready w d g _ c) as Hready by (repeat split; eassumption).
  destruct (run_proposer_turn_answers env w d g _ c clean Hready Halways)
    as (w' & _ & _ & Hrun & _).
  pose proof (run_proposer_turn_outcome env w) as Hout.
  rewrite Hrun in Hout. cbn [fst snd] in Hout.
  inversion Hout as [| | d0 g0 h0 c0 w1 w2 response Hready0 Hcall Hd' Hc'].
  destruct (proposer_ready_inj _ _ _ _ _ _ _ _ _ Hready Hready0) as (-> & -> & -> & ->).
  destruct (Halways (proposer_prompt
                       (proposer_round
                          (TRANSCRIPT_OPENING ++ render_all (records_from 1 rounds None)))
                       g (TRANSCRIPT_OPENING ++ render_all (records_from 1 rounds None)) c)
              w1) as (w3 & r & Hcall' & Hclean).
  rewrite Hcall in Hcall'. injection Hcall' as _ <-.
  set (ts := strftime (now env (length (events w2)))) in *.
  exists w', (ts, response). split; [exact Hrun |]. split; [| exact Hc'].
  destruct (after_proposer_turn_lookup d
              (TRANSCRIPT_OPENING ++ render_all (records_from 1 rounds None)) ts response)
    as (Hs' & Hh' & Hp' & Hg' & Hc'').
  eexists. split; [exact Hd' |].
  split; [| split; [exact Hs' | split; [rewrite Hg'; eauto | split; [eauto |
            split; [rewrite Hc''; eauto | split; [exact Hsound |]]]]]].
  - rewrite Hh'. f_equal.
    rewrite records_from_pending, render_all_app, <- append_assoc. f_equal.
    cbn [render_all]. rewrite append_empty_r. unfold render. cbn [turn_role role_name
      turn_round turn_time turn_content fst snd]. f_equal.
    unfold proposer_round. rewrite count_opening, count_records by (assumption || discriminate).
    lia.
  - intros p [= <-]. split; [apply free_of_strftime | exact Hclean].
Qed.

Lemma critic_step (env : environment) (w : world) (rounds : list (entry * entry))
    (p : entry) :
  session_at w rounds (Some p) CRITIC_TURN ->
  always_answers env (CRITIC (config w)) (fun r => clean r /\ ~ has_marker_any_case r) ->
  exists w' c,
    run_critic_turn env w = (w', Return tt) /\
    session_at w' (rounds ++ [(p, c)]) None PROPOSER_TURN /\ config w' = config w.
Proof.
  intros (d & Hd & Hh & Hs & [g Hg] & [pr Hpr] & [c Hc] & Hsound & Hpending) Halways.
  assert (critic_ready w d g _ pr) as Hready by (repeat split; eassumption).
  destruct (run_critic_turn_answers env w d g _ pr _ Hready Halways)
    as (w' & _ & _ & Hrun & _).
  pose proof (run_critic_turn_outcome env w) as Hout.
  rewrite Hrun in Hout. cbn [fst snd] in Hout.
  inversion Hout as [| | d0 g0 h0 p0 w1 w2 response Hready0 Hcall Hd' Hc'].
  destruct (critic_ready_inj _ _ _ _ _ _ _ _ _ Hready Hready0) as (-> & -> & -> & ->).
  set (h := TRANSCRIPT_OPENING ++ render_all (records_from 1 rounds (Some p))) in *.
  destruct (Halways (critic_prompt (critic_round h) g h pr) w1)
    as (w3 & r & Hcall' & Hclean & Hnomarker).
  rewrite Hcall in Hcall'. injection Hcall' as _ <-.
  apply marker_check_false in Hnomarker.
  set (ts := strftime (now env (length (events w2)))) in *.
  exists w', (ts, response). split; [exact Hrun |]. split; [| exact Hc'].
  destruct (after_critic_turn_lookup d h ts response Hnomarker)
    as (Hs' & Hh' & Hc'' & Hg' & Hp').
  assert (critic_round h = 1 + Z.of_nat (length rounds)) as Hround.
  { unfold critic_round, h. rewrite count_opening, count_records by (assumption || eauto).
    lia. }
  eexists. split; [exact Hd' |].
  split; [| split; [exact Hs' | split; [rewrite Hg'; eauto | split; [rewrite Hp'; eauto |
            split; [eauto | split; [| discriminate]]]]]].
  - rewrite Hh'. f_equal. unfold h.
    rewrite records_from_completed, render_all_app, <- append_assoc. f_equal.
    cbn [render_all]. rewrite append_empty_r. unfold render. cbn [turn_role role_name
      turn_round turn_time turn_content fst snd]. fold h. now rewrite Hround.
  - apply Forall_app. split; [exact Hsound |].
    constructor; [| constructor]. cbn [fst snd]. split; [now apply Hpending |].
    split; [apply free_of_strftime | exact Hclean].
Qed.

Lemma session_at_state (w : world) rounds pending st :
  session_at w rounds pending st -> get_state w = (w, Return st).
Proof.
  intros (d & Hd & _ & Hs & _). eapply get_state_run; eassumption.
Qed.

(** From the proposer's turn, with [S k] proposer turns left in the budget. *)
Lemma debate_loop_from_proposer (env : environment) (k : nat) :
  forall (fuel : nat) (r : Z) (w : world) (rounds : list (entry * entry)),
    session_at w rounds None PROPOSER_TURN ->
    MAX_ROUNDS (config w) - r = Z.of_nat (S k) ->
    (2 * k + 1 <= fuel)%nat ->
    always_answers env (PROPOSER (config w)) clean ->
    always_answers env (CRITIC (config w)) (fun r => clean r /\ ~ has_marker_any_case r) ->
    exists w' new p,
      debate_loop env fuel r w = (w', Return tt) /\
      length new = k /\
      session_at w' (rounds ++ new) (Some p) CRITIC_TURN /\
      config w' = config w.
Proof.
  induction k as [|k IH]; intros fuel r w rounds Hat Hleft Hfuel Hproposer Hcritic.
  - destruct fuel as [|fuel]; [lia |].
    destruct (proposer_step env w rounds Hat Hproposer) as (w1 & p & Hrun & Hat1 & Hc1).
    rewrite (debate_loop_proposer env fuel r w w1)
      by (lia || eauto using session_at_state).
    destruct (debate_loop_exhausted env fuel (r + 1) (with_event (Sleep POLL_INTERVAL) w1))
      as (w' & Hloop & Hd' & Hc' & _).
    { cbn [config with_event]. rewrite Hc1. lia. }
    exists w', [], p. split; [exact Hloop |]. split; [reflexivity |].
    rewrite app_nil_r. split.
    + eapply session_at_same_debate; [| exact Hat1]. exact Hd'.
    + rewrite Hc'. exact Hc1.
  - destruct fuel as [|[|fuel]]; [lia | lia |].
    destruct (proposer_step env w rounds Hat Hproposer) as (w1 & p & Hrun & Hat1 & Hc1).
    rewrite (debate_loop_proposer env (S fuel) r w w1)
      by (lia || eauto using session_at_state).
    set (w1' := with_event (Sleep POLL_INTERVAL) w1).
    assert (session_at w1' rounds (Some p) CRITIC_TURN) as Hat1'
      by (eapply session_at_same_debate; [| exact Hat1]; reflexivity).
    assert (config w1' = config w) as Hc1' by exact Hc1.
    destruct (critic_step env w1' rounds p Hat1') as (w2 & c & Hrun2 & Hat2 & Hc2).
    { rewrite Hc1'. exact Hcritic. }
    rewrite (debate_loop_critic env fuel (r + 1) w1' w2)
      by ((rewrite Hc1'; lia) || eauto using session_at_state).
    set (w2' := with_event (Sleep POLL_INTERVAL) w2).
    assert (config w2' = config w) as Hc2' by (unfold w2'; cbn [config with_event]; congruence).
    destruct (IH fuel (r + 1) w2' (rounds ++ [(p, c)])%list) as (w' & new & p' & Hloop & Hlen & Hat' & Hc').
    + eapply session_at_same_debate; [| exact Hat2]. reflexivity.
    + rewrite Hc2'. lia.
    + lia.
    + rewrite Hc2'. exact Hproposer.
    + rewrite Hc2'. exact Hcritic.
    + exists w', ((p, c) :: new), p'. split; [exact Hloop |].
      split; [cbn [length]; now rewrite Hlen |].
      split; [| congruence].
      now rewrite <- app_assoc in Hat'.
Qed.

(** X11. The budget is a number of proposer turns, and it is the budget of
    the run, not of the session.  Run on a session that is in order - new,
    or left by an earlier run with a proposal waiting or not - with a
    budget of [n >= 1], agents that always answer, without the heading
    [## [PROPOSER]] in an answer, and a critic that never gives the marker:
    the loop returns after exactly [n] new proposals, each but the last
    followed by its critique (and a proposal that was waiting gets its
    critique first); the last proposal waits and the state is
    CRITIC_TURN. *)
Theorem budget_counts_proposals_of_the_run
    (env : environment) (w : world) (rounds : list (entry * entry))
    (pending : option entry) :
  session_at w rounds pending (turn_due pending) ->
  1 <= MAX_ROUNDS (config w) ->
  always_answers env (PROPOSER (config w)) clean ->
  always_answers env (CRITIC (config w)) (fun r => clean r /\ ~ has_marker_any_case r) ->
  exists w' new p,
    run_debate_loop env w = (w', Return tt) /\
    Z.of_nat (length new)
      = MAX_ROUNDS (config w) - 1 + match pending with Some _ => 1 | None => 0 end /\
    session_at w' (rounds ++ new) (Some p) CRITIC_TURN /\
    (forall p0, pending = Some p0 -> exists c rest, new = (p0, c) :: rest).
Proof.
  intros Hat Hbudget Hproposer Hcritic.
  rewrite run_debate_loop_start.
  set (w0 := and_then (start_report (config w)) w).
  assert (session_at w0 rounds pending (turn_due pending)) as Hat0
    by (eapply session_at_same_debate; [| exact Hat]; reflexivity).
  assert (config w0 = config w) as Hc0 by reflexivity.
  clearbody w0.
  remember (Z.to_nat (MAX_ROUNDS (config w) - 1)) as k eqn:Hk.
  assert (loop_fuel (MAX_ROUNDS (config w)) = S (S (2 * k))) as ->
    by (unfold loop_fuel; lia).
  destruct pending as [p0|]; cbn [turn_due] in *.
  - destruct (critic_step env w0 rounds p0 Hat0) as (w1 & c & Hrun & Hat1 & Hc1).
    { rewrite Hc0. exact Hcritic. }
    rewrite (debate_loop_critic env (S (2 * k)) 0 w0 w1)
      by ((rewrite Hc0; lia) || eauto using session_at_state).
    set (w1' := with_event (Sleep POLL_INTERVAL) w1).
    assert (config w1' = config w) as Hc1' by (unfold w1'; cbn [config with_event]; congruence).
    destruct (debate_loop_from_proposer env k (S (2 * k)) 0 w1' (rounds ++ [(p0, c)])%list)
      as (w' & new & p & Hloop & Hlen & Hat' & Hc').
    + eapply session_at_same_debate; [| exact Hat1]. reflexivity.
    + rewrite Hc1'. lia.
    + lia.
    + rewrite Hc1'. exact Hproposer.
    + rewrite Hc1'. exact Hcritic.
    + exists w', ((p0, c) :: new), p. split; [exact Hloop |].
      split; [cbn [length]; lia |].
      split; [now rewrite <- app_assoc in Hat' |].
      intros p1 [= <-]. eauto.
  - destruct (debate_loop_from_proposer env k (S (S (2 * k))) 0 w0 rounds)
      as (w' & new & p & Hloop & Hlen & Hat' & Hc'); try assumption.
    + rewrite Hc0. lia.
    + lia.
    + now rewrite Hc0.
    + now rewrite Hc0.
    + exists w', new, p. split; [exact Hloop |]. split; [lia |].
      split; [exact Hat' | discriminate].
Qed.

Lemma budget_counts_proposals_of_the_run_witness :
  exists w' new p,
    run_debate_loop env_disagreeing
      (with_config (mkGlobals "claude" "codex" 3) (after_first_proposal env_disagreeing))
      = (w', Return tt) /\
    Z.of_nat (length new) = 3 - 1 + 1 /\
    session_at w' ([] ++ new) (Some p) CRITIC_TURN /\
    (forall p0, Some ("2026-01-02 03:04", "# Proposal: blue") = Some p0 ->
       exists c rest, new = (p0, c) :: rest).
Proof.
  apply (budget_counts_proposals_of_the_run env_disagreeing
           (with_config (mkGlobals "claude" "codex" 3)
              (after_first_proposal env_disagreeing))
           [] (Some ("2026-01-02 03:04", "# Proposal: blue"))).
  - exists (default ∅ (debate (with_config (mkGlobals "claude" "codex" 3)
                                  (after_first_proposal env_disagreeing)))).
    split; [vm_compute; reflexivity |].
    split; [vm_compute; reflexivity |]. split; [vm_compute; reflexivity |].
    split; [eexists; vm_compute; reflexivity |].
    split; [eexists; vm_compute; reflexivity |].
    split; [eexists; vm_compute; reflexivity |].
    split; [constructor |].
    intros p [= <-]. split; vm_compute; reflexivity.
  - cbn. lia.
  - eapply always_answers_weaken; [| apply sample_claude_answers].
    intros r ->. vm_compute. reflexivity.
  - eapply always_answers_weaken; [| apply sample_codex_answers].
    intros r ->. split; [vm_compute; reflexivity |].
    apply marker_check_false. vm_compute. reflexivity.
Defined.

(** ** The gateway, when the process ends in time *)

(** X12. What a call of claude that ends within the 600 seconds does, in
    full: one line is printed and one process started; the process is not
    signalled; the global that names the running process is reset; the
    session directory is not touched.  Exit status 0 gives the standard
    output, stripped, as the answer; any other exit status raises
    [RuntimeError] with the standard error in its message - the standard
    output is then dropped. *)
Theorem claude_call_in_time
    (env : environment) (prompt : string) (w : world) (x : execution) :
  program env (S (length (events w)))
    ["claude"; "-p"; prompt; "--dangerously-skip-permissions"] = Runs x ->
  seconds x <= 600 ->
  call_claude env prompt w
    = (mkWorld (debate w) (writes x (files w))
         (Spawn (S (length (events w)))
            ["claude"; "-p"; prompt; "--dangerously-skip-permissions"]
            :: Stdout "    Running: claude -p '...' --dangerously-skip-permissions"
            :: events w)
         None (config w),
       if returncode x =? 0 then Return (strip (stdout x))
       else Raise (RuntimeError ("Claude CLI failed: " ++ stderr x))).
Proof.
  intros Hx Hin.
  unfold call_claude, bind, print, modify, Popen, set_current_process,
    try_finally, try_except, communicate, killpg_of, raise, ret, bind, modify.
  cbn. rewrite Hx. cbn.
  change AGENT_TIMEOUT with 600.
  apply Z.leb_le in Hin. rewrite Hin. cbn.
  destruct (returncode x =? 0); reflexivity.
Qed.

Lemma claude_call_in_time_witness :
  call_claude env_codex_crashing "Propose." empty_world
    = (mkWorld (debate empty_world) (writes (says "# Proposal: blue") (files empty_world))
         (Spawn (S (length (events empty_world)))
            ["claude"; "-p"; "Propose."; "--dangerously-skip-permissions"]
            :: Stdout "    Running: claude -p '...' --dangerously-skip-permissions"
            :: events empty_world)
         None (config empty_world),
       if returncode (says "# Proposal: blue") =? 0
       then Return (strip (stdout (says "# Proposal: blue")))
       else Raise (RuntimeError ("Claude CLI failed: " ++ stderr (says "# Proposal: blue")))).
Proof.
  apply (claude_call_in_time env_codex_crashing "Propose." empty_world
           (says "# Proposal: blue")).
  - reflexivity.
  - cbn. lia.
Defined.

(** X13. An agent whose process ends within the 600 seconds is started
    once and never signalled: all the call adds to what happened is its
    announcement and the start of that one process.  Afterwards no process
    is recorded as running, and the session directory and the globals are
    as before - whether the call returns an answer or raises. *)
Theorem agent_in_time_is_not_signalled
    (env : environment) (agent prompt : string) (w : world) :
  agent = "claude" \/ agent = "codex" ->
  (forall argv, exists x,
      program env (S (length (events w))) argv = Runs x /\ seconds x <= 600) ->
  exists argv line,
    hd "" argv = agent /\
    events (call_agent env agent prompt w).1
      = Spawn (S (length (events w))) argv :: Stdout line :: events w /\
    current_process (call_agent env agent prompt w).1 = None /\
    debate (call_agent env agent prompt w).1 = debate w /\
    config (call_agent env agent prompt w).1 = config w.
Proof.
  intros Hagent Hfast.
  destruct Hagent as [-> | ->]; unfold call_agent; cbn [String.eqb Ascii.eqb Bool.eqb].
  - destruct (Hfast ["claude"; "-p"; prompt; "--dangerously-skip-permissions"])
      as (x & Hx & Hin).
    eexists _, _. split; [| unfold call_claude, bind, print, modify, Popen,
      set_current_process, try_finally, try_except, communicate, killpg_of, raise, ret,
      bind, modify; cbn; rewrite Hx; cbn; change AGENT_TIMEOUT with 600;
      apply Z.leb_le in Hin; rewrite Hin; cbn;
      destruct (returncode x =? 0); cbn; repeat split; reflexivity].
    reflexivity.
  - destruct (Hfast ["codex"; "exec"; "--dangerously-bypass-approvals-and-sandbox";
                     "-o"; tmpname env (S (length (events w))); prompt])
      as (x & Hx & Hin).
    eexists _, _. split; [| unfold call_codex, bind, print, modify, NamedTemporaryFile,
      Popen, set_current_process, try_finally, try_except, communicate, killpg_of,
      path_exists, path_read_text, path_unlink, raise, ret, bind, modify; cbn;
      rewrite Hx; cbn; change AGENT_TIMEOUT with 600;
      apply Z.leb_le in Hin; rewrite Hin; cbn;
      case_bool_decide as Hthere; cbn;
      [destruct Hthere as [content Hc]; rewrite Hc; cbn |];
      repeat split; reflexivity].
    reflexivity.
Qed.

Lemma agent_in_time_is_not_signalled_witness :
  exists argv line,
    hd "" argv = "codex" /\
    events (call_agent env_codex_crashing "codex" "Evaluate." empty_world).1
      = Spawn (S (length (events empty_world))) argv :: Stdout line :: events empty_world /\
    current_process (call_agent env_codex_crashing "codex" "Evaluate." empty_world).1
      = None /\
    debate (call_agent env_codex_crashing "codex" "Evaluate." empty_world).1
      = debate empty_world /\
    config (call_agent env_codex_crashing "codex" "Evaluate." empty_world).1
      = config empty_world.
Proof.
  apply (agent_in_time_is_not_signalled env_codex_crashing "codex" "Evaluate."
           empty_world).
  - right; reflexivity.
  - intros argv. cbn. destruct (String.eqb _ _); eexists; split; (reflexivity || (cbn; lia)).
Defined.

(** ** The entry point *)

Lemma with_debate_absent (w : world) : debate w = None -> with_debate None w = w.
Proof. destruct w. cbn. now intros ->. Qed.

(** The ways [main] can go. *)
Lemma main_cases (env : environment) (a : arguments) (w : world) :
  main env a w =
    let wa := with_config (globals_of a) w in
    match goal_given a w with
    | Return goal =>
        if arg_resume a
        then
          if bool_decide (is_Some (debate w))
          then loop_in_main env (with_event (Stdout "Resuming from debate") wa)
          else (with_event (Stdout "Error: No debate to resume. Start with --goal") wa,
                Return 1)
        else
          if option_truthy goal
          then loop_in_main env (setup_debate_dir goal (with_debate None wa)).1
          else (with_event (Stdout "Error: Provide --goal or --goal-file")
                  (with_debate None wa), Return 1)
    | Raise e => (wa, Raise e)
    | OutOfFuel => (wa, OutOfFuel)
    end.
Proof.
  unfold main. fold (globals_of a).
  rewrite (bind_Return _ _ _ _ _ (modify_run _ _)).
  cbv zeta. set (wa := with_config (globals_of a) w).
  assert (debate wa = debate w) as Hdebate by reflexivity.
  assert (files wa = files w) as Hfiles by reflexivity.
  unfold goal_given.
  match goal with
  | |- bind ?m ?k wa = _ =>
      assert (m wa
              = (wa, if option_truthy (arg_goal a)
                     then Return (Some ("# Goal" ++ LF ++ LF ++ default "" (arg_goal a)))
                     else if option_truthy (arg_goal_file a)
                     then match files w !! default "" (arg_goal_file a) with
                          | Some text => Return (Some text)
                          | None => Raise (FileNotFoundError (default "" (arg_goal_file a)))
                          end
                     else Return None)) as Hread
  end.
  { destruct (option_truthy (arg_goal a)); [reflexivity |].
    destruct (option_truthy (arg_goal_file a)); [| reflexivity].
    unfold bind, path_read_text. rewrite Hfiles.
    now destruct (files w !! default "" (arg_goal_file a)). }
  match type of Hread with _ = (wa, ?r) => set (res := r) in * end.
  clearbody res. destruct res as [goal | e |].
  2:{ now rewrite (bind_Raise _ _ _ _ _ Hread). }
  2:{ unfold bind at 1. now rewrite Hread. }
  rewrite (bind_Return _ _ _ _ _ Hread).
  rewrite (bind_Return _ _ _ wa (bool_decide (is_Some (debate wa))) eq_refl).
  rewrite Hdebate.
  destruct (arg_resume a).
  - case_bool_decide as Hthere; cbn [negb];
      now rewrite (bind_Return _ _ _ _ _ (bind_Return _ _ _ _ _ (print_run _ _))).
  - assert ((if bool_decide (is_Some (debate w)) then rmtree else ret tt) wa
              = (with_debate None wa, Return tt)) as Hgone.
    { case_bool_decide as Hthere; [reflexivity |].
      rewrite with_debate_absent; [reflexivity |].
      rewrite Hdebate. destruct (debate w); [destruct Hthere; eauto | reflexivity]. }
    destruct (option_truthy goal) eqn:Hgoal; cbn [negb].
    + destruct goal as [G|]; [| discriminate]. cbn [option_truthy] in Hgoal.
      destruct (setup_debate_dir_run G (with_debate None wa) eq_refl Hgoal)
        as (wc & Hsetup & _).
      rewrite (bind_Return _ _ _ wc true).
      2:{ rewrite (bind_Return _ _ _ _ _ Hgone).
          now rewrite (bind_Return _ _ _ _ _ Hsetup). }
      now rewrite Hsetup.
    + rewrite (bind_Return _ _ _
                 (with_event (Stdout "Error: Provide --goal or --goal-file")
                    (with_debate None wa)) false).
      2:{ rewrite (bind_Return _ _ _ _ _ Hgone).
          now rewrite (bind_Return _ _ _ _ _ (print_run _ _)). }
      reflexivity.
Qed.
Lemma loop_in_main_run (env : environment) (w : world) :
  session_extended w (loop_in_main env w).1 /\
  ((loop_in_main env w).2 = Return 0 \/ exists e, (loop_in_main env w).2 = Raise e).
Proof.
  pose proof (run_debate_loop_extends env w) as Hext.
  pose proof (run_debate_loop_within_fuel env w) as Hfuel.
  unfold loop_in_main, bind, try_except.
  destruct (run_debate_loop env w) as [w1 [[] | e |]]; cbn [fst snd] in *.
  - split; [exact Hext | left; reflexivity].
  - destruct (is_KeyboardInterrupt e).
    + rewrite print_run. cbn [fst snd]. split; [| left; reflexivity].
      eapply session_extended_trans; [exact Hext |]. now apply session_extended_same.
    + split; [exact Hext | right; eauto].
  - congruence.
Qed.

Lemma goal_given_readable (a : arguments) (w : world) :
  goal_file_unreadable a w = false -> exists goal, goal_given a w = Return goal.
Proof.
  unfold goal_file_unreadable, goal_given.
  destruct (option_truthy (arg_goal a)); [eauto |].
  destruct (option_truthy (arg_goal_file a)); [| eauto].
  cbn [negb andb]. case_bool_decide as Hnone; [discriminate |].
  destruct (files w !! default "" (arg_goal_file a)); [eauto | done].
Qed.

(** X14. Starting a debate without a usable goal - no [--goal] text, and
    no [--goal-file] or an empty one - fails with exit status 1, but only
    after the session directory has been deleted: a session that was there
    is lost although nothing replaces it.  No process is started and the
    files outside the session directory are as they were. *)
Theorem start_without_goal_discards_session
    (env : environment) (a : arguments) (w : world) :
  arg_resume a = false ->
  option_truthy (arg_goal a) = false ->
  option_truthy (arg_goal_file a) = false
    \/ files w !! default "" (arg_goal_file a) = Some "" ->
  (main env a w).2 = Return 1 /\
  debate (main env a w).1 = None /\
  files (main env a w).1 = files w /\
  events (main env a w).1 = Stdout "Error: Provide --goal or --goal-file" :: events w.
Proof.
  intros Hresume Hgoal Hfile.
  rewrite main_cases. cbv zeta.
  assert (exists goal, goal_given a w = Return goal /\ option_truthy goal = false)
    as (goal & -> & Hnone).
  { unfold goal_given. rewrite Hgoal.
    destruct Hfile as [-> | Hempty]; [eauto |].
    destruct (option_truthy (arg_goal_file a)); [| eauto].
    rewrite Hempty. eauto. }
  rewrite Hresume, Hnone. repeat split.
Qed.

Lemma start_without_goal_discards_session_witness :
  (main env_agreeing (mkArguments None None false "claude" "codex" 10 false)
     (concluded env_agreeing)).2 = Return 1 /\
  debate (main env_agreeing (mkArguments None None false "claude" "codex" 10 false)
            (concluded env_agreeing)).1 = None /\
  files (main env_agreeing (mkArguments None None false "claude" "codex" 10 false)
           (concluded env_agreeing)).1 = files (concluded env_agreeing) /\
  events (main env_agreeing (mkArguments None None false "claude" "codex" 10 false)
            (concluded env_agreeing)).1
    = Stdout "Error: Provide --goal or --goal-file" :: events (concluded env_agreeing).
Proof.
  apply (start_without_goal_discards_session env_agreeing
           (mkArguments None None false "claude" "codex" 10 false)
           (concluded env_agreeing)).
  - reflexivity.
  - reflexivity.
  - left. reflexivity.
Defined.

(** X15. A new debate starts from nothing but its goal.  [--goal g] wins
    over [--goal-file] (which is then not even read) and is stored under a
    [# Goal] heading; the content of a goal file is stored as it is.
    Whatever session was there before and however the run ends, afterwards
    [goal.md] holds that goal, the transcript begins with the opening
    lines of a new transcript, and the directory has no file besides the
    six the engine writes.  The run ends with exit status 0 or with an
    exception, never with status 1. *)
Theorem new_debate_starts_afresh
    (env : environment) (a : arguments) (w : world) (G : string) :
  arg_resume a = false ->
  (exists g, arg_goal a = Some g /\ truthy g = true /\ G = "# Goal" ++ LF ++ LF ++ g)
    \/ (option_truthy (arg_goal a) = false /\
        exists f, arg_goal_file a = Some f /\ truthy f = true /\
                  files w !! f = Some G /\ truthy G = true) ->
  file_of (main env a w).1 "goal.md" = Some G /\
  (exists added,
     file_of (main env a w).1 "history.md" = Some (TRANSCRIPT_OPENING ++ added)) /\
  (forall name,
     name <> "goal.md" -> name <> "state.md" -> name <> "proposer.md" ->
     name <> "critic.md" -> name <> "history.md" -> name <> "consensus.md" ->
     file_of (main env a w).1 name = None) /\
  ((main env a w).2 = Return 0 \/ exists e, (main env a w).2 = Raise e).
Proof.
  intros Hresume Hgoal.
  rewrite main_cases. cbv zeta.
  assert (goal_given a w = Return (Some G) /\ truthy G = true) as [-> HG].
  { unfold goal_given.
    destruct Hgoal as [(g & Hg & Htruthy & ->) | (Hnone & f & Hf & Htruthy & Hread & HG)].
    - rewrite Hg. cbn [option_truthy from_option id]. now rewrite Htruthy.
    - rewrite Hnone, Hf. cbn [option_truthy from_option id].
      now rewrite Htruthy, Hread. }
  rewrite Hresume. cbn [option_truthy]. rewrite HG.
  destruct (setup_debate_dir_run G (with_debate None (with_config (globals_of a) w))
              eq_refl HG) as (wc & Hsetup & Hdc & _).
  rewrite Hsetup. cbn [fst].
  destruct (loop_in_main_run env wc) as ((_ & _ & Hothers & Hhistory) & Hresult).
  assert (forall name, file_of wc name = fresh_session G !! name) as Hfresh
    by (intros name; unfold file_of; now rewrite Hdc).
  split; [| split; [| split; [| exact Hresult]]].
  - rewrite Hothers by discriminate. rewrite Hfresh.
    unfold fresh_session. now simplify_map_eq.
  - rewrite Hfresh in Hhistory.
    replace (fresh_session G !! "history.md") with (Some TRANSCRIPT_OPENING) in Hhistory
      by (unfold fresh_session; now simplify_map_eq).
    exact Hhistory.
  - intros name ? ? ? ? ? ?. rewrite Hothers by assumption. rewrite Hfresh.
    unfold fresh_session. rewrite !lookup_insert_ne by congruence. apply lookup_empty.
Qed.

Lemma new_debate_starts_afresh_witness :
  file_of (main env_disagreeing (start "pick a color" 1) (concluded env_agreeing)).1
    "goal.md" = Some ("# Goal" ++ LF ++ LF ++ "pick a color") /\
  (exists added,
     file_of (main env_disagreeing (start "pick a color" 1) (concluded env_agreeing)).1
       "history.md" = Some (TRANSCRIPT_OPENING ++ added)) /\
  (forall name,
     name <> "goal.md" -> name <> "state.md" -> name <> "proposer.md" ->
     name <> "critic.md" -> name <> "history.md" -> name <> "consensus.md" ->
     file_of (main env_disagreeing (start "pick a color" 1) (concluded env_agreeing)).1
       name = None) /\
  ((main env_disagreeing (start "pick a color" 1) (concluded env_agreeing)).2 = Return 0
   \/ exists e,
        (main env_disagreeing (start "pick a color" 1) (concluded env_agreeing)).2
          = Raise e).
Proof.
  apply (new_debate_starts_afresh env_disagreeing (start "pick a color" 1)
           (concluded env_agreeing) ("# Goal" ++ LF ++ LF ++ "pick a color")).
  - reflexivity.
  - left. exists "pick a color". repeat split.
Defined.

(** X16. Resuming continues the session that is there.  With [--resume],
    an existing session directory and a goal file that can be read if one
    is to be read: the goal on the command line is ignored - [goal.md] and
    every file other than [proposer.md], [critic.md], [history.md],
    [state.md] and [consensus.md] are as they were - the transcript is the
    one before followed by what the run added, and the globals are those
    of this command line.  The run ends with exit status 0 or with an
    exception. *)
Theorem resume_continues_session
    (env : environment) (a : arguments) (w : world) (d : gmap string string) :
  arg_resume a = true ->
  debate w = Some d ->
  goal_file_unreadable a w = false ->
  (forall name,
     name <> "proposer.md" -> name <> "critic.md" -> name <> "history.md" ->
     name <> "state.md" -> name <> "consensus.md" ->
     file_of (main env a w).1 name = d !! name) /\
  match d !! "history.md" with
  | Some history =>
      exists added, file_of (main env a w).1 "history.md" = Some (history ++ added)
  | None => file_of (main env a w).1 "history.md" = None
  end /\
  config (main env a w).1 = globals_of a /\
  ((main env a w).2 = Return 0 \/ exists e, (main env a w).2 = Raise e).
Proof.
  intros Hresume Hd Hreadable.
  rewrite main_cases. cbv zeta.
  destruct (goal_given_readable a w Hreadable) as [goal ->].
  rewrite Hresume, Hd, bool_decide_eq_true_2 by eauto.
  set (wr := with_event (Stdout "Resuming from debate") (with_config (globals_of a) w)).
  destruct (loop_in_main_run env wr) as ((Hconfig & _ & Hothers & Hhistory) & Hresult).
  assert (forall name, file_of wr name = d !! name) as Hsame
    by (intros name; unfold file_of, wr; run_store; now rewrite Hd).
  split; [| split; [| split; [exact Hconfig | exact Hresult]]].
  - intros name ? ? ? ? ?. rewrite Hothers by assumption. apply Hsame.
  - rewrite Hsame in Hhistory. exact Hhistory.
Qed.

Lemma resume_continues_session_witness :
  (forall name,
     name <> "proposer.md" -> name <> "critic.md" -> name <> "history.md" ->
     name <> "state.md" -> name <> "consensus.md" ->
     file_of (main env_disagreeing
                (mkArguments (Some "another goal") None true "claude" "codex" 1 false)
                (after_first_proposal env_disagreeing)).1 name
       = default ∅ (debate (after_first_proposal env_disagreeing)) !! name) /\
  match default ∅ (debate (after_first_proposal env_disagreeing)) !! "history.md" with
  | Some history =>
      exists added,
        file_of (main env_disagreeing
                   (mkArguments (Some "another goal") None true "claude" "codex" 1 false)
                   (after_first_proposal env_disagreeing)).1 "history.md"
          = Some (history ++ added)
  | None =>
      file_of (main env_disagreeing
                 (mkArguments (Some "another goal") None true "claude" "codex" 1 false)
                 (after_first_proposal env_disagreeing)).1 "history.md" = None
  end /\
  config (main env_disagreeing
            (mkArguments (Some "another goal") None true "claude" "codex" 1 false)
            (after_first_proposal env_disagreeing)).1
    = globals_of (mkArguments (Some "another goal") None true "claude" "codex" 1 false) /\
  ((main env_disagreeing
      (mkArguments (Some "another goal") None true "claude" "codex" 1 false)
      (after_first_proposal env_disagreeing)).2 = Return 0
   \/ exists e,
        (main env_disagreeing
           (mkArguments (Some "another goal") None true "claude" "codex" 1 false)
           (after_first_proposal env_disagreeing)).2 = Raise e).
Proof.
  apply (resume_continues_session env_disagreeing
           (mkArguments (Some "another goal") None true "claude" "codex" 1 false)
           (after_first_proposal env_disagreeing)
           (default ∅ (debate (after_first_proposal env_disagreeing)))).
  - reflexivity.
  - vm_compute. reflexivity.
  - reflexivity.
Defined.
(** X17. The roles and the budget are those of the command line for the
    whole run: [--swap] makes codex the proposer and claude the critic
    whatever [--proposer] and [--critic] say, and nothing that [main] does
    - turns, failures, an error exit - changes the globals afterwards. *)
Theorem swap_overrides_roles (env : environment) (a : arguments) (w : world) :
  config (main env a w).1
    = if arg_swap a
      then mkGlobals "codex" "claude" (arg_max_rounds a)
      else mkGlobals (arg_proposer a) (arg_critic a) (arg_max_rounds a).
Proof.
  fold (globals_of a). rewrite main_cases. cbv zeta.
  destruct (goal_given a w) as [goal | e |]; try reflexivity.
  destruct (arg_resume a).
  - case_bool_decide; [| reflexivity].
    now destruct (loop_in_main_run env
                    (with_event (Stdout "Resuming from debate")
                       (with_config (globals_of a) w))) as ((-> & _) & _).
  - destruct (option_truthy goal) eqn:Hgoal; [| reflexivity].
    destruct goal as [G|]; [| discriminate]. cbn [option_truthy] in Hgoal.
    destruct (setup_debate_dir_run G (with_debate None (with_config (globals_of a) w))
                eq_refl Hgoal) as (wc & Hsetup & _ & Hconfig).
    rewrite Hsetup. cbn [fst].
    destruct (loop_in_main_run env wc) as ((-> & _) & _). exact Hconfig.
Qed.

(** X18. [main] always comes to an end - the loop body runs at most twice
    per round of the budget - and it ends with exit status 0, with exit
    status 1, or with an exception.  Exit status 1 means that nothing was
    run: no process was started, the files outside the session directory
    are as they were, and there is no session directory afterwards. *)
Theorem exit_status_one_means_nothing_ran
    (env : environment) (a : arguments) (w : world) :
  (main env a w).2 <> OutOfFuel /\
  (forall z, (main env a w).2 = Return z -> z = 0 \/ z = 1) /\
  ((main env a w).2 = Return 1 ->
     debate (main env a w).1 = None /\
     started (main env a w).1 = started w /\
     files (main env a w).1 = files w).
Proof.
  rewrite main_cases. cbv zeta.
  assert (forall w1,
            (loop_in_main env w1).2 <> OutOfFuel /\
            (forall z, (loop_in_main env w1).2 = Return z -> z = 0 \/ z = 1) /\
            ((loop_in_main env w1).2 = Return 1 ->
               debate (loop_in_main env w1).1 = None /\
               started (loop_in_main env w1).1 = started w /\
               files (loop_in_main env w1).1 = files w)) as Hloop.
  { intros w1. destruct (loop_in_main_run env w1) as (_ & [-> | [e ->]]).
    - split; [discriminate |]. split; [intros z [= <-]; now left | discriminate].
    - split; [discriminate |]. split; discriminate. }
  unfold goal_given.
  assert (forall goal : option string,
            let out :=
              if arg_resume a
              then
                if bool_decide (is_Some (debate w))
                then loop_in_main env
                       (with_event (Stdout "Resuming from debate")
                          (with_config (globals_of a) w))
                else (with_event (Stdout "Error: No debate to resume. Start with --goal")
                        (with_config (globals_of a) w), Return 1)
              else
                if option_truthy goal
                then loop_in_main env
                       (setup_debate_dir goal
                          (with_debate None (with_config (globals_of a) w))).1
                else (with_event (Stdout "Error: Provide --goal or --goal-file")
                        (with_debate None (with_config (globals_of a) w)), Return 1) in
            out.2 <> OutOfFuel /\
            (forall z, out.2 = Return z -> z = 0 \/ z = 1) /\
            (out.2 = Return 1 ->
               debate out.1 = None /\ started out.1 = started w /\ files out.1 = files w))
    as Hrest.
  { intros goal. cbv zeta.
    destruct (arg_resume a).
    - case_bool_decide as Hthere; [apply Hloop |].
      cbn [fst snd]. split; [discriminate |].
      split; [intros z [= <-]; now right |]. intros _. run_store.
      split; [| split; reflexivity].
      destruct (debate w); [destruct Hthere; eauto | reflexivity].
    - destruct (option_truthy goal); [apply Hloop |].
      cbn [fst snd]. split; [discriminate |].
      split; [intros z [= <-]; now right |]. intros _. repeat split. }
  destruct (option_truthy (arg_goal a)); [apply Hrest |].
  destruct (option_truthy (arg_goal_file a)); [| apply Hrest].
  destruct (files w !! default "" (arg_goal_file a)); [apply Hrest |].
  cbn [fst snd]. split; [discriminate |]. split; discriminate.
Qed.

(** ** The dashboard and the engine *)

Lemma State_of_value_inv (v : string) (s : State) :
  State_of_value v = Some s -> v = State_value s.
Proof.
  unfold State_of_value.
  destruct (String.eqb_spec v "PROPOSER_TURN") as [-> |]; [now intros [= <-] |].
  destruct (String.eqb_spec v "CRITIC_TURN") as [-> |]; [now intros [= <-] |].
  destruct (String.eqb_spec v "CONSENSUS") as [-> |]; [now intros [= <-] |].
  discriminate.
Qed.

(** X19. The dashboard and the engine read the same state.  Whenever the
    engine's [get_state] returns a state, the dashboard's [get_state]
    returns the name of that state.  Where the engine fails the dashboard
    does not: without a [state.md] (the engine raises [FileNotFoundError])
    and with a blank one (the engine raises [ValueError]) the dashboard
    shows NOT_STARTED. *)
Theorem dashboard_state_agrees (w : world) :
  (forall s, (get_state w).2 = Return s ->
     App.get_state w = (w, Return (State_value s))) /\
  (file_of w "state.md" = None ->
     App.get_state w = (w, Return "NOT_STARTED") /\
     (get_state w).2 = Raise (FileNotFoundError "debate/state.md")) /\
  (forall text, file_of w "state.md" = Some text -> strip text = "" ->
     App.get_state w = (w, Return "NOT_STARTED") /\
     (get_state w).2 = Raise (ValueError "'' is not a valid State")).
Proof.
  unfold App.get_state, get_state, App.read_file, read_file, file_of, bind, ret, raise.
  split; [| split].
  - intros s. destruct (debate w) as [d|]; [| discriminate].
    destruct (d !! "state.md") as [text|]; [| discriminate].
    cbv beta iota zeta.
    destruct (State_of_value (strip text)) as [s'|] eqn:Hs; [| discriminate].
    cbn [snd]. intros [= ->]. apply State_of_value_inv in Hs. rewrite Hs.
    now destruct s.
  - destruct (debate w) as [d|]; [intros -> |]; now split.
  - intros text. destruct (debate w) as [d|]; [| discriminate].
    intros -> ->. now split.
Qed.

(** X20. The round the dashboard shows is the number of proposals made so
    far, and the engine's next proposer round is one more.  In a session
    that is in order, with [rounds] completed rounds and possibly a
    proposal waiting, both count the same headings: the dashboard shows
    the round of the latest proposal (0, shown as a dash, before the
    first). *)
Theorem dashboard_round_is_latest_proposal
    (w : world) (rounds : list (entry * entry)) (pending : option entry) (st : State) :
  session_at w rounds pending st ->
  App.current_round w
    = (w, Return (Z.of_nat (length rounds) + match pending with Some _ => 1 | None => 0 end))
  /\ get_round w
    = (w, Return (Z.of_nat (length rounds) + match pending with Some _ => 1 | None => 0 end
                  + 1)).
Proof.
  intros (d & Hd & Hh & _ & _ & _ & _ & Hsound & Hpending).
  unfold App.current_round, get_round, App.read_file, read_file, bind, ret.
  rewrite Hd, Hh. cbv beta iota.
  change "## [PROPOSER]" with PROPOSER_HEADER.
  rewrite count_opening, count_records by assumption.
  split; do 2 f_equal; destruct pending; lia.
Qed.

Lemma dashboard_round_is_latest_proposal_witness :
  App.current_round (after_first_proposal env_disagreeing)
    = (after_first_proposal env_disagreeing,
       Return (Z.of_nat (length (@nil (entry * entry)))
               + match Some ("2026-01-02 03:04", "# Proposal: blue") with
                 | Some _ => 1
                 | None => 0
                 end))
  /\ get_round (after_first_proposal env_disagreeing)
    = (after_first_proposal env_disagreeing,
       Return (Z.of_nat (length (@nil (entry * entry)))
               + match Some ("2026-01-02 03:04", "# Proposal: blue") with
                 | Some _ => 1
                 | None => 0
                 end
               + 1)).
Proof.
  apply (dashboard_round_is_latest_proposal (after_first_proposal env_disagreeing)
           [] (Some ("2026-01-02 03:04", "# Proposal: blue")) CRITIC_TURN).
  exists (default ∅ (debate (after_first_proposal env_disagreeing))).
  split; [vm_compute; reflexivity |].
  split; [vm_compute; reflexivity |]. split; [vm_compute; reflexivity |].
  split; [eexists; vm_compute; reflexivity |].
  split; [eexists; vm_compute; reflexivity |].
  split; [eexists; vm_compute; reflexivity |].
  split; [constructor |].
  intros p [= <-]. split; vm_compute; reflexivity.
Defined.

(** ** The session store *)

Lemma lstrip_blank_app (l s : string) : blank l = true -> lstrip (l ++ s) = lstrip s.
Proof.
  induction l as [|c l IH]; norm_append; [reflexivity |].
  cbn [blank lstrip]. intros [Hc Hl]%andb_prop. rewrite Hc. now apply IH.
Qed.

Lemma rstrip_blank (r : string) : blank r = true -> rstrip r = "".
Proof.
  induction r as [|c r IH]; [reflexivity |].
  cbn [blank rstrip]. intros [Hc Hr]%andb_prop. now rewrite IH, Hc.
Qed.

Lemma rstrip_app_blank (v r : string) : blank r = true -> rstrip (v ++ r) = rstrip v.
Proof.
  intros Hr. induction v as [|c v IH]; norm_append.
  - now apply rstrip_blank.
  - cbn [rstrip]. now rewrite IH.
Qed.

Lemma strip_state_name (l r : string) (s : State) :
  blank l = true -> blank r = true -> strip (l ++ State_value s ++ r) = State_value s.
Proof.
  intros Hl Hr. unfold strip. rewrite lstrip_blank_app by exact Hl.
  transitivity (rstrip (State_value s ++ r)).
  - f_equal. destruct s; cbn [State_value]; norm_append; reflexivity.
  - rewrite rstrip_app_blank by exact Hr. now destruct s.
Qed.

(** X21. White space around the state name in [state.md] does not matter:
    a file that holds a state name with any white space before and after
    it - a final line feed left by an editor, say - is read as that state
    by the engine, and the dashboard shows the bare name. *)
Theorem state_file_tolerates_white_space
    (w : world) (d : gmap string string) (l r : string) (s : State) :
  debate w = Some d ->
  d !! "state.md" = Some (l ++ State_value s ++ r) ->
  blank l = true -> blank r = true ->
  get_state w = (w, Return s) /\ App.get_state w = (w, Return (State_value s)).
Proof.
  intros Hd Hs Hl Hr.
  unfold get_state, App.get_state, App.read_file, read_file, bind, ret, raise.
  rewrite Hd, Hs. cbv beta iota zeta.
  rewrite strip_state_name by assumption.
  now destruct s.
Qed.

Lemma state_file_tolerates_white_space_witness :
  get_state (with_state_file (" " ++ State_value CRITIC_TURN ++ LF)
               (after_first_proposal env_agreeing))
    = (with_state_file (" " ++ State_value CRITIC_TURN ++ LF)
         (after_first_proposal env_agreeing), Return CRITIC_TURN)
  /\ App.get_state (with_state_file (" " ++ State_value CRITIC_TURN ++ LF)
                      (after_first_proposal env_agreeing))
    = (with_state_file (" " ++ State_value CRITIC_TURN ++ LF)
         (after_first_proposal env_agreeing), Return (State_value CRITIC_TURN)).
Proof.
  apply (state_file_tolerates_white_space
           (with_state_file (" " ++ State_value CRITIC_TURN ++ LF)
              (after_first_proposal env_agreeing))
           (default ∅ (debate (with_state_file (" " ++ State_value CRITIC_TURN ++ LF)
                                 (after_first_proposal env_agreeing))))
           " " LF CRITIC_TURN).
  - vm_compute. reflexivity.
  - vm_compute. reflexivity.
  - reflexivity.
  - reflexivity.
Defined.



(** X23. What [setup_debate_dir] does, whatever was there: it makes the
    session directory if there is none and writes five files, announcing
    each, in the order goal, state, proposer, critic, history.  The goal
    file holds the goal it is given, or a placeholder when it is given
    none or an empty one; the state is PROPOSER_TURN.  It removes nothing:
    any other file of a directory that was there is kept. *)
Theorem setup_debate_dir_effect (goal : option string) (w : world) :
  exists w',
    setup_debate_dir goal w = (w', Return tt) /\
    file_of w' "goal.md"
      = Some (if option_truthy goal then default "" goal
              else "# Goal" ++ LF ++ LF ++ "[Define your goal here]") /\
    file_of w' "state.md" = Some "PROPOSER_TURN" /\
    file_of w' "proposer.md" = Some ("# Proposal" ++ LF ++ LF ++ "(Awaiting first proposal)") /\
    file_of w' "critic.md"
      = Some ("# Critique" ++ LF ++ LF ++ "(No critique yet - this is Round 1)") /\
    file_of w' "history.md" = Some ("# Debate History" ++ LF ++ LF ++ "---" ++ LF) /\
    (forall name,
       name <> "goal.md" -> name <> "state.md" -> name <> "proposer.md" ->
       name <> "critic.md" -> name <> "history.md" ->
       file_of w' name = file_of w name) /\
    events w'
      = Stdout "  Created debate/history.md" :: Stdout "  Created debate/critic.md"
          :: Stdout "  Created debate/proposer.md" :: Stdout "  Created debate/state.md"
          :: Stdout "  Created debate/goal.md" :: events w.
Proof.
  unfold setup_debate_dir, mkdir_exist_ok, create_files.
  rewrite (bind_Return _ _ _ _ _ (modify_run _ _)).
  repeat (erewrite bind_Return; [| eapply write_file_run; run_store; reflexivity];
          rewrite (bind_Return _ _ _ _ _ (print_run _ _))).
  eexists. split; [reflexivity |].
  unfold file_of. run_store.
  split; [| split; [| split; [| split; [| split; [| split]]]]];
    try (now simplify_map_eq).
  - rewrite !lookup_insert_ne by discriminate. rewrite lookup_insert_eq.
    destruct goal as [g|]; [| reflexivity]. cbn [option_truthy]. now destruct (truthy g).
  - intros name ? ? ? ? ?. rewrite !lookup_insert_ne by congruence.
    now destruct (debate w).
Qed.

(** * The turns of a run *)

(** ** The log of a session *)

















(** ** The budget of two *)

Lemma proposer_turn_answered (env : environment) (w : world) d g h c
    (P : string -> Prop) :
  proposer_ready w d g h c ->
  always_answers env (PROPOSER (config w)) P ->
  exists w2 response,
    call_agent env (PROPOSER (config w)) (proposer_prompt (proposer_round h) g h c)
      (proposer_announced w h) = (w2, Return response) /\
    P response /\
    run_proposer_turn env w = (proposer_done env w2 d h response, Return tt) /\
    config w2 = config w /\
    started w2 = (S (S (S (S (length (events w))))), PROPOSER (config w)) :: started w.
Proof.
  intros Hready Halways.
  destruct (Halways (proposer_prompt (proposer_round h) g h c) (proposer_announced w h))
    as (w2 & response & Hcall & HP).
  exists w2, response. split; [exact Hcall |]. split; [exact HP |].
  split; [now rewrite (run_proposer_turn_run env w d g h c Hready), Hcall |].
  pose proof (call_agent_frame env (PROPOSER (config w))
                (proposer_prompt (proposer_round h) g h c) (proposer_announced w h))
    as (_ & Hconfig & _).
  rewrite Hcall in Hconfig. split; [exact Hconfig |].
  now destruct (call_agent_answer _ _ _ _ _ _ Hcall) as (_ & ->).
Qed.

Lemma critic_turn_answered (env : environment) (w : world) d g h p
    (P : string -> Prop) :
  critic_ready w d g h p ->
  always_answers env (CRITIC (config w)) P ->
  exists w2 response,
    call_agent env (CRITIC (config w)) (critic_prompt (critic_round h) g h p)
      (critic_announced w h) = (w2, Return response) /\
    P response /\
    run_critic_turn env w = (critic_done env w2 d h response, Return tt) /\
    config w2 = config w /\
    started w2 = (S (S (S (S (length (events w))))), CRITIC (config w)) :: started w.
Proof.
  intros Hready Halways.
  destruct (Halways (critic_prompt (critic_round h) g h p) (critic_announced w h))
    as (w2 & response & Hcall & HP).
  exists w2, response. split; [exact Hcall |]. split; [exact HP |].
  split; [now rewrite (run_critic_turn_run env w d g h p Hready), Hcall |].
  pose proof (call_agent_frame env (CRITIC (config w))
                (critic_prompt (critic_round h) g h p) (critic_announced w h))
    as (_ & Hconfig & _).
  rewrite Hcall in Hconfig. split; [exact Hconfig |].
  now destruct (call_agent_answer _ _ _ _ _ _ Hcall) as (_ & ->).
Qed.

(** A budget of two, from the proposer's turn on: three turns, then the
    budget report. *)
Lemma debate_loop_budget_two_log (env : environment) (w : world) d g h c rounds :
  MAX_ROUNDS (config w) = 2 ->
  played env w rounds None ->
  proposer_ready w d g h c ->
  d !! "state.md" = Some (State_value PROPOSER_TURN) ->
  always_answers env (PROPOSER (config w)) (fun _ => True) ->
  always_answers env (CRITIC (config w)) (fun r => ~ has_marker_any_case r) ->
  exists w' e1 c1 e2 pid1 pid2 pid3 earlier,
    debate_loop env 4 0 w = (w', Return tt) /\
    played env w' (rounds ++ [(e1, c1)]) (Some e2) /\
    started w'
      = (pid3, PROPOSER (config w)) :: (pid2, CRITIC (config w))
          :: (pid1, PROPOSER (config w)) :: started w /\
    file_of w' "history.md"
      = Some (((h ++ turn_record "PROPOSER" (proposer_round h) e1.1 e1.2)
                 ++ turn_record "CRITIC"
                      (critic_round
                         (h ++ turn_record "PROPOSER" (proposer_round h) e1.1 e1.2))
                      c1.1 c1.2)
                ++ turn_record "PROPOSER"
                     (proposer_round
                        ((h ++ turn_record "PROPOSER" (proposer_round h) e1.1 e1.2)
                           ++ turn_record "CRITIC"
                                (critic_round
                                   (h ++ turn_record "PROPOSER" (proposer_round h)
                                           e1.1 e1.2))
                                c1.1 c1.2))
                     e2.1 e2.2) /\
    free_of "#" e1.1 = true /\ free_of "#" c1.1 = true /\
    file_of w' "state.md" = Some (State_value CRITIC_TURN) /\
    file_of w' "proposer.md" = Some e2.2 /\
    file_of w' "critic.md" = Some c1.2 /\
    ~ has_marker_any_case c1.2 /\
    config w' = config w /\
    events w' = (budget_report 2 ++ earlier)%list.
Proof.
  intros Hmax Hplayed Hready Hstate Hproposer Hcritic.
  pose proof Hready as (Hd & Hg & Hh & Hc).
  (* first proposer turn *)
  destruct (proposer_turn_answered env w d g h c _ Hready Hproposer)
    as (v1 & p1 & Hcall1 & _ & Hturn1 & Hcv1 & Hsv1).
  set (t1 := strftime (now env (length (events v1)))).
  set (w1 := proposer_done env v1 d h p1) in *.
  rewrite (debate_loop_proposer env 3 0 w w1 ltac:(lia)
             (get_state_run _ _ _ Hd Hstate) Hturn1).
  destruct (after_proposer_turn_lookup d h t1 p1) as (Hs1 & Hh1 & Hp1 & Hg1 & _).
  set (d1 := after_proposer_turn d h t1 p1) in *.
  set (h1 := h ++ turn_record "PROPOSER" (proposer_round h) t1 p1) in *.
  set (W1 := with_event (Sleep POLL_INTERVAL) w1).
  assert (debate W1 = Some d1) as HdW1 by reflexivity.
  assert (config W1 = config w) as HcW1 by exact Hcv1.
  assert (started W1 = (S (S (S (S (length (events w))))), PROPOSER (config w)) :: started w)
    as HsW1 by exact Hsv1.
  assert (played env W1 rounds (Some (t1, p1))) as Hplayed1.
  { apply (played_pause env w1); [| reflexivity].
    eapply played_proposal; [exact Hplayed | |].
    - now rewrite (get_state_run _ _ _ Hd Hstate).
    - exists d, g, h, c, v1.
      split; [exact Hready |]. split; [exact Hcall1 |]. split; [reflexivity | exact Hturn1]. }
  (* critic turn *)
  assert (critic_ready W1 d1 g h1 p1) as Hready1.
  { repeat split; try assumption. congruence. }
  rewrite <- HcW1 in Hcritic.
  destruct (critic_turn_answered env W1 d1 g h1 p1 _ Hready1 Hcritic)
    as (v2 & c2 & Hcall2 & Hclean & Hturn2 & Hcv2 & Hsv2).
  set (t2 := strftime (now env (length (events v2)))).
  set (w2 := critic_done env v2 d1 h1 c2) in *.
  rewrite (debate_loop_critic env 2 (0 + 1) W1 w2 ltac:(rewrite HcW1; lia)
             (get_state_run _ _ _ HdW1 Hs1) Hturn2).
  apply marker_check_false in Hclean as Hmarker.
  destruct (after_critic_turn_lookup d1 h1 t2 c2 Hmarker) as (Hs2 & Hh2 & Hcr2 & Hg2 & Hp2).
  set (d2 := after_critic_turn d1 h1 t2 c2) in *.
  set (h2 := h1 ++ turn_record "CRITIC" (critic_round h1) t2 c2) in *.
  set (W2 := with_event (Sleep POLL_INTERVAL) w2).
  assert (debate W2 = Some d2) as HdW2 by reflexivity.
  assert (config W2 = config w) as HcW2 by (etransitivity; [exact Hcv2 | exact HcW1]).
  assert (started W2 = (S (S (S (S (length (events W1))))), CRITIC (config W1))
                         :: started W1) as HsW2 by exact Hsv2.
  assert (played env W2 (rounds ++ [((t1, p1), (t2, c2))]) None) as Hplayed2.
  { apply (played_pause env w2); [| reflexivity].
    eapply played_critique; [exact Hplayed1 | |].
    - now rewrite (get_state_run _ _ _ HdW1 Hs1).
    - exists d1, g, h1, p1, v2.
      split; [exact Hready1 |]. split; [exact Hcall2 |]. split; [reflexivity | exact Hturn2]. }
  (* second proposer turn *)
  assert (proposer_ready W2 d2 g h2 c2) as Hready2.
  { repeat split; try assumption. congruence. }
  rewrite <- HcW2 in Hproposer.
  destruct (proposer_turn_answered env W2 d2 g h2 c2 _ Hready2 Hproposer)
    as (v3 & p3 & Hcall3 & _ & Hturn3 & Hcv3 & Hsv3).
  set (t3 := strftime (now env (length (events v3)))).
  set (w3 := proposer_done env v3 d2 h2 p3) in *.
  rewrite (debate_loop_proposer env 1 (0 + 1) W2 w3 ltac:(rewrite HcW2; lia)
             (get_state_run _ _ _ HdW2 Hs2) Hturn3).
  destruct (after_proposer_turn_lookup d2 h2 t3 p3) as (Hs3 & Hh3 & Hp3 & _ & Hcr3).
  set (W3 := with_event (Sleep POLL_INTERVAL) w3).
  assert (config W3 = config w) as HcW3 by (etransitivity; [exact Hcv3 | exact HcW2]).
  assert (started W3 = (S (S (S (S (length (events W2))))), PROPOSER (config W2))
                         :: started W2) as HsW3 by exact Hsv3.
  assert (played env W3 (rounds ++ [((t1, p1), (t2, c2))]) (Some (t3, p3))) as Hplayed3.
  { apply (played_pause env w3); [| reflexivity].
    eapply played_proposal; [exact Hplayed2 | |].
    - now rewrite (get_state_run _ _ _ HdW2 Hs2).
    - exists d2, g, h2, c2, v3.
      split; [exact Hready2 |]. split; [exact Hcall3 |]. split; [reflexivity | exact Hturn3]. }
  (* the budget is used up *)
  destruct (debate_loop_exhausted env 1 (0 + 1 + 1) W3 ltac:(rewrite HcW3; lia))
    as (w' & Hloop & Hd' & Hc' & Hev').
  exists w', (t1, p1), (t2, c2), (t3, p3).
  eexists _, _, _, (events W3).
  split; [exact Hloop |].
  split; [now apply (played_pause env W3) |].
  split.
  { unfold started at 1. rewrite Hev'. cbn [budget_report app omap list_omap].
    fold (started W3). rewrite HsW3, HsW2, HsW1, HcW2, HcW1. reflexivity. }
  unfold file_of. rewrite Hd'.
  change (debate W3) with (Some (after_proposer_turn d2 h2 t3 p3)).
  cbn [fst snd]. rewrite Hs3, Hh3, Hp3, Hcr3, Hcr2.
  repeat split; try assumption; try apply free_of_strftime.
  - congruence.
  - rewrite Hev', HcW3, Hmax. reflexivity.
Qed.

Lemma setup_debate_dir_starts_nothing (goal : string) (w : world) :
  debate w = None -> truthy goal = true ->
  exists w',
    setup_debate_dir (Some goal) w = (w', Return tt) /\
    debate w' = Some (fresh_session goal) /\ config w' = config w /\
    started w' = started w.
Proof.
  intros Habsent Hgoal.
  unfold setup_debate_dir, mkdir_exist_ok, create_files, fresh_session.
  rewrite Hgoal.
  rewrite (bind_Return _ _ _ _ _ (modify_run _ _)).
  rewrite Habsent. cbn [default from_option].
  repeat (erewrite bind_Return; [| eapply write_file_run; run_store; reflexivity];
          rewrite (bind_Return _ _ _ _ _ (print_run _ _))).
  eexists. split; [reflexivity |]. split; [reflexivity |]. split; reflexivity.
Qed.

Lemma count_first_record (e : entry) :
  sound e ->
  count PROPOSER_HEADER (TRANSCRIPT_OPENING ++ turn_record "PROPOSER" 1 e.1 e.2) = 1%nat.
Proof.
  intros Hsound.
  pose proof (count_records 1 [] (Some e) ltac:(constructor)
                ltac:(now intros p [= <-])) as Hcount.
  cbn [records_from render_all length] in Hcount. rewrite append_empty_r in Hcount.
  rewrite count_opening. exact Hcount.
Qed.

Lemma count_first_round (e c : entry) (r : Z) :
  sound e -> sound c -> r = 1 ->
  count PROPOSER_HEADER
    (TRANSCRIPT_OPENING ++ turn_record "PROPOSER" 1 e.1 e.2
       ++ turn_record "CRITIC" r c.1 c.2) = 1%nat.
Proof.
  intros He Hc ->.
  pose proof (count_records 1 [(e, c)] None
                ltac:(constructor; [split; assumption | constructor])
                ltac:(discriminate)) as Hcount.
  cbn [records_from render_all length] in Hcount. rewrite append_empty_r in Hcount.
  rewrite count_opening. exact Hcount.
Qed.

(** C2, as the code has it.  A new debate with a round budget of 2, in
    which both agents answer every time and the critic never gives the
    marker: exactly three turns complete - a proposer turn, a critic turn
    and a second proposer turn - and then the loop finds the budget used
    up (the budget counts proposer turns).  Three processes have been
    started, the proposer's, the critic's and the proposer's again;
    [main] returns 0 and the last thing printed is the budget report.
    The transcript is the opening lines followed by exactly three records
    - PROPOSER, CRITIC, PROPOSER - that hold what the three calls
    returned; their rounds are 1, 1 and 2 when no answer contains the
    heading that is counted.  The state is the CRITIC_TURN the second
    proposer turn left. *)
Theorem budget_of_two_stops_after_second_proposal
    (env : environment) (goal proposer critic : string) (w0 : world) :
  truthy goal = true ->
  always_answers env proposer (fun _ => True) ->
  always_answers env critic (fun r => ~ has_marker_any_case r) ->
  exists w' e1 c1 e2 r2 r3 pid1 pid2 pid3 earlier,
    main env (mkArguments (Some goal) None false proposer critic 2 false) w0
      = (w', Return 0) /\
    played env w' [(e1, c1)] (Some e2) /\
    started w' = (pid3, proposer) :: (pid2, critic) :: (pid1, proposer) :: started w0 /\
    file_of w' "history.md"
      = Some (TRANSCRIPT_OPENING
                ++ turn_record "PROPOSER" 1 e1.1 e1.2
                ++ turn_record "CRITIC" r2 c1.1 c1.2
                ++ turn_record "PROPOSER" r3 e2.1 e2.2) /\
    r2 = Z.of_nat (count PROPOSER_HEADER
                     (TRANSCRIPT_OPENING ++ turn_record "PROPOSER" 1 e1.1 e1.2)) /\
    r3 = Z.of_nat (count PROPOSER_HEADER
                     (TRANSCRIPT_OPENING ++ turn_record "PROPOSER" 1 e1.1 e1.2
                        ++ turn_record "CRITIC" r2 c1.1 c1.2)) + 1 /\
    (clean e1.2 -> r2 = 1) /\
    (clean e1.2 -> clean c1.2 -> r3 = 2) /\
    file_of w' "state.md" = Some "CRITIC_TURN" /\
    file_of w' "proposer.md" = Some e2.2 /\
    file_of w' "critic.md" = Some c1.2 /\
    ~ has_marker_any_case c1.2 /\
    events w' = (budget_report 2 ++ earlier)%list.
Proof.
  intros Hgoal Hproposer Hcritic.
  rewrite main_cases. cbv zeta.
  unfold goal_given, globals_of.
  cbn [arg_swap arg_proposer arg_critic arg_max_rounds arg_goal arg_goal_file
       arg_resume option_truthy from_option id].
  rewrite Hgoal. cbv beta iota.
  set (G := "# Goal" ++ LF ++ LF ++ goal).
  assert (truthy G = true) as HG by reflexivity.
  cbn [option_truthy]. rewrite HG.
  set (wa := with_debate None (with_config (mkGlobals proposer critic 2) w0)).
  destruct (setup_debate_dir_starts_nothing G wa eq_refl HG) as (wc & Hsetup & Hdc & Hcc & Hsc).
  rewrite Hsetup. cbn [fst].
  set (wd := and_then (start_report (config wc)) wc).
  assert (run_debate_loop env wc = debate_loop env 4 0 wd) as Hstart
    by (rewrite run_debate_loop_start; subst wd; rewrite Hcc; reflexivity).
  assert (config wd = mkGlobals proposer critic 2) as Hconfig by exact Hcc.
  assert (proposer_ready wd (fresh_session G) G TRANSCRIPT_OPENING
            ("# Critique" ++ LF ++ LF ++ "(No critique yet - this is Round 1)"))
    as Hready.
  { unfold proposer_ready, fresh_session. split; [exact Hdc |].
    repeat split; now simplify_map_eq. }
  rewrite <- (f_equal PROPOSER Hconfig : PROPOSER (config wd) = proposer) in Hproposer.
  rewrite <- (f_equal CRITIC Hconfig : CRITIC (config wd) = critic) in Hcritic.
  destruct (debate_loop_budget_two_log env wd _ _ _ _ []
              (f_equal MAX_ROUNDS Hconfig)
              (played_new env wd G Hdc) Hready eq_refl Hproposer Hcritic)
    as (w' & e1 & c1 & e2 & pid1 & pid2 & pid3 & earlier
        & Hrun & Hplayed & Hstarted & Hh & Ht1 & Ht2 & Hs & Hp & Hc & Hnomarker & _ & Hev).
  exists w', e1, c1, e2. eexists _, _. exists pid1, pid2, pid3, earlier.
  assert (proposer_round TRANSCRIPT_OPENING = 1) as Hone by reflexivity.
  rewrite Hone in Hh.
  split.
  { unfold loop_in_main.
    rewrite (bind_Return _ _ _ w' tt); [reflexivity |].
    apply try_except_Return. now rewrite Hstart. }
  split; [exact Hplayed |].
  split.
  { rewrite Hstarted, Hconfig. cbn [PROPOSER CRITIC]. do 3 f_equal. exact Hsc. }
  split; [rewrite Hh, !append_assoc; reflexivity |].
  split; [unfold critic_round; lia |].
  split; [reflexivity |].
  split.
  { intros Hclean1. unfold critic_round.
    rewrite count_first_record by (split; assumption). lia. }
  split.
  { intros Hclean1 Hclean2. unfold proposer_round.
    rewrite ?append_assoc.
    rewrite count_first_round; [lia | split; assumption | split; assumption |].
    unfold critic_round. rewrite count_first_record by (split; assumption). lia. }
  repeat split; assumption.
Qed.

Lemma budget_of_two_stops_after_second_proposal_witness :
  exists w' e1 c1 e2 r2 r3 pid1 pid2 pid3 earlier,
    main env_disagreeing (mkArguments (Some "pick a color") None false
                            "claude" "codex" 2 false) empty_world
      = (w', Return 0) /\
    played env_disagreeing w' [(e1, c1)] (Some e2) /\
    started w'
      = (pid3, "claude") :: (pid2, "codex") :: (pid1, "claude") :: started empty_world /\
    file_of w' "history.md"
      = Some (TRANSCRIPT_OPENING
                ++ turn_record "PROPOSER" 1 e1.1 e1.2
                ++ turn_record "CRITIC" r2 c1.1 c1.2
                ++ turn_record "PROPOSER" r3 e2.1 e2.2) /\
    r2 = Z.of_nat (count PROPOSER_HEADER
                     (TRANSCRIPT_OPENING ++ turn_record "PROPOSER" 1 e1.1 e1.2)) /\
    r3 = Z.of_nat (count PROPOSER_HEADER
                     (TRANSCRIPT_OPENING ++ turn_record "PROPOSER" 1 e1.1 e1.2
                        ++ turn_record "CRITIC" r2 c1.1 c1.2)) + 1 /\
    (clean e1.2 -> r2 = 1) /\
    (clean e1.2 -> clean c1.2 -> r3 = 2) /\
    file_of w' "state.md" = Some "CRITIC_TURN" /\
    file_of w' "proposer.md" = Some e2.2 /\
    file_of w' "critic.md" = Some c1.2 /\
    ~ has_marker_any_case c1.2 /\
    events w' = (budget_report 2 ++ earlier)%list.
Proof.
  apply (budget_of_two_stops_after_second_proposal env_disagreeing
           "pick a color" "claude" "codex" empty_world).
  - reflexivity.
  - eapply always_answers_weaken; [| apply sample_claude_answers]. tauto.
  - eapply always_answers_weaken; [| apply sample_codex_answers].
    intros r ->. apply marker_check_false. vm_compute. reflexivity.
Defined.

(** C2, as stated, fails: with a budget of 2 and a critic that asks for a
    revision, three processes are started - claude, codex, claude - and the
    run ends with three records in the transcript and a critic turn due. *)
Lemma budget_of_two_leaves_three_records :
  (main env_disagreeing (start "pick a color" 2) empty_world).2 = Return 0 /\
  started (main env_disagreeing (start "pick a color" 2) empty_world).1
    = [(32%nat, "claude"); (24%nat, "codex"); (16%nat, "claude")] /\
  file_of (main env_disagreeing (start "pick a color" 2) empty_world).1 "state.md"
    = Some "CRITIC_TURN" /\
  file_of (main env_disagreeing (start "pick a color" 2) empty_world).1 "history.md"
    = Some (("# Debate History" ++ LF ++ LF ++ "---" ++ LF)
              ++ turn_record "PROPOSER" 1 "2026-01-02 03:04" "# Proposal: blue"
              ++ turn_record "CRITIC" 1 "2026-01-02 03:04" "Verdict: NEEDS_REVISION"
              ++ turn_record "PROPOSER" 2 "2026-01-02 03:04" "# Proposal: blue").
Proof. repeat apply conj; vm_compute; reflexivity. Qed.
